(** * XStream Creative Suite: workflow orchestration, edit history, video poller

    A shallow embedding of the React components and of the service layer:
    every component is a record of its [useState] cells, every handler a
    function on that record.  An [await] on the backend is modelled by an
    explicit reply passed to the handler; handlers that interleave (the two
    streamed tasks of the Creative Assistant, the video poll loop) are run
    against a schedule or a scripted backend, and the iteration of the
    Creative Assistant, during which the tool stays usable, is split at its
    [await]. *)

From Stdlib Require Import ZArith List String Ascii Bool Lia.
Import ListNotations.

Open Scope string_scope.
Open Scope list_scope.
Open Scope Z_scope.

(** ** JavaScript values used by the components *)

(** A JavaScript string is held as the bytes of its UTF-8 encoding: an ASCII
    character is one byte, and [includes], [split] and [match] on ASCII
    patterns see the same matches as on the code units. *)

Module JS.

(** [s] in a boolean position: the empty string is falsy. *)
Definition truthy (s : string) : bool :=
  match s with
  | EmptyString => false
  | String _ _ => true
  end.

(** [null] / [undefined] are [None]. *)
Definition truthy_opt (o : option string) : bool :=
  match o with
  | None => false
  | Some s => truthy s
  end.

(** [a || b] on strings. *)
Definition or_else (a b : string) : string :=
  if truthy a then a else b.

(** [arr[i]]: [undefined] outside of [0 .. length-1]. *)
Definition index {A : Type} (arr : list A) (i : Z) : option A :=
  if i <? 0 then None else nth_error arr (Z.to_nat i).

(** [arr.length]. *)
Definition len {A : Type} (arr : list A) : Z := Z.of_nat (List.length arr).

(** [arr.slice(0, e)]: a negative [e] counts from the end, and the bound is
    clamped to [0 .. length]. *)
Definition slice0 {A : Type} (arr : list A) (e : Z) : list A :=
  let k := if e <? 0 then Z.max (len arr + e) 0 else Z.min e (len arr) in
  firstn (Z.to_nat k) arr.

(** [arr.includes(x)] on an array of strings. *)
Definition arr_includes (arr : list string) (x : string) : bool :=
  existsb (String.eqb x) arr.

(** [s.includes(sub)]. *)
Fixpoint includes (s sub : string) : bool :=
  String.prefix sub s ||
  match s with
  | EmptyString => false
  | String _ s' => includes s' sub
  end.

(** [s.split(sep)] for a one-character separator. *)
Fixpoint split (sep : ascii) (s : string) : list string :=
  match s with
  | EmptyString => [EmptyString]
  | String c s' =>
      if Ascii.eqb c sep then EmptyString :: split sep s'
      else match split sep s' with
           | [] => [String c EmptyString]
           | h :: t => String c h :: t
           end
  end.

(** [`${x}`] for a value that may be [undefined]. *)
Definition interpolate (o : option string) : string :=
  match o with
  | Some s => s
  | None => "undefined"
  end.

End JS.

(** ** services/geminiService: types *)

Record ImageFile := mkImageFile {
  data : option string;   (* base64 payload; [None] is a missing field *)
  type : string           (* mime type *)
}.

(** [`data:${image.type};base64,${image.data}`] *)
Definition dataUrl (image : ImageFile) : string :=
  ("data:" ++ type image ++ ";base64," ++ JS.interpolate (data image))%string.

(** The outcome of an awaited promise. *)
Inductive Settled (A : Type) : Type :=
| Fulfilled (value : A)
| Rejected (message : string).
Arguments Fulfilled {A} value.
Arguments Rejected {A} message.

(** ** App: session library and toasts *)

Module App.

Record LibraryItem := mkItem {
  item_type : string;
  imageUrl : string;
  originalUrl : option string;
  videoUrl : option string
}.

Record state := mk {
  libraryCreations : list LibraryItem;
  toasts : list string
}.

Definition initial : state := mk [] [].

Definition addToast (message : string) (a : state) : state :=
  mk (libraryCreations a) (toasts a ++ [message]).

Definition handleCreationComplete (item : LibraryItem) (a : state) : state :=
  addToast "Saved to Library!" (mk (item :: libraryCreations a) (toasts a)).

End App.

(** ** FaceSwap *)

Module FaceSwap.

Record state := mk {
  isLoading : bool;
  error : option string;
  editHistory : list string;
  editHistoryIndex : Z;
  originalImage : option string;
  isSaved : bool;
  isEditing : bool
}.

Definition initial : state := mk false None [] (-1) None false false.

Definition result (s : state) : option string :=
  if 0 <? JS.len (editHistory s) then JS.index (editHistory s) (editHistoryIndex s)
  else None.

Definition canUndo (s : state) : bool := 0 <? editHistoryIndex s.

Definition canRedo (s : state) : bool :=
  editHistoryIndex s <? JS.len (editHistory s) - 1.

(** [handleFaceSwapGenerate], [reply] being what [performFaceSwap] settles to. *)
Definition handleFaceSwapGenerate (sourceImage faceImage : ImageFile)
    (reply : Settled string) (s : state) : state :=
  let s1 := mk true None [] (-1) (Some (dataUrl sourceImage)) false (isEditing s) in
  match reply with
  | Fulfilled url =>
      mk false (error s1) [url] 0 (originalImage s1) (isSaved s1) (isEditing s1)
  | Rejected message =>
      mk false (Some (JS.or_else message "An unknown error occurred."))
         (editHistory s1) (editHistoryIndex s1) (originalImage s1) (isSaved s1)
         (isEditing s1)
  end.

Definition handleSave (s : state) (a : App.state) : state * App.state :=
  match result s, originalImage s with
  | Some r, Some o =>
      if JS.truthy r && JS.truthy o && negb (isSaved s) then
        (mk (isLoading s) (error s) (editHistory s) (editHistoryIndex s)
            (originalImage s) true (isEditing s),
         App.handleCreationComplete (App.mkItem "Face Swap" r (Some o) None) a)
      else if isSaved s then (s, App.addToast "Already saved!" a)
      else (s, a)
  | _, _ => if isSaved s then (s, App.addToast "Already saved!" a) else (s, a)
  end.

Definition handleEditComplete (newImageUrl : string) (s : state) : state :=
  let newHistory := JS.slice0 (editHistory s) (editHistoryIndex s + 1) ++ [newImageUrl] in
  mk (isLoading s) (error s) newHistory (JS.len newHistory - 1)
     (originalImage s) false false.

Definition handleUndo (s : state) : state :=
  if canUndo s then
    mk (isLoading s) (error s) (editHistory s) (editHistoryIndex s - 1)
       (originalImage s) (isSaved s) (isEditing s)
  else s.

Definition handleRedo (s : state) : state :=
  if canRedo s then
    mk (isLoading s) (error s) (editHistory s) (editHistoryIndex s + 1)
       (originalImage s) (isSaved s) (isEditing s)
  else s.

Definition handleStartOver (s : state) : state :=
  mk (isLoading s) None [] (-1) None false false.

(** What [renderContent] puts on screen. *)
Inductive view :=
| LoadingSpinner
| ErrorPanel (message : string)
| ResultView (beforeImage afterImage : string) (editorOpen : bool)
| InputForm.

Definition renderContent (s : state) : view :=
  if isLoading s then LoadingSpinner
  else if JS.truthy_opt (error s) then ErrorPanel (JS.interpolate (error s))
  else match result s, originalImage s with
       | Some r, Some o =>
           if JS.truthy r && JS.truthy o then ResultView o r (isEditing s)
           else InputForm
       | _, _ => InputForm
       end.

(** The Save button: it is part of the result view, [disabled={isSaved}]. *)
Definition saveEnabled (s : state) : bool :=
  match renderContent s with
  | ResultView _ _ _ => negb (isSaved s)
  | _ => false
  end.

(** A click on Save; a button that is disabled or not on screen does
    nothing. *)
Definition clickSave (s : state) (a : App.state) : state * App.state :=
  if saveEnabled s then handleSave s a else (s, a).

(** User and backend events of one session of the tool. *)
Inductive action :=
| Generate (sourceImage faceImage : ImageFile) (reply : Settled string)
| Save
| OpenEditor
| EditComplete (newImageUrl : string)
| Undo
| Redo
| StartOver.

Definition step (c : state * App.state) (act : action) : state * App.state :=
  let (s, a) := c in
  match act with
  | Generate src face reply => (handleFaceSwapGenerate src face reply s, a)
  | Save => clickSave s a
  | OpenEditor =>
      (mk (isLoading s) (error s) (editHistory s) (editHistoryIndex s)
          (originalImage s) (isSaved s) true, a)
  | EditComplete url => (handleEditComplete url s, a)
  | Undo => (handleUndo s, a)
  | Redo => (handleRedo s, a)
  | StartOver => (handleStartOver s, a)
  end.

Definition run (acts : list action) (c : state * App.state) : state * App.state :=
  fold_left step acts c.

End FaceSwap.


(** ** BackgroundRemover *)

Module BackgroundRemover.

Inductive Stage := input | editing | result.

Record state := mk {
  stage : Stage;
  isLoading : bool;
  error : option string;
  originalImage : option string;
  foregroundImage : option string;
  editHistory : list string;
  editHistoryIndex : Z;
  isSaved : bool;
  isCutoutSaved : bool;
  isEditing : bool;
  backgroundPrompt : string
}.

Definition initial : state :=
  mk input false None None None [] (-1) false false false "".

Definition finalResult (s : state) : option string :=
  if 0 <? JS.len (editHistory s) then JS.index (editHistory s) (editHistoryIndex s)
  else None.

Definition canUndo (s : state) : bool := 0 <? editHistoryIndex s.

Definition canRedo (s : state) : bool :=
  editHistoryIndex s <? JS.len (editHistory s) - 1.

(** [handleInitialRemoval], [reply] being what [performBackgroundRemoval]
    settles to. *)
Definition handleInitialRemoval (image : ImageFile) (reply : Settled string)
    (s : state) : state :=
  let s1 := mk (stage s) true None (Some (dataUrl image)) (foregroundImage s)
               [] (-1) false false (isEditing s) (backgroundPrompt s) in
  match reply with
  | Fulfilled url =>
      mk editing false (error s1) (originalImage s1) (Some url)
         (editHistory s1) (editHistoryIndex s1) (isSaved s1) (isCutoutSaved s1)
         (isEditing s1) (backgroundPrompt s1)
  | Rejected message =>
      mk input false (Some (JS.or_else message "An unknown error occurred."))
         (originalImage s1) (foregroundImage s1)
         (editHistory s1) (editHistoryIndex s1) (isSaved s1) (isCutoutSaved s1)
         (isEditing s1) (backgroundPrompt s1)
  end.

(** The shared tail of [handleGenerateBackground], [handleUploadBackground]
    and [handleGreenScreen]: a composite either becomes the whole history or
    the tool goes back to [editing] with the error. *)
Definition composite_settled (fallback : string) (reply : Settled string)
    (clearError : bool) (s : state) : state :=
  let err := if clearError then None else error s in
  match reply with
  | Fulfilled r =>
      mk result false err (originalImage s) (foregroundImage s)
         [r] 0 (isSaved s) (isCutoutSaved s) (isEditing s) (backgroundPrompt s)
  | Rejected message =>
      mk editing false (Some (JS.or_else message fallback))
         (originalImage s) (foregroundImage s)
         (editHistory s) (editHistoryIndex s) (isSaved s) (isCutoutSaved s)
         (isEditing s) (backgroundPrompt s)
  end.

(** What [trim] strips: the white space and line terminators of
    ECMAScript.  The ASCII ones: TAB, LF, VT, FF, CR and space. *)
Definition blank1 (c : ascii) : bool :=
  existsb (Ascii.eqb c)
    ["009"%char; "010"%char; "011"%char; "012"%char; "013"%char; " "%char].

(** U+00A0, in two bytes. *)
Definition blank2 (c1 c2 : ascii) : bool :=
  Ascii.eqb c1 "194"%char && Ascii.eqb c2 "160"%char.

(** U+1680, U+2000 to U+200A, U+2028, U+2029, U+202F, U+205F, U+3000 and
    U+FEFF, in three bytes. *)
Definition blank3 (c1 c2 c3 : ascii) : bool :=
  (Ascii.eqb c1 "225"%char && Ascii.eqb c2 "154"%char && Ascii.eqb c3 "128"%char)
  || (Ascii.eqb c1 "226"%char && Ascii.eqb c2 "128"%char
      && ((128 <=? Z.of_N (N_of_ascii c3)) && (Z.of_N (N_of_ascii c3) <=? 138)
          || existsb (Ascii.eqb c3) ["168"%char; "169"%char; "175"%char]))
  || (Ascii.eqb c1 "226"%char && Ascii.eqb c2 "129"%char && Ascii.eqb c3 "159"%char)
  || (Ascii.eqb c1 "227"%char && Ascii.eqb c2 "128"%char && Ascii.eqb c3 "128"%char)
  || (Ascii.eqb c1 "239"%char && Ascii.eqb c2 "187"%char && Ascii.eqb c3 "191"%char).

(** [backgroundPrompt.trim()] is non-empty: some character of the prompt is
    not white space. *)
Fixpoint has_non_blank (s : string) : bool :=
  match s with
  | EmptyString => false
  | String c1 r1 =>
      if blank1 c1 then has_non_blank r1
      else
        match r1 with
        | EmptyString => true
        | String c2 r2 =>
            if blank2 c1 c2 then has_non_blank r2
            else
              match r2 with
              | EmptyString => true
              | String c3 r3 =>
                  if blank3 c1 c2 c3 then has_non_blank r3 else true
              end
        end
  end.

Definition handleGenerateBackground (reply : Settled string) (s : state) : state :=
  if negb (JS.truthy_opt (foregroundImage s)) || negb (has_non_blank (backgroundPrompt s))
  then s
  else composite_settled "Failed to generate background." reply true s.

(** [file] is the chosen upload, if any. *)
Definition handleUploadBackground (file : option ImageFile) (reply : Settled string)
    (s : state) : state :=
  match file with
  | None => s
  | Some _ =>
      if negb (JS.truthy_opt (foregroundImage s)) then s
      else composite_settled "Failed to composite images." reply true s
  end.

Definition handleGreenScreen (reply : Settled string) (s : state) : state :=
  if negb (JS.truthy_opt (foregroundImage s)) then s
  else composite_settled "Failed to apply green screen." reply false s.

Definition handleSave (s : state) (a : App.state) : state * App.state :=
  match finalResult s, originalImage s with
  | Some r, Some o =>
      if JS.truthy r && JS.truthy o && negb (isSaved s) then
        (mk (stage s) (isLoading s) (error s) (originalImage s) (foregroundImage s)
            (editHistory s) (editHistoryIndex s) true (isCutoutSaved s)
            (isEditing s) (backgroundPrompt s),
         App.handleCreationComplete (App.mkItem "Background Edit" r (Some o) None) a)
      else if isSaved s then (s, App.addToast "Already saved!" a)
      else (s, a)
  | _, _ => if isSaved s then (s, App.addToast "Already saved!" a) else (s, a)
  end.

Definition handleSaveCutout (s : state) (a : App.state) : state * App.state :=
  match foregroundImage s with
  | Some f =>
      if JS.truthy f && negb (isCutoutSaved s) then
        (mk (stage s) (isLoading s) (error s) (originalImage s) (foregroundImage s)
            (editHistory s) (editHistoryIndex s) (isSaved s) true
            (isEditing s) (backgroundPrompt s),
         App.handleCreationComplete (App.mkItem "Foreground Cutout" f None None) a)
      else if isCutoutSaved s then (s, App.addToast "Cutout already saved!" a)
      else (s, a)
  | None => if isCutoutSaved s then (s, App.addToast "Cutout already saved!" a) else (s, a)
  end.

Definition handleEditComplete (newImageUrl : string) (s : state) : state :=
  let newHistory := JS.slice0 (editHistory s) (editHistoryIndex s + 1) ++ [newImageUrl] in
  mk (stage s) (isLoading s) (error s) (originalImage s) (foregroundImage s)
     newHistory (JS.len newHistory - 1) false (isCutoutSaved s) false
     (backgroundPrompt s).

Definition handleUndo (s : state) : state :=
  if canUndo s then
    mk (stage s) (isLoading s) (error s) (originalImage s) (foregroundImage s)
       (editHistory s) (editHistoryIndex s - 1) (isSaved s) (isCutoutSaved s)
       (isEditing s) (backgroundPrompt s)
  else s.

Definition handleRedo (s : state) : state :=
  if canRedo s then
    mk (stage s) (isLoading s) (error s) (originalImage s) (foregroundImage s)
       (editHistory s) (editHistoryIndex s + 1) (isSaved s) (isCutoutSaved s)
       (isEditing s) (backgroundPrompt s)
  else s.

Definition handleStartOver (s : state) : state :=
  mk input (isLoading s) None None None [] (-1) false false false "".

(** The "Try Again" button of the error panel. *)
Definition tryAgain (s : state) : state :=
  mk editing (isLoading s) None (originalImage s) (foregroundImage s)
     (editHistory s) (editHistoryIndex s) (isSaved s) (isCutoutSaved s)
     (isEditing s) (backgroundPrompt s).

Inductive view :=
| LoadingSpinner
| ErrorPanel (message : string)
| ResultView (beforeImage afterImage : string) (editorOpen : bool)
| EditingView (foreground : string)
| InputForm.

Definition renderContent (s : state) : view :=
  if isLoading s then LoadingSpinner
  else if JS.truthy_opt (error s) then ErrorPanel (JS.interpolate (error s))
  else
    let shown_result :=
      match stage s, finalResult s, originalImage s with
      | result, Some r, Some o =>
          if JS.truthy r && JS.truthy o then Some (ResultView o r (isEditing s))
          else None
      | _, _, _ => None
      end in
    match shown_result with
    | Some v => v
    | None =>
        match stage s, foregroundImage s with
        | editing, Some f => if JS.truthy f then EditingView f else InputForm
        | _, _ => InputForm
        end
    end.

(** The Save button of the result view, [disabled={isSaved}], and the Save
    Cutout button of the editing view, [disabled={isCutoutSaved}]. *)
Definition saveEnabled (s : state) : bool :=
  match renderContent s with
  | ResultView _ _ _ => negb (isSaved s)
  | _ => false
  end.

Definition saveCutoutEnabled (s : state) : bool :=
  match renderContent s with
  | EditingView _ => negb (isCutoutSaved s)
  | _ => false
  end.

(** Clicks on the two buttons; a button that is disabled or not on screen
    does nothing. *)
Definition clickSave (s : state) (a : App.state) : state * App.state :=
  if saveEnabled s then handleSave s a else (s, a).

Definition clickSaveCutout (s : state) (a : App.state) : state * App.state :=
  if saveCutoutEnabled s then handleSaveCutout s a else (s, a).

Inductive action :=
| InitialRemoval (image : ImageFile) (reply : Settled string)
| SetBackgroundPrompt (text : string)
| GenerateBackground (reply : Settled string)
| UploadBackground (file : option ImageFile) (reply : Settled string)
| GreenScreen (reply : Settled string)
| Save
| SaveCutout
| OpenEditor
| EditComplete (newImageUrl : string)
| Undo
| Redo
| StartOver
| TryAgain.

Definition step (c : state * App.state) (act : action) : state * App.state :=
  let (s, a) := c in
  match act with
  | InitialRemoval image reply => (handleInitialRemoval image reply s, a)
  | SetBackgroundPrompt text =>
      (mk (stage s) (isLoading s) (error s) (originalImage s) (foregroundImage s)
          (editHistory s) (editHistoryIndex s) (isSaved s) (isCutoutSaved s)
          (isEditing s) text, a)
  | GenerateBackground reply => (handleGenerateBackground reply s, a)
  | UploadBackground file reply => (handleUploadBackground file reply s, a)
  | GreenScreen reply => (handleGreenScreen reply s, a)
  | Save => clickSave s a
  | SaveCutout => clickSaveCutout s a
  | OpenEditor =>
      (mk (stage s) (isLoading s) (error s) (originalImage s) (foregroundImage s)
          (editHistory s) (editHistoryIndex s) (isSaved s) (isCutoutSaved s)
          true (backgroundPrompt s), a)
  | EditComplete url => (handleEditComplete url s, a)
  | Undo => (handleUndo s, a)
  | Redo => (handleRedo s, a)
  | StartOver => (handleStartOver s, a)
  | TryAgain => (tryAgain s, a)
  end.

Definition run (acts : list action) (c : state * App.state) : state * App.state :=
  fold_left step acts c.

End BackgroundRemover.


(** ** services/geminiService: requests, responses, the video poller *)

Module Service.

(** A content part of a request or of a response candidate. *)
Inductive Part :=
| text (t : string)
| inlineData (payload : option string) (mimeType : string).

Definition imageToPart (image : ImageFile) : Part :=
  inlineData (data image) (type image).

Record Request := mkRequest {
  model : string;
  parts : list Part
}.

(** The request [generateImage] sends. *)
Definition generateImage_request (prompt : string) (sourceImage : option ImageFile)
    (assets : list ImageFile) (aspectRatio : string) : Request :=
  let allImages :=
    match sourceImage with
    | Some src => src :: assets
    | None => assets
    end in
  mkRequest "gemini-2.5-flash-image" ([text prompt] ++ map imageToPart allImages).

(** What [generateImage] reads of a [GenerateContentResponse]:
    [candidates], the [content] of a candidate and the [parts] of a content.
    A field that is not there is [None]. *)
Record Content := mkContent {
  content_parts : option (list Part)
}.

Record Candidate := mkCandidate {
  content : option Content
}.

Record GenerateContentResponse := mkGenerateContentResponse {
  candidates : option (list Candidate)
}.

(** A well-formed response: one candidate whose content holds [ps]. *)
Definition response_with (ps : list Part) : GenerateContentResponse :=
  mkGenerateContentResponse (Some [mkCandidate (Some (mkContent (Some ps)))]).

(** The message of the [TypeError] thrown when [property] is read of
    [undefined], and of the one thrown when the parts are not there to loop
    over (in the wording of V8). *)
Definition TypeError_reading (property : string) : string :=
  ("Cannot read properties of undefined (reading '" ++ property ++ "')")%string.

Definition TypeError_not_iterable : string :=
  "response.candidates[0].content.parts is not iterable".

(** [response.candidates[0].content.parts], read without a guard. *)
Definition response_parts (response : GenerateContentResponse)
    : Settled (list Part) :=
  match candidates response with
  | None => Rejected (TypeError_reading "0")
  | Some [] => Rejected (TypeError_reading "content")
  | Some (candidate :: _) =>
      match content candidate with
      | None => Rejected (TypeError_reading "parts")
      | Some c =>
          match content_parts c with
          | None => Rejected TypeError_not_iterable
          | Some ps => Fulfilled ps
          end
      end
  end.

(** The loop over the parts. *)
Fixpoint first_image (response : list Part) : Settled string :=
  match response with
  | [] => Rejected "No image was generated."
  | inlineData payload mimeType :: _ =>
      Fulfilled ("data:" ++ mimeType ++ ";base64," ++ JS.interpolate payload)%string
  | text _ :: rest => first_image rest
  end.

(** [generateImage] once the backend has answered [reply] to its request. *)
Definition generateImage (reply : Settled GenerateContentResponse) : Settled string :=
  match reply with
  | Fulfilled response =>
      match response_parts response with
      | Fulfilled ps => first_image ps
      | Rejected message => Rejected message
      end
  | Rejected message => Rejected message
  end.

Definition VEO_API_KEY_ERROR_MESSAGE : string := "Requested entity was not found.".

(** A long-running video operation: [done] and
    [response?.generatedVideos?.[0]?.video?.uri]. *)
Record Operation := mkOperation {
  done : bool;
  uri : option string
}.

(** What the poller does to the outside world. *)
Inductive Effect :=
| generateVideos (prompt : string) (image : ImageFile)
| setTimeout (ms : Z)
| getVideosOperation.

(** The backend as the poller sees it: the answer to the submission and the
    answer to the [i]-th status query. *)
Record VideoBackend := mkVideoBackend {
  submitted : Settled Operation;
  queried : nat -> Settled Operation
}.

(** [while (!operation.done) { await sleep(10000); operation = await get }],
    [i] status queries having been made; [None] when [fuel] iterations did not
    reach the end of the loop. *)
Fixpoint poll (fuel : nat) (backend : VideoBackend) (operation : Operation)
    (i : nat) (effects : list Effect) : option (Settled Operation * list Effect) :=
  if done operation then Some (Fulfilled operation, effects)
  else
    match fuel with
    | O => None
    | S fuel' =>
        let effects' := effects ++ [setTimeout 10000; getVideosOperation] in
        match queried backend i with
        | Fulfilled operation' => poll fuel' backend operation' (S i) effects'
        | Rejected message => Some (Rejected message, effects')
        end
    end.

(** [animateCharacter]: the settled promise and the effects in order. *)
Definition animateCharacter (fuel : nat) (apiKey : string) (backend : VideoBackend)
    (characterImage : ImageFile) (motion : string)
    : option (Settled string * list Effect) :=
  if negb (JS.truthy apiKey) then
    Some (Rejected "API_KEY environment variable is not configured.", [])
  else
    let effects := [generateVideos motion characterImage] in
    match submitted backend with
    | Rejected message => Some (Rejected message, effects)
    | Fulfilled operation =>
        match poll fuel backend operation 0 effects with
        | None => None
        | Some (Rejected message, effects') => Some (Rejected message, effects')
        | Some (Fulfilled final, effects') =>
            if JS.truthy_opt (uri final)
            then Some (Fulfilled (JS.interpolate (uri final)), effects')
            else Some (Rejected "Video generation failed to produce a download link.",
                       effects')
        end
    end.

End Service.


(** ** CharacterAnimator *)

Module CharacterAnimator.

Inductive ApiKeyStatus := checking | not_selected | selected.

Record state := mk {
  isLoading : bool;
  error : option string;
  resultUrl : option string;
  originalCharacterUrl : option string;
  loadingMessage : string;
  apiKeyStatus : ApiKeyStatus
}.

Definition initial : state := mk false None None None "" checking.

(** The [Response] of the download [fetch], with the blob URL that
    [URL.createObjectURL] would hand out for its body. *)
Record Response := mkResponse {
  ok : bool;
  statusText : string;
  body : string;
  blobUrl : string
}.

(** The [try] block of [handleAnimate]: what it throws or returns, and the
    writes it makes on the way. *)
Definition animate_try (originalUrl : string) (animated : Settled string)
    (download : Settled Response) (s : state) (a : App.state)
    : Settled unit * state * App.state :=
  match animated with
  | Rejected message => (Rejected message, s, a)
  | Fulfilled videoUrl =>
      let s1 := mk (isLoading s) (error s) (resultUrl s) (originalCharacterUrl s)
                   "Polling for video result..." (apiKeyStatus s) in
      match download with
      | Rejected message => (Rejected message, s1, a)
      | Fulfilled response =>
          if negb (ok response) then
            if JS.includes (body response) Service.VEO_API_KEY_ERROR_MESSAGE then
              (Rejected "API key is invalid. Please select a valid key.",
               mk (isLoading s1) (error s1) (resultUrl s1) (originalCharacterUrl s1)
                  (loadingMessage s1) not_selected,
               a)
            else
              (Rejected ("Failed to download video: " ++ statusText response
                         ++ " - " ++ body response)%string,
               s1, a)
          else
            (Fulfilled tt,
             mk (isLoading s1) (error s1) (Some (blobUrl response))
                (originalCharacterUrl s1) (loadingMessage s1) (apiKeyStatus s1),
             App.handleCreationComplete
               (App.mkItem "Character Animation" originalUrl None
                           (Some (blobUrl response))) a)
      end
  end.

(** [handleAnimate]; [animated] is what [animateCharacter] settles to and
    [download] what the authenticated [fetch] settles to. *)
Definition handleAnimate (characterImage : ImageFile) (motion : string)
    (animated : Settled string) (download : Settled Response)
    (s : state) (a : App.state) : state * App.state :=
  let originalUrl := dataUrl characterImage in
  let s0 := mk true None None (Some originalUrl)
               "Preparing character for animation... this can take a few minutes."
               (apiKeyStatus s) in
  match animate_try originalUrl animated download s0 a with
  | (Fulfilled _, s1, a1) =>
      (mk false (error s1) (resultUrl s1) (originalCharacterUrl s1)
          (loadingMessage s1) (apiKeyStatus s1), a1)
  | (Rejected message, s1, a1) =>
      (mk false
          (Some (JS.or_else message "An unknown error occurred during animation."))
          (resultUrl s1) (originalCharacterUrl s1) (loadingMessage s1)
          (apiKeyStatus s1), a1)
  end.

(** [handleAnimate] over the poller itself. *)
Definition animate (fuel : nat) (apiKey : string) (backend : Service.VideoBackend)
    (characterImage : ImageFile) (motion : string) (download : Settled Response)
    (s : state) (a : App.state) : option (state * App.state) :=
  match Service.animateCharacter fuel apiKey backend characterImage motion with
  | None => None
  | Some (animated, _) =>
      Some (handleAnimate characterImage motion animated download s a)
  end.

Definition handleStartOver (s : state) : state :=
  mk false None None None (loadingMessage s) (apiKeyStatus s).

Definition handleSelectKey (s : state) : state :=
  mk (isLoading s) (error s) (resultUrl s) (originalCharacterUrl s)
     (loadingMessage s) selected.

Inductive view :=
| LoadingSpinner
| ErrorPanel (message : string)
| AnimationComplete (video : string)
| CheckingKey
| ApiKeyRequired
| AnimateForm.

(** [CharacterAnimatorInput], which owns the key prompt. *)
Definition CharacterAnimatorInput (status : ApiKeyStatus) : view :=
  match status with
  | checking => CheckingKey
  | not_selected => ApiKeyRequired
  | selected => AnimateForm
  end.

Definition renderContent (s : state) : view :=
  if isLoading s then LoadingSpinner
  else if JS.truthy_opt (error s) then ErrorPanel (JS.interpolate (error s))
  else if JS.truthy_opt (resultUrl s) then AnimationComplete (JS.interpolate (resultUrl s))
  else CharacterAnimatorInput (apiKeyStatus s).

(** [renderContent] in the later revision of the component, which owns the
    key prompt itself and checks the key before anything else. *)
Definition renderContent_keyFirst (s : state) : view :=
  match apiKeyStatus s with
  | checking => CheckingKey
  | not_selected => ApiKeyRequired
  | selected =>
      if isLoading s then LoadingSpinner
      else if JS.truthy_opt (error s) then ErrorPanel (JS.interpolate (error s))
      else if JS.truthy_opt (resultUrl s)
           then AnimationComplete (JS.interpolate (resultUrl s))
           else AnimateForm
  end.

End CharacterAnimator.


(** ** CreativeAssistant *)

Module CreativeAssistant.

Record CreativeControls := mkControls {
  artisticStyle : string;
  aspectRatio : string;
  genre : string;
  lighting : string;
  mood : string;
  cameraAngle : string
}.

Inductive Stage := prompt | content | iterate.

Definition is_iterate (st : Stage) : bool :=
  match st with
  | iterate => true
  | _ => false
  end.

Record state := mk {
  isLoading : bool;
  error : option string;
  topic : string;
  sourceImage : option ImageFile;
  assetLibrary : list ImageFile;
  generateLyricsFlag : bool;
  controls : CreativeControls;
  stage : Stage;
  detailedPrompt : string;
  textResult : string;
  lyricsResult : string;
  imageHistory : list string;
  currentHistoryIndex : Z;
  savedImageUrls : list string;
  editingImage : option string
}.

Definition defaultControls : CreativeControls :=
  mkControls "Photorealistic" "16:9" "None" "Cinematic" "Neutral" "Medium Shot".

Definition initial : state :=
  mk false None "" None [] false defaultControls prompt "" "" "" [] 0 [] None.

(** Record updates, one per group of [useState] setters. *)
Definition with_status (loading : bool) (err : option string) (s : state) : state :=
  mk loading err (topic s) (sourceImage s) (assetLibrary s) (generateLyricsFlag s)
     (controls s) (stage s) (detailedPrompt s) (textResult s) (lyricsResult s)
     (imageHistory s) (currentHistoryIndex s) (savedImageUrls s) (editingImage s).

Definition with_stage (st : Stage) (s : state) : state :=
  mk (isLoading s) (error s) (topic s) (sourceImage s) (assetLibrary s)
     (generateLyricsFlag s) (controls s) st (detailedPrompt s) (textResult s)
     (lyricsResult s) (imageHistory s) (currentHistoryIndex s) (savedImageUrls s)
     (editingImage s).

Definition with_outputs (p t l : string) (s : state) : state :=
  mk (isLoading s) (error s) (topic s) (sourceImage s) (assetLibrary s)
     (generateLyricsFlag s) (controls s) (stage s) p t l
     (imageHistory s) (currentHistoryIndex s) (savedImageUrls s) (editingImage s).

Definition with_history (h : list string) (i : Z) (s : state) : state :=
  mk (isLoading s) (error s) (topic s) (sourceImage s) (assetLibrary s)
     (generateLyricsFlag s) (controls s) (stage s) (detailedPrompt s) (textResult s)
     (lyricsResult s) h i (savedImageUrls s) (editingImage s).

Definition with_index (i : Z) (s : state) : state :=
  with_history (imageHistory s) i s.

Definition with_saved (urls : list string) (s : state) : state :=
  mk (isLoading s) (error s) (topic s) (sourceImage s) (assetLibrary s)
     (generateLyricsFlag s) (controls s) (stage s) (detailedPrompt s) (textResult s)
     (lyricsResult s) (imageHistory s) (currentHistoryIndex s) urls (editingImage s).

Definition with_editing (e : option string) (s : state) : state :=
  mk (isLoading s) (error s) (topic s) (sourceImage s) (assetLibrary s)
     (generateLyricsFlag s) (controls s) (stage s) (detailedPrompt s) (textResult s)
     (lyricsResult s) (imageHistory s) (currentHistoryIndex s) (savedImageUrls s) e.

Definition with_lyricsFlag (flag : bool) (s : state) : state :=
  mk (isLoading s) (error s) (topic s) (sourceImage s) (assetLibrary s)
     flag (controls s) (stage s) (detailedPrompt s) (textResult s)
     (lyricsResult s) (imageHistory s) (currentHistoryIndex s) (savedImageUrls s)
     (editingImage s).

(** [handleGeneratePrompt]; [reply] is the detailed prompt the backend wrote. *)
Definition handleGeneratePrompt (currentTopic : string)
    (currentSourceImage : option ImageFile) (currentAssets : list ImageFile)
    (currentControls : CreativeControls) (reply : Settled string) (s : state)
    : state :=
  let s1 := mk true None currentTopic currentSourceImage currentAssets
               (generateLyricsFlag s) currentControls (stage s) (detailedPrompt s)
               (textResult s) (lyricsResult s) (imageHistory s)
               (currentHistoryIndex s) (savedImageUrls s) (editingImage s) in
  match reply with
  | Fulfilled generatedPrompt =>
      with_status false (error s1)
        (with_stage content
           (with_outputs generatedPrompt (textResult s1) (lyricsResult s1) s1))
  | Rejected message =>
      with_status false (Some (JS.or_else message "Failed to generate prompt.")) s1
  end.

(** *** Content generation: one image, then one or two streamed tasks *)

Inductive StreamId := TextStream | LyricsStream.

(** What a streamed generation will deliver: its chunks, then either the end
    of the stream or a failure. *)
Record Script := mkScript {
  chunks : list string;
  failure : option string
}.

Inductive Task :=
| NotStarted
| Running (remaining : Script)
| Finished (ok : bool).

(** The observable steps of a handler, in the order they happen. *)
Inductive Event :=
| Requested (request : Service.Request)
| ImageSettled (ok : bool)
| StreamStarted (sid : StreamId)
| ChunkReceived (sid : StreamId) (chunk : string)
| StreamSettled (sid : StreamId) (ok : bool)
| StageSet (st : Stage)
| ErrorSet (message : string).

(** A content generation in flight: the component, the two async tasks,
    whether [await Promise.all(streamPromises)] has already resumed the
    handler, and the events so far. *)
Record Run := mkRun {
  component : state;
  textTask : Task;
  lyricsTask : Task;
  resumed : bool;
  log : list Event
}.

Definition task_of (sid : StreamId) (r : Run) : Task :=
  match sid with
  | TextStream => textTask r
  | LyricsStream => lyricsTask r
  end.

Definition set_task (sid : StreamId) (t : Task) (r : Run) : Run :=
  match sid with
  | TextStream => mkRun (component r) t (lyricsTask r) (resumed r) (log r)
  | LyricsStream => mkRun (component r) (textTask r) t (resumed r) (log r)
  end.

(** [setTextResult(prev => prev + chunk)] / [setLyricsResult(...)]. *)
Definition append_chunk (sid : StreamId) (chunk : string) (s : state) : state :=
  match sid with
  | TextStream =>
      with_outputs (detailedPrompt s) (textResult s ++ chunk)%string (lyricsResult s) s
  | LyricsStream =>
      with_outputs (detailedPrompt s) (textResult s) (lyricsResult s ++ chunk)%string s
  end.

(** Every promise handed to [Promise.all] is fulfilled. *)
Definition all_fulfilled (r : Run) : bool :=
  match textTask r, lyricsTask r with
  | Finished true, NotStarted => true
  | Finished true, Finished true => true
  | _, _ => false
  end.

(** [Promise.all] fulfils: the handler goes on to [setStage('iterate')] and
    its [finally]. *)
Definition resume_fulfilled (r : Run) : Run :=
  if negb (resumed r) && all_fulfilled r then
    mkRun (with_status false (error (component r)) (with_stage iterate (component r)))
          (textTask r) (lyricsTask r) true (log r ++ [StageSet iterate])
  else r.

(** [Promise.all] rejects with the first failure: [catch], then [finally]. *)
Definition resume_rejected (message : string) (r : Run) : Run :=
  if negb (resumed r) then
    let shown := JS.or_else message "An error occurred during content generation." in
    mkRun (with_status false (Some shown) (component r))
          (textTask r) (lyricsTask r) true (log r ++ [ErrorSet shown])
  else r.

(** The event loop hands stream [sid] its next chunk, or its end. *)
Definition deliver (r : Run) (sid : StreamId) : Run :=
  match task_of sid r with
  | Running (mkScript (chunk :: rest) f) =>
      let r1 := set_task sid (Running (mkScript rest f)) r in
      mkRun (append_chunk sid chunk (component r1)) (textTask r1) (lyricsTask r1)
            (resumed r1) (log r1 ++ [ChunkReceived sid chunk])
  | Running (mkScript [] None) =>
      let r1 := set_task sid (Finished true) r in
      resume_fulfilled
        (mkRun (component r1) (textTask r1) (lyricsTask r1) (resumed r1)
               (log r1 ++ [StreamSettled sid true]))
  | Running (mkScript [] (Some message)) =>
      let r1 := set_task sid (Finished false) r in
      resume_rejected message
        (mkRun (component r1) (textTask r1) (lyricsTask r1) (resumed r1)
               (log r1 ++ [StreamSettled sid false]))
  | _ => r
  end.

Definition lyrics_wanted (s : state) : bool :=
  generateLyricsFlag s && negb (String.eqb (genre (controls s)) "None").

(** [handleGenerateContent].  [imageReply] answers the image request,
    [textScript] and [lyricsScript] are what the two streams will deliver,
    and [schedule] is the order in which the event loop serves them. *)
Definition handleGenerateContent (finalPrompt : string)
    (imageReply : Settled Service.GenerateContentResponse) (textScript lyricsScript : Script)
    (schedule : list StreamId) (s : state) : Run :=
  let s1 := with_outputs finalPrompt "" "" (with_status true None s) in
  let request :=
    Service.generateImage_request finalPrompt (sourceImage s) (assetLibrary s)
      (aspectRatio (controls s)) in
  match Service.generateImage imageReply with
  | Rejected message =>
      let shown := JS.or_else message "An error occurred during content generation." in
      mkRun (with_status false (Some shown) s1) NotStarted NotStarted true
            [Requested request; ImageSettled false; ErrorSet shown]
  | Fulfilled url =>
      let s2 := with_history [url] 0 s1 in
      let started :=
        if lyrics_wanted s
        then mkRun s2 (Running textScript) (Running lyricsScript) false
               [Requested request; ImageSettled true;
                StreamStarted TextStream; StreamStarted LyricsStream]
        else mkRun s2 (Running textScript) NotStarted false
               [Requested request; ImageSettled true; StreamStarted TextStream] in
      fold_left deliver schedule started
  end.

(** *** Iteration on the latest image *)

Fixpoint strip_prefix (p s : string) : option string :=
  match p, s with
  | EmptyString, _ => Some s
  | String a p', String b s' => if Ascii.eqb a b then strip_prefix p' s' else None
  | String _ _, EmptyString => None
  end.

(** The characters before the first [;], if there is one. *)
Fixpoint until_semicolon (s : string) : option string :=
  match s with
  | EmptyString => None
  | String c s' =>
      if Ascii.eqb c ";"%char then Some EmptyString
      else option_map (String c) (until_semicolon s')
  end.

(** [/data:(image\/[^;]+);/] anchored at the start of [s]: group 1. *)
Definition mime_at (s : string) : option string :=
  match strip_prefix "data:image/" s with
  | Some rest =>
      match until_semicolon rest with
      | Some (String c r) => Some ("image/" ++ String c r)%string
      | _ => None
      end
  | None => None
  end.

(** [s.match(/data:(image\/[^;]+);/)?.[1]]: the leftmost match. *)
Fixpoint match_mime (s : string) : option string :=
  match mime_at s with
  | Some m => Some m
  | None =>
      match s with
      | EmptyString => None
      | String _ s' => match_mime s'
      end
  end.

(** The [ImageFile] that [handleIterateImage] rebuilds from a data URL. *)
Definition lastImageFile (lastImage : string) : ImageFile :=
  mkImageFile (JS.index (JS.split ","%char lastImage) 1)
              (match match_mime lastImage with
               | Some m => m
               | None => "image/png"
               end).

(** [handleIterateImage] is suspended at its [await] while the tool, which
    shows no spinner at the [iterate] stage, goes on handling clicks.  What
    the suspended call keeps is its request and the [imageHistory] of the
    render that called it. *)
Record Iteration := mkIteration {
  iteration_request : Service.Request;
  calledWith : list string
}.

(** [handleIterateImage] up to its [await].  On an empty history
    [lastImage.split] throws before the [try]: nothing is requested and the
    handler never reaches its [finally]. *)
Definition iterate_call (iterationPrompt : string) (s : state)
    : state * option Iteration :=
  let s1 := with_status true None s in
  match JS.index (imageHistory s) (JS.len (imageHistory s) - 1) with
  | None => (s1, None)
  | Some lastImage =>
      (s1,
       Some (mkIteration
               (Service.generateImage_request iterationPrompt
                  (Some (lastImageFile lastImage)) [] (aspectRatio (controls s)))
               (imageHistory s)))
  end.

(** [handleIterateImage] from its [await] on; [reply] answers the image
    request and [s] is the state of the component by then.  The new history
    is built from the history the call was made with. *)
Definition iterate_resume (pending : Iteration)
    (reply : Settled Service.GenerateContentResponse) (s : state)
    : state * list Event :=
  match Service.generateImage reply with
  | Fulfilled url =>
      let newHistory := calledWith pending ++ [url] in
      (with_status false (error s)
         (with_history newHistory (JS.len newHistory - 1) s),
       [ImageSettled true])
  | Rejected message =>
      let shown := JS.or_else message "Failed to iterate on the image." in
      (with_status false (Some shown) s, [ImageSettled false; ErrorSet shown])
  end.

(** [handleIterateImage] when nothing else is handled while it waits. *)
Definition handleIterateImage (iterationPrompt : string)
    (reply : Settled Service.GenerateContentResponse) (s : state)
    : state * list Event :=
  match iterate_call iterationPrompt s with
  | (s1, None) => (s1, [])
  | (s1, Some pending) =>
      (fst (iterate_resume pending reply s1),
       Requested (iteration_request pending) :: snd (iterate_resume pending reply s1))
  end.

Definition handleStartOver (s : state) : state :=
  mk false None "" None [] (generateLyricsFlag s) (controls s) prompt "" "" ""
     [] 0 [] None.

Definition handleSaveToLibrary (s : state) (a : App.state) : state * App.state :=
  match JS.index (imageHistory s) (currentHistoryIndex s) with
  | Some currentImage =>
      if JS.truthy currentImage
         && negb (JS.arr_includes (savedImageUrls s) currentImage)
      then (with_saved (savedImageUrls s ++ [currentImage]) s,
            App.handleCreationComplete
              (App.mkItem "Jackson's Creative AI" currentImage None None) a)
      else (s, App.addToast "Already saved!" a)
  | None => (s, App.addToast "Already saved!" a)
  end.

Definition handleEditComplete (newImageUrl : string) (s : state) : state :=
  let newHistory := imageHistory s ++ [newImageUrl] in
  with_editing None (with_history newHistory (JS.len newHistory - 1) s).

(** The image pane of [renderResults]. *)
Inductive ImagePane :=
| BeforeAfterSlider (beforeImage : string) (afterImage : option string)
| SingleImage (src : option string).

Definition renderResults (s : state) : ImagePane :=
  let currentImage := JS.index (imageHistory s) (currentHistoryIndex s) in
  let previousImage := JS.index (imageHistory s) (currentHistoryIndex s - 1) in
  match previousImage with
  | Some p => if JS.truthy p then BeforeAfterSlider p currentImage
              else SingleImage currentImage
  | None => SingleImage currentImage
  end.

Definition isViewingLatest (s : state) : bool :=
  currentHistoryIndex s =? JS.len (imageHistory s) - 1.

(** What [TopicInput] shows for the stage it is given. *)
Inductive TopicInputView :=
| PromptForm
| ReviewForm
| OlderGenerationNotice
| IterationForm.

Definition TopicInput (s : state) : TopicInputView :=
  match stage s with
  | prompt => PromptForm
  | content => ReviewForm
  | iterate => if isViewingLatest s then IterationForm else OlderGenerationNotice
  end.

Inductive view :=
| LoadingSpinner
| ErrorPanel (message : string)
| Main (form : TopicInputView) (results : option ImagePane) (thumbnails : bool).

Definition render (s : state) : view :=
  if isLoading s && negb (is_iterate (stage s)) then LoadingSpinner
  else if JS.truthy_opt (error s) then ErrorPanel (JS.interpolate (error s))
  else if is_iterate (stage s) && (0 <? JS.len (imageHistory s))
       then Main (TopicInput s) (Some (renderResults s))
                 (1 <? JS.len (imageHistory s))
       else Main (TopicInput s) None false.

(** A click on the history thumbnail number [index]; the button exists only
    for the entries of a history of at least two images. *)
Definition selectHistory (index : Z) (s : state) : state :=
  match render s with
  | Main _ (Some _) true =>
      if (0 <=? index) && (index <? JS.len (imageHistory s))
      then with_index index s else s
  | _ => s
  end.

(** [onGoToLatest], offered by the notice about an older generation. *)
Definition goToLatest (s : state) : state :=
  match render s with
  | Main OlderGenerationNotice _ _ => with_index (JS.len (imageHistory s) - 1) s
  | _ => s
  end.

(** [isCurrentSaved] of [renderResults], and the Save button, which is part
    of the results and [disabled={isCurrentSaved}]. *)
Definition isCurrentSaved (s : state) : bool :=
  match JS.index (imageHistory s) (currentHistoryIndex s) with
  | Some currentImage => JS.arr_includes (savedImageUrls s) currentImage
  | None => false
  end.

Definition saveEnabled (s : state) : bool :=
  match render s with
  | Main _ (Some _) _ => negb (isCurrentSaved s)
  | _ => false
  end.

(** A click on Save; a button that is disabled or not on screen does
    nothing. *)
Definition clickSave (s : state) (a : App.state) : state * App.state :=
  if saveEnabled s then handleSaveToLibrary s a else (s, a).

(** What the user can still click while an iteration is awaited: a history
    thumbnail, "Go to Latest Image", Save, Edit, the editor's Save and
    Close, and Start Over. *)
Inductive click :=
| ClickThumbnail (index : Z)
| ClickGoToLatest
| ClickSave
| ClickEdit
| EditorClose
| EditorSave (newImageUrl : string)
| ClickStartOver.

Definition on_click (c : state * App.state) (k : click) : state * App.state :=
  let (s, a) := c in
  match k with
  | ClickThumbnail index => (selectHistory index s, a)
  | ClickGoToLatest => (goToLatest s, a)
  | ClickSave => clickSave s a
  | ClickEdit =>
      (with_editing (JS.index (imageHistory s) (currentHistoryIndex s)) s, a)
  | EditorClose => (with_editing None s, a)
  | EditorSave url => (handleEditComplete url s, a)
  | ClickStartOver => (handleStartOver s, a)
  end.

(** [handleIterateImage] with the clicks [meanwhile] handled while it
    waits for [reply]. *)
Definition handleIterateImage_while (iterationPrompt : string)
    (meanwhile : list click) (reply : Settled Service.GenerateContentResponse)
    (c : state * App.state) : state * App.state :=
  match iterate_call iterationPrompt (fst c) with
  | (s1, None) => (s1, snd c)
  | (s1, Some pending) =>
      let c2 := fold_left on_click meanwhile (s1, snd c) in
      (fst (iterate_resume pending reply (fst c2)), snd c2)
  end.

Inductive action :=
| SetGenerateLyricsFlag (flag : bool)
| GeneratePrompt (currentTopic : string) (currentSourceImage : option ImageFile)
    (currentAssets : list ImageFile) (currentControls : CreativeControls)
    (reply : Settled string)
| GenerateContent (finalPrompt : string) (imageReply : Settled Service.GenerateContentResponse)
    (textScript lyricsScript : Script) (schedule : list StreamId)
| IterateImage (iterationPrompt : string) (reply : Settled Service.GenerateContentResponse)
| IterateImageWhile (iterationPrompt : string) (meanwhile : list click)
    (reply : Settled Service.GenerateContentResponse)
| SelectHistory (index : Z)
| GoToLatest
| SaveToLibrary
| OpenEditor
| CloseEditor
| EditComplete (newImageUrl : string)
| StartOver.

Definition step (c : state * App.state) (act : action) : state * App.state :=
  let (s, a) := c in
  match act with
  | SetGenerateLyricsFlag flag => (with_lyricsFlag flag s, a)
  | GeneratePrompt t src assets ctl reply =>
      (handleGeneratePrompt t src assets ctl reply s, a)
  | GenerateContent p imageReply textScript lyricsScript schedule =>
      (component (handleGenerateContent p imageReply textScript lyricsScript schedule s), a)
  | IterateImage p reply => (fst (handleIterateImage p reply s), a)
  | IterateImageWhile p meanwhile reply =>
      handleIterateImage_while p meanwhile reply (s, a)
  | SelectHistory index => (selectHistory index s, a)
  | GoToLatest => (goToLatest s, a)
  | SaveToLibrary => clickSave s a
  | OpenEditor =>
      (with_editing (JS.index (imageHistory s) (currentHistoryIndex s)) s, a)
  | CloseEditor => (with_editing None s, a)
  | EditComplete url => (handleEditComplete url s, a)
  | StartOver => (handleStartOver s, a)
  end.

Definition run (acts : list action) (c : state * App.state) : state * App.state :=
  fold_left step acts c.

End CreativeAssistant.

(** ** Specification vocabulary *)

(** The ArtifactHistory invariant: the cursor points into the items, and is
    the sentinel [-1] exactly when there is none. *)
Definition history_invariant (items : list string) (cursor : Z) : Prop :=
  -1 <= cursor < JS.len items
  /\ (items <> [] -> 0 <= cursor < JS.len items)
  /\ (cursor = -1 <-> items = []).


(** [append(a)] of the specification: drop what follows the cursor, add [a]. *)
Definition truncating_append (items : list string) (cursor : Z) (a : string)
    : list string :=
  firstn (Z.to_nat (cursor + 1)) items ++ [a].


(** Whenever the stage is set to [iterate], every stream that was started
    has already completed. *)
Definition iterate_after_join (tr : list CreativeAssistant.Event) : Prop :=
  forall pre post sid,
    tr = pre ++ CreativeAssistant.StageSet CreativeAssistant.iterate :: post ->
    In (CreativeAssistant.StreamStarted sid) tr ->
    In (CreativeAssistant.StreamSettled sid true) pre.

(** The invariants carried along a session of each tool. *)
Definition FaceSwap_inv (s : FaceSwap.state) : Prop :=
  history_invariant (FaceSwap.editHistory s) (FaceSwap.editHistoryIndex s).

Definition BackgroundRemover_inv (s : BackgroundRemover.state) : Prop :=
  history_invariant (BackgroundRemover.editHistory s)
    (BackgroundRemover.editHistoryIndex s).




(** The [i]-th operation the poller gets to see: the answer to the
    submission, then the answers to the status queries. *)
Definition report (backend : Service.VideoBackend) (i : nat) : Settled Service.Operation :=
  match i with
  | O => Service.submitted backend
  | S j => Service.queried backend j
  end.

(** The backend answers every request up to the [k]-th report, and that
    report is the first one marked done. *)
Definition first_done_at (backend : Service.VideoBackend) (k : nat) : Prop :=
  forall j, (j <= k)%nat ->
    exists operation,
      report backend j = Fulfilled operation
      /\ Service.done operation = Nat.eqb j k.

(** [k] rounds of "wait ten seconds, then ask". *)
Fixpoint cycles (k : nat) : list Service.Effect :=
  match k with
  | O => []
  | S k' => [Service.setTimeout 10000; Service.getVideosOperation] ++ cycles k'
  end.

(** How [animateCharacter] settles on a finished operation. *)
Definition resolution (final : Service.Operation) : Settled string :=
  if JS.truthy_opt (Service.uri final)
  then Fulfilled (JS.interpolate (Service.uri final))
  else Rejected "Video generation failed to produce a download link.".

(** [c] occurs in [s]. *)
Fixpoint has_char (c : ascii) (s : string) : bool :=
  match s with
  | EmptyString => false
  | String d s' => Ascii.eqb d c || has_char c s'
  end.

(** An image as the backend and the canvas produce them: an [image/...] mime
    type and a base64 payload, neither holding a [;] or a [,] that would cut
    the data URL short. *)
Definition plain_image (subtype payload : string) : Prop :=
  subtype <> EmptyString
  /\ has_char ";"%char subtype = false
  /\ has_char ","%char subtype = false
  /\ has_char ","%char payload = false.

(** The asset library replaced, everything else as it was. *)
Definition with_assetLibrary (assets : list ImageFile) (s : CreativeAssistant.state)
    : CreativeAssistant.state :=
  CreativeAssistant.mk (CreativeAssistant.isLoading s) (CreativeAssistant.error s)
    (CreativeAssistant.topic s) (CreativeAssistant.sourceImage s) assets
    (CreativeAssistant.generateLyricsFlag s) (CreativeAssistant.controls s)
    (CreativeAssistant.stage s) (CreativeAssistant.detailedPrompt s)
    (CreativeAssistant.textResult s) (CreativeAssistant.lyricsResult s)
    (CreativeAssistant.imageHistory s) (CreativeAssistant.currentHistoryIndex s)
    (CreativeAssistant.savedImageUrls s) (CreativeAssistant.editingImage s).

(** The tool shows an artifact that has not been saved yet. *)
Definition FaceSwap_unsaved (s : FaceSwap.state) (artifact original : string) : Prop :=
  FaceSwap.result s = Some artifact /\ FaceSwap.originalImage s = Some original
  /\ JS.truthy artifact = true /\ JS.truthy original = true
  /\ FaceSwap.isSaved s = false.

Definition BackgroundRemover_unsaved (s : BackgroundRemover.state)
    (artifact original : string) : Prop :=
  BackgroundRemover.finalResult s = Some artifact
  /\ BackgroundRemover.originalImage s = Some original
  /\ JS.truthy artifact = true /\ JS.truthy original = true
  /\ BackgroundRemover.isSaved s = false.

Definition CreativeAssistant_unsaved (s : CreativeAssistant.state) (artifact : string)
    : Prop :=
  JS.index (CreativeAssistant.imageHistory s) (CreativeAssistant.currentHistoryIndex s)
    = Some artifact
  /\ JS.truthy artifact = true
  /\ JS.arr_includes (CreativeAssistant.savedImageUrls s) artifact = false.

(** ** Sample sessions *)

(** A response whose first candidate holds one PNG image. *)
Definition png (payload : string) : Service.GenerateContentResponse :=
  Service.response_with [Service.inlineData (Some payload) "image/png"].

Definition portrait : ImageFile := mkImageFile (Some "SRC") "image/png".
Definition face : ImageFile := mkImageFile (Some "FACE") "image/jpeg".

(** FaceSwap after a swap and two edits, two undos later. *)
Definition faceswap_session : list FaceSwap.action :=
  [FaceSwap.Generate portrait face (Fulfilled "A");
   FaceSwap.OpenEditor; FaceSwap.EditComplete "B";
   FaceSwap.OpenEditor; FaceSwap.EditComplete "C";
   FaceSwap.Undo; FaceSwap.Undo].

Definition faceswap_sample : FaceSwap.state :=
  fst (FaceSwap.run faceswap_session (FaceSwap.initial, App.initial)).

(** BackgroundRemover after a cutout, a green screen and two edits, two undos
    later. *)
Definition remover_session : list BackgroundRemover.action :=
  [BackgroundRemover.InitialRemoval portrait (Fulfilled "CUTOUT");
   BackgroundRemover.GreenScreen (Fulfilled "A");
   BackgroundRemover.OpenEditor; BackgroundRemover.EditComplete "B";
   BackgroundRemover.OpenEditor; BackgroundRemover.EditComplete "C";
   BackgroundRemover.Undo; BackgroundRemover.Undo].

Definition remover_sample : BackgroundRemover.state :=
  fst (BackgroundRemover.run remover_session (BackgroundRemover.initial, App.initial)).

(** The Creative Assistant after one generation and two edits, the user
    having clicked back to the first thumbnail. *)
Definition gallery_session : list CreativeAssistant.action :=
  [CreativeAssistant.GeneratePrompt "a cat" None [] CreativeAssistant.defaultControls
     (Fulfilled "a cat, photorealistic");
   CreativeAssistant.GenerateContent "a cat, photorealistic" (Fulfilled (png "A"))
     (CreativeAssistant.mkScript ["Cats "; "purr."] None)
     (CreativeAssistant.mkScript [] None)
     [CreativeAssistant.TextStream; CreativeAssistant.TextStream;
      CreativeAssistant.TextStream];
   CreativeAssistant.OpenEditor; CreativeAssistant.EditComplete "B";
   CreativeAssistant.OpenEditor; CreativeAssistant.EditComplete "C";
   CreativeAssistant.SelectHistory 1; CreativeAssistant.SelectHistory 0].

Definition gallery_sample : CreativeAssistant.state :=
  fst (CreativeAssistant.run gallery_session
         (CreativeAssistant.initial, App.initial)).

(** The Creative Assistant at its Content stage, and a content generation
    whose image arrives but whose text stream breaks after one chunk. *)
Definition review_sample : CreativeAssistant.state :=
  CreativeAssistant.handleGeneratePrompt "a cat" None []
    CreativeAssistant.defaultControls (Fulfilled "a cat, photorealistic")
    CreativeAssistant.initial.

Definition broken_stream_run : CreativeAssistant.Run :=
  CreativeAssistant.handleGenerateContent "a cat, photorealistic" (Fulfilled (png "A"))
    (CreativeAssistant.mkScript ["Cats "] (Some "stream interrupted"))
    (CreativeAssistant.mkScript [] None)
    [CreativeAssistant.TextStream; CreativeAssistant.TextStream] review_sample.

(** A backend whose submission already comes back done. *)
Definition eager_backend : Service.VideoBackend :=
  Service.mkVideoBackend
    (Fulfilled (Service.mkOperation true (Some "https://video/R?alt=media")))
    (fun _ => Rejected "not asked").

(** A backend that is pending for the submission and the first query, and
    done at the second query. *)
Definition slow_backend : Service.VideoBackend :=
  Service.mkVideoBackend (Fulfilled (Service.mkOperation false None))
    (fun i => match i with
              | O => Fulfilled (Service.mkOperation false None)
              | _ => Fulfilled (Service.mkOperation true (Some "https://video/R?alt=media"))
              end).

(** FaceSwap showing its second history entry. *)
Definition faceswap_edited : FaceSwap.state :=
  fst (FaceSwap.run
         [FaceSwap.Generate portrait face (Fulfilled "A");
          FaceSwap.OpenEditor; FaceSwap.EditComplete "B"]
         (FaceSwap.initial, App.initial)).

(** The Creative Assistant right after its first image. *)
Definition gallery_first : CreativeAssistant.state :=
  fst (CreativeAssistant.run (firstn 2 gallery_session)
         (CreativeAssistant.initial, App.initial)).

(** The Creative Assistant back on its latest image, the third one. *)
Definition gallery_latest : CreativeAssistant.state :=
  CreativeAssistant.goToLatest gallery_sample.

(** Save, edit, undo the edit, save again - in FaceSwap, in
    BackgroundRemover and, with a click on the first thumbnail for the undo,
    in the Creative Assistant. *)
Definition faceswap_resave : list FaceSwap.action :=
  [FaceSwap.Generate portrait face (Fulfilled "A"); FaceSwap.Save;
   FaceSwap.OpenEditor; FaceSwap.EditComplete "B"; FaceSwap.Undo; FaceSwap.Save].

Definition remover_resave : list BackgroundRemover.action :=
  [BackgroundRemover.InitialRemoval portrait (Fulfilled "CUTOUT");
   BackgroundRemover.GreenScreen (Fulfilled "A"); BackgroundRemover.Save;
   BackgroundRemover.OpenEditor; BackgroundRemover.EditComplete "B";
   BackgroundRemover.Undo; BackgroundRemover.Save].

Definition gallery_resave : list CreativeAssistant.action :=
  firstn 2 gallery_session
  ++ [CreativeAssistant.SaveToLibrary;
      CreativeAssistant.OpenEditor; CreativeAssistant.EditComplete "B";
      CreativeAssistant.SelectHistory 0; CreativeAssistant.SaveToLibrary].



(** The Creative Assistant after a generation and one iteration, the user
    having clicked back to the first thumbnail. *)
Definition gallery_iterated : CreativeAssistant.state :=
  fst (CreativeAssistant.run
         (firstn 2 gallery_session
          ++ [CreativeAssistant.IterateImage "add a hat" (Fulfilled (png "B"));
              CreativeAssistant.SelectHistory 0])
         (CreativeAssistant.initial, App.initial)).

(** ** ImageEditor *)

Module ImageEditor.

Record state := mk {
  history : list string;
  historyIndex : Z
}.

(** [useState(['none'])], [useState(0)]; also what the effect on
    [isOpen, imageUrl] resets the editor to. *)
Definition initial : state := mk ["none"] 0.

(** [history[historyIndex] || 'none'] *)
Definition currentFilter (s : state) : string :=
  match JS.index (history s) (historyIndex s) with
  | Some f => JS.or_else f "none"
  | None => "none"
  end.

Definition canUndo (s : state) : bool := 0 <? historyIndex s.

Definition canRedo (s : state) : bool := historyIndex s <? JS.len (history s) - 1.

Definition applyFilter (filterStyle : string) (s : state) : state :=
  let newHistory := JS.slice0 (history s) (historyIndex s + 1) ++ [filterStyle] in
  mk newHistory (JS.len newHistory - 1).

Definition handleUndo (s : state) : state :=
  if canUndo s then mk (history s) (historyIndex s - 1) else s.

Definition handleRedo (s : state) : state :=
  if canRedo s then mk (history s) (historyIndex s + 1) else s.

(** [handleSave]: the data URL handed to [onSave], if any.  [draw] stands for
    the canvas: the base64 PNG of an image drawn under a filter.  The refs
    exist exactly when the editor is rendered, that is when it is open on an
    image. *)
Definition handleSave (draw : string -> string -> string) (isOpen : bool)
    (imageUrl : option string) (s : state) : option string :=
  match imageUrl with
  | Some url =>
      if isOpen && JS.truthy url
      then Some ("data:image/png;base64," ++ draw url (currentFilter s))%string
      else None
  | None => None
  end.

Inductive action :=
| Reopen
| ApplyFilter (filterStyle : string)
| Undo
| Redo.

Definition step (s : state) (act : action) : state :=
  match act with
  | Reopen => initial
  | ApplyFilter f => applyFilter f s
  | Undo => handleUndo s
  | Redo => handleRedo s
  end.

Definition run (acts : list action) (s : state) : state := fold_left step acts s.

End ImageEditor.

(** ** TopicInput: the asset library and the selection *)

Module TopicInput.

(** [a.data === b.data] *)
Definition same_data (a b : ImageFile) : bool :=
  match data a, data b with
  | Some x, Some y => String.eqb x y
  | None, None => true
  | _, _ => false
  end.

Record state := mk {
  assetLibrary : list ImageFile;
  selectedAssets : list ImageFile
}.

Definition initial : state := mk [] [].

Definition toggleAssetSelection (asset : ImageFile) (s : state) : state :=
  if existsb (fun a => same_data a asset) (selectedAssets s)
  then mk (assetLibrary s)
          (filter (fun a => negb (same_data a asset)) (selectedAssets s))
  else mk (assetLibrary s) (selectedAssets s ++ [asset]).

Definition removeAsset (assetToRemove : ImageFile) (s : state) : state :=
  mk (filter (fun a => negb (same_data a assetToRemove)) (assetLibrary s))
     (filter (fun a => negb (same_data a assetToRemove)) (selectedAssets s)).

(** [handleAssetChange], the chosen files having been read. *)
Definition handleAssetChange (newAssets : list ImageFile) (s : state) : state :=
  mk (assetLibrary s ++ newAssets) (selectedAssets s).

Definition resetAll (s : state) : state := mk [] [].

(** The assets [handleSubmitPrompt] passes on. *)
Definition submittedAssets (s : state) : list ImageFile := selectedAssets s.

(** The two buttons on the tile of library entry number [i]; there is no
    button where there is no tile. *)
Inductive action :=
| AddAssets (newAssets : list ImageFile)
| ToggleTile (i : nat)
| RemoveTile (i : nat)
| Reset.

Definition step (s : state) (act : action) : state :=
  match act with
  | AddAssets newAssets => handleAssetChange newAssets s
  | ToggleTile i =>
      match nth_error (assetLibrary s) i with
      | Some asset => toggleAssetSelection asset s
      | None => s
      end
  | RemoveTile i =>
      match nth_error (assetLibrary s) i with
      | Some asset => removeAsset asset s
      | None => s
      end
  | Reset => resetAll s
  end.

Definition run (acts : list action) (s : state) : state := fold_left step acts s.

End TopicInput.

(** ** services/geminiService: the lazily created client *)

Module Client.

Record GoogleGenAI := mkClient { apiKey : string }.

(** [getAi]: what it returns or throws, and the module variable [ai]
    afterwards.  [envKey] is [process.env.API_KEY], empty when unset. *)
Definition getAi (envKey : string) (ai : option GoogleGenAI)
    : Settled GoogleGenAI * option GoogleGenAI :=
  match ai with
  | Some client => (Fulfilled client, ai)
  | None =>
      if negb (JS.truthy envKey) then
        (Rejected
           "Configuration Error: API_KEY is not available. Please set the API_KEY environment variable.",
         None)
      else (Fulfilled (mkClient envKey), Some (mkClient envKey))
  end.

(** One call of [getAi] per environment value, in order. *)
Fixpoint calls (envKeys : list string) (ai : option GoogleGenAI)
    : list (Settled GoogleGenAI) :=
  match envKeys with
  | [] => []
  | envKey :: rest =>
      let (outcome, ai') := getAi envKey ai in
      outcome :: calls rest ai'
  end.

End Client.

(** ** ImageDropzone: reading an upload *)

Module ImageDropzone.

(** [event.target.result] of the [FileReader]. *)
Inductive ReaderResult :=
| text (result : string)
| notText.

(** [fileToImageFile] once the reader has loaded. *)
Definition fileToImageFile (fileType : string) (loaded : ReaderResult)
    : Settled ImageFile :=
  match loaded with
  | text result =>
      Fulfilled (mkImageFile (JS.index (JS.split ","%char result) 1) fileType)
  | notText => Rejected "Failed to read file."
  end.

End ImageDropzone.

(** ** BackgroundRemover: the compositing requests *)

Module Compositing.

Definition quote : string := String "034"%char EmptyString.

(** [{ data: foregroundImage.split(',')[1], type: 'image/png' }] *)
Definition foregroundFile (foregroundImage : string) : ImageFile :=
  mkImageFile (JS.index (JS.split ","%char foregroundImage) 1) "image/png".

(** The request of [compositeWithGeneratedBackground]. *)
Definition generated_request (foreground : ImageFile) (prompt : string)
    : Service.Request :=
  Service.mkRequest "gemini-2.5-flash-image"
    [Service.imageToPart foreground;
     Service.text
       ("First, generate a new background image based on this prompt: " ++ quote
        ++ prompt ++ quote
        ++ ". Then, composite the main subject from the provided image onto this new background. The provided image has a transparent background.")%string].

(** The request [handleGenerateBackground] sends, if it sends one. *)
Definition handleGenerateBackground_request (s : BackgroundRemover.state)
    : option Service.Request :=
  match BackgroundRemover.foregroundImage s with
  | Some foregroundImage =>
      if negb (JS.truthy foregroundImage)
         || negb (BackgroundRemover.has_non_blank (BackgroundRemover.backgroundPrompt s))
      then None
      else Some (generated_request (foregroundFile foregroundImage)
                   (BackgroundRemover.backgroundPrompt s))
  | None => None
  end.

End Compositing.

(** ** Vocabulary of the further properties *)

(** The chunks of a stream put together. *)
Definition joined (chunks : list string) : string :=
  fold_right String.append EmptyString chunks.

(** [textResult] or [lyricsResult]. *)
Definition output_of (sid : CreativeAssistant.StreamId) (s : CreativeAssistant.state)
    : string :=
  match sid with
  | CreativeAssistant.TextStream => CreativeAssistant.textResult s
  | CreativeAssistant.LyricsStream => CreativeAssistant.lyricsResult s
  end.

Definition stream_eqb (a b : CreativeAssistant.StreamId) : bool :=
  match a, b with
  | CreativeAssistant.TextStream, CreativeAssistant.TextStream => true
  | CreativeAssistant.LyricsStream, CreativeAssistant.LyricsStream => true
  | _, _ => false
  end.

(** How many times the schedule serves stream [sid]. *)
Definition served (sid : CreativeAssistant.StreamId)
    (schedule : list CreativeAssistant.StreamId) : nat :=
  List.length (filter (stream_eqb sid) schedule).

(** Where a stream stands after having been served [n] times. *)
Definition task_after (n : nat) (script : CreativeAssistant.Script)
    : CreativeAssistant.Task :=
  if (n <=? List.length (CreativeAssistant.chunks script))%nat
  then CreativeAssistant.Running
         (CreativeAssistant.mkScript (skipn n (CreativeAssistant.chunks script))
            (CreativeAssistant.failure script))
  else CreativeAssistant.Finished
         (match CreativeAssistant.failure script with
          | None => true
          | Some _ => false
          end).

Definition is_text (part : Service.Part) : Prop :=
  match part with
  | Service.text _ => True
  | Service.inlineData _ _ => False
  end.

(** The selection of [TopicInput] only holds assets of the library, and no
    two of them with the same data. *)
Fixpoint distinct_data (assets : list ImageFile) : Prop :=
  match assets with
  | [] => True
  | a :: rest =>
      existsb (fun b => TopicInput.same_data b a) rest = false /\ distinct_data rest
  end.

Definition selection_invariant (s : TopicInput.state) : Prop :=
  (forall a, In a (TopicInput.selectedAssets s) ->
     existsb (fun b => TopicInput.same_data b a) (TopicInput.assetLibrary s) = true)
  /\ distinct_data (TopicInput.selectedAssets s).

(** The backend keeps the job pending for [k] reports and fails the next. *)
Definition rejected_at (backend : Service.VideoBackend) (k : nat) (message : string)
    : Prop :=
  report backend k = Rejected message
  /\ forall j, (j < k)%nat ->
       exists operation,
         report backend j = Fulfilled operation /\ Service.done operation = false.

(** A backend that is pending once and then fails the status query. *)
Definition failing_backend : Service.VideoBackend :=
  Service.mkVideoBackend (Fulfilled (Service.mkOperation false None))
    (fun i => match i with
              | O => Fulfilled (Service.mkOperation false None)
              | _ => Rejected "quota exceeded"
              end).

(** The editor's filters applied one after the other. *)
Definition apply_all (filters : list string) (s : ImageEditor.state)
    : ImageEditor.state :=
  fold_left (fun st f => ImageEditor.applyFilter f st) filters s.

Definition editor_invariant (s : ImageEditor.state) : Prop :=
  0 <= ImageEditor.historyIndex s < JS.len (ImageEditor.history s)
  /\ JS.index (ImageEditor.history s) 0 = Some "none".

(** [n] saves in a row. *)
Definition save_all (items : list App.LibraryItem) (a : App.state) : App.state :=
  fold_left (fun st item => App.handleCreationComplete item st) items a.

(** The white space and line terminators of ECMAScript, which [trim]
    strips, each as its UTF-8 bytes: TAB, LF, VT, FF, CR, space, U+00A0,
    U+1680, U+2000 to U+200A, U+2028, U+2029, U+202F, U+205F, U+3000 and
    U+FEFF. *)
Definition utf8_2 (b1 b2 : ascii) : string := String b1 (String b2 EmptyString).

Definition utf8_3 (b1 b2 b3 : ascii) : string :=
  String b1 (String b2 (String b3 EmptyString)).

Definition white_space : list string :=
  map (fun c => String c EmptyString)
    ["009"%char; "010"%char; "011"%char; "012"%char; "013"%char; " "%char]
  ++ [utf8_2 "194" "160"; utf8_3 "225" "154" "128"]
  ++ map (utf8_3 "226" "128")
       ["128"%char; "129"%char; "130"%char; "131"%char; "132"%char; "133"%char;
        "134"%char; "135"%char; "136"%char; "137"%char; "138"%char;
        "168"%char; "169"%char; "175"%char]
  ++ [utf8_3 "226" "129" "159"; utf8_3 "227" "128" "128"; utf8_3 "239" "187" "191"].

(** A string made of white space only. *)
Definition blank (s : string) : Prop :=
  exists ws, Forall (fun w => In w white_space) ws /\ s = joined ws.

(** A printable ASCII character other than the space. *)
Definition visible (c : ascii) : Prop :=
  32 < Z.of_N (N_of_ascii c) < 127.

(** BackgroundRemover with a cutout, and a prompt typed into the form. *)
Definition cutout_sample (backgroundPrompt : string) : BackgroundRemover.state :=
  fst (BackgroundRemover.run
         [BackgroundRemover.InitialRemoval portrait
            (Fulfilled "data:image/webp;base64,CUT");
          BackgroundRemover.SetBackgroundPrompt backgroundPrompt]
         (BackgroundRemover.initial, App.initial)).

(** One of the promises handed to [Promise.all] is rejected. *)
Definition any_failed (r : CreativeAssistant.Run) : Prop :=
  CreativeAssistant.textTask r = CreativeAssistant.Finished false
  \/ CreativeAssistant.lyricsTask r = CreativeAssistant.Finished false.

(** How the status of the component follows the two tasks during a content
    generation started at stage [st0]. *)
Definition join_invariant (st0 : CreativeAssistant.Stage) (r : CreativeAssistant.Run)
    : Prop :=
  let s := CreativeAssistant.component r in
  if CreativeAssistant.resumed r then
    CreativeAssistant.isLoading s = false
    /\ ((CreativeAssistant.all_fulfilled r = true
         /\ CreativeAssistant.stage s = CreativeAssistant.iterate
         /\ CreativeAssistant.error s = None)
        \/ (any_failed r
            /\ CreativeAssistant.stage s = st0
            /\ CreativeAssistant.error s <> None))
  else
    CreativeAssistant.isLoading s = true
    /\ CreativeAssistant.stage s = st0
    /\ CreativeAssistant.error s = None
    /\ CreativeAssistant.all_fulfilled r = false
    /\ ~ any_failed r.

(** A content generation whose two streams both run to their end. *)
Definition complete_run : CreativeAssistant.Run :=
  CreativeAssistant.handleGenerateContent "a cat, photorealistic" (Fulfilled (png "A"))
    (CreativeAssistant.mkScript ["Cats "; "purr."] None)
    (CreativeAssistant.mkScript ["la "; "la"] None)
    [CreativeAssistant.LyricsStream; CreativeAssistant.TextStream;
     CreativeAssistant.TextStream; CreativeAssistant.LyricsStream;
     CreativeAssistant.LyricsStream; CreativeAssistant.TextStream]
    (CreativeAssistant.with_lyricsFlag true
       (CreativeAssistant.handleGeneratePrompt "a cat" None []
          (CreativeAssistant.mkControls "Photorealistic" "16:9" "Pop" "Cinematic"
             "Neutral" "Medium Shot")
          (Fulfilled "a cat, photorealistic") CreativeAssistant.initial)).

(** * Properties *)

(** Case analysis on every condition a handler branches on. *)
Ltac case_branches :=
  repeat match goal with
         | |- context [if ?b then _ else _] => destruct b
         end.

(** ** Arrays *)

Lemma len_app {A : Type} (l1 l2 : list A) : JS.len (l1 ++ l2) = JS.len l1 + JS.len l2.
Proof. unfold JS.len. rewrite length_app. lia. Qed.

Lemma len_nonneg {A : Type} (l : list A) : 0 <= JS.len l.
Proof. unfold JS.len. lia. Qed.

Lemma len_nil_iff {A : Type} (l : list A) : JS.len l = 0 <-> l = [].
Proof.
  unfold JS.len. destruct l as [|x l]; cbn [List.length]; split; intro H;
    try reflexivity; try discriminate; lia.
Qed.

Lemma slice0_firstn {A : Type} (l : list A) (e : Z) :
  0 <= e -> JS.slice0 l e = firstn (Z.to_nat e) l.
Proof.
  intro He. unfold JS.slice0.
  destruct (e <? 0) eqn:E; [apply Z.ltb_lt in E; lia|].
  destruct (Z.le_gt_cases e (JS.len l)) as [Hle|Hgt].
  - rewrite Z.min_l by assumption. reflexivity.
  - rewrite Z.min_r by lia. unfold JS.len in *.
    rewrite Nat2Z.id. rewrite firstn_all.
    symmetry. apply firstn_all2. lia.
Qed.

Lemma len_slice0 {A : Type} (l : list A) (e : Z) :
  0 <= e -> JS.len (JS.slice0 l e) = Z.min e (JS.len l).
Proof.
  intro He. rewrite slice0_firstn by assumption.
  unfold JS.len. rewrite length_firstn. lia.
Qed.

Lemma index_in_range {A : Type} (l : list A) (i : Z) :
  0 <= i < JS.len l -> exists x, JS.index l i = Some x.
Proof.
  intros [H0 H1]. unfold JS.index.
  destruct (i <? 0) eqn:E; [apply Z.ltb_lt in E; lia|].
  destruct (nth_error l (Z.to_nat i)) eqn:N; [eauto|].
  apply nth_error_None in N. unfold JS.len in H1. lia.
Qed.

Lemma index_last {A : Type} (l : list A) (x : A) :
  JS.index (l ++ [x]) (JS.len (l ++ [x]) - 1) = Some x.
Proof.
  rewrite len_app. unfold JS.index, JS.len. cbn [List.length].
  destruct (Z.of_nat (List.length l) + Z.of_nat 1 - 1 <? 0) eqn:E;
    [apply Z.ltb_lt in E; lia|].
  replace (Z.to_nat (Z.of_nat (List.length l) + Z.of_nat 1 - 1)) with (List.length l) by lia.
  rewrite nth_error_app2 by lia. rewrite Nat.sub_diag. reflexivity.
Qed.

(** ** C1: appending to the history *)

Section Append.

Variable a : string.

Lemma FaceSwap_append (s : FaceSwap.state) :
  -1 <= FaceSwap.editHistoryIndex s ->
  FaceSwap.editHistory (FaceSwap.handleEditComplete a s)
    = truncating_append (FaceSwap.editHistory s) (FaceSwap.editHistoryIndex s) a
  /\ FaceSwap.editHistoryIndex (FaceSwap.handleEditComplete a s)
    = JS.len (FaceSwap.editHistory (FaceSwap.handleEditComplete a s)) - 1.
Proof.
  intro H. unfold FaceSwap.handleEditComplete, truncating_append.
  cbn [FaceSwap.editHistory FaceSwap.editHistoryIndex].
  rewrite slice0_firstn by lia. split; reflexivity.
Qed.

Lemma BackgroundRemover_append (s : BackgroundRemover.state) :
  -1 <= BackgroundRemover.editHistoryIndex s ->
  BackgroundRemover.editHistory (BackgroundRemover.handleEditComplete a s)
    = truncating_append (BackgroundRemover.editHistory s)
        (BackgroundRemover.editHistoryIndex s) a
  /\ BackgroundRemover.editHistoryIndex (BackgroundRemover.handleEditComplete a s)
    = JS.len (BackgroundRemover.editHistory (BackgroundRemover.handleEditComplete a s)) - 1.
Proof.
  intro H. unfold BackgroundRemover.handleEditComplete, truncating_append.
  cbn [BackgroundRemover.editHistory BackgroundRemover.editHistoryIndex].
  rewrite slice0_firstn by lia. split; reflexivity.
Qed.

Lemma CreativeAssistant_append (s : CreativeAssistant.state) :
  CreativeAssistant.imageHistory (CreativeAssistant.handleEditComplete a s)
    = CreativeAssistant.imageHistory s ++ [a]
  /\ CreativeAssistant.currentHistoryIndex (CreativeAssistant.handleEditComplete a s)
    = JS.len (CreativeAssistant.imageHistory s).
Proof.
  unfold CreativeAssistant.handleEditComplete. cbn.
  split; [reflexivity|]. rewrite len_app. unfold JS.len. cbn. lia.
Qed.

End Append.

(** The scenario of the specification, on the two tools with undo/redo. *)
Lemma FaceSwap_undo_undo_append (A B C D : string) (s : FaceSwap.state) :
  FaceSwap.editHistory s = [A; B; C] ->
  FaceSwap.editHistoryIndex s = 2 ->
  let s2 := FaceSwap.handleUndo (FaceSwap.handleUndo s) in
  let s3 := FaceSwap.handleEditComplete D s2 in
  FaceSwap.editHistoryIndex s2 = 0 /\ FaceSwap.result s2 = Some A
  /\ FaceSwap.editHistory s3 = [A; D] /\ FaceSwap.editHistoryIndex s3 = 1.
Proof.
  destruct s as [l e h i o sv ed]. cbn [FaceSwap.editHistory FaceSwap.editHistoryIndex].
  intros -> ->. cbv. repeat split; reflexivity.
Qed.

Lemma BackgroundRemover_undo_undo_append (A B C D : string)
    (s : BackgroundRemover.state) :
  BackgroundRemover.editHistory s = [A; B; C] ->
  BackgroundRemover.editHistoryIndex s = 2 ->
  let s2 := BackgroundRemover.handleUndo (BackgroundRemover.handleUndo s) in
  let s3 := BackgroundRemover.handleEditComplete D s2 in
  BackgroundRemover.editHistoryIndex s2 = 0
  /\ BackgroundRemover.finalResult s2 = Some A
  /\ BackgroundRemover.editHistory s3 = [A; D]
  /\ BackgroundRemover.editHistoryIndex s3 = 1.
Proof.
  destruct s as [st l e o f h i sv cs ed bp].
  cbn [BackgroundRemover.editHistory BackgroundRemover.editHistoryIndex].
  intros -> ->. cbv. repeat split; reflexivity.
Qed.

(** C1 (amended).  In FaceSwap and in BackgroundRemover, completing an edit
    truncates the history to [0..cursor], appends the new artifact and moves
    the cursor to the new last index; from [A, B, C] at cursor 2, two undos
    give cursor 0 with current artifact [A], and appending [D] then gives
    [A, D] at cursor 1.  The Creative Assistant instead appends after every
    existing entry, whatever the cursor, and moves the cursor to the new
    last index. *)
Theorem C1_append_after_undo :
  forall (fs : FaceSwap.state) (br : BackgroundRemover.state)
         (ca : CreativeAssistant.state) (a : string),
    -1 <= FaceSwap.editHistoryIndex fs ->
    -1 <= BackgroundRemover.editHistoryIndex br ->
    (FaceSwap.editHistory (FaceSwap.handleEditComplete a fs)
       = truncating_append (FaceSwap.editHistory fs) (FaceSwap.editHistoryIndex fs) a
     /\ FaceSwap.editHistoryIndex (FaceSwap.handleEditComplete a fs)
       = JS.len (FaceSwap.editHistory (FaceSwap.handleEditComplete a fs)) - 1)
    /\ (BackgroundRemover.editHistory (BackgroundRemover.handleEditComplete a br)
       = truncating_append (BackgroundRemover.editHistory br)
           (BackgroundRemover.editHistoryIndex br) a
     /\ BackgroundRemover.editHistoryIndex (BackgroundRemover.handleEditComplete a br)
       = JS.len (BackgroundRemover.editHistory
                   (BackgroundRemover.handleEditComplete a br)) - 1)
    /\ (CreativeAssistant.imageHistory (CreativeAssistant.handleEditComplete a ca)
       = CreativeAssistant.imageHistory ca ++ [a]
     /\ CreativeAssistant.currentHistoryIndex (CreativeAssistant.handleEditComplete a ca)
       = JS.len (CreativeAssistant.imageHistory ca))
    /\ (forall A B C l e o sv ed,
          let s0 := FaceSwap.mk l e [A; B; C] 2 o sv ed in
          let s2 := FaceSwap.handleUndo (FaceSwap.handleUndo s0) in
          let s3 := FaceSwap.handleEditComplete a s2 in
          FaceSwap.editHistoryIndex s2 = 0 /\ FaceSwap.result s2 = Some A
          /\ FaceSwap.editHistory s3 = [A; a] /\ FaceSwap.editHistoryIndex s3 = 1)
    /\ (forall A B C st l e o f sv cs ed bp,
          let s0 := BackgroundRemover.mk st l e o f [A; B; C] 2 sv cs ed bp in
          let s2 := BackgroundRemover.handleUndo (BackgroundRemover.handleUndo s0) in
          let s3 := BackgroundRemover.handleEditComplete a s2 in
          BackgroundRemover.editHistoryIndex s2 = 0
          /\ BackgroundRemover.finalResult s2 = Some A
          /\ BackgroundRemover.editHistory s3 = [A; a]
          /\ BackgroundRemover.editHistoryIndex s3 = 1).
Proof.
  intros fs br ca a Hfs Hbr.
  split; [apply FaceSwap_append; assumption|].
  split; [apply BackgroundRemover_append; assumption|].
  split; [apply CreativeAssistant_append|].
  split.
  - intros A B C l e o sv ed.
    apply (FaceSwap_undo_undo_append A B C a (FaceSwap.mk l e [A; B; C] 2 o sv ed));
      reflexivity.
  - intros A B C st l e o f sv cs ed bp.
    apply (BackgroundRemover_undo_undo_append A B C a
             (BackgroundRemover.mk st l e o f [A; B; C] 2 sv cs ed bp)); reflexivity.
Qed.

Lemma C1_append_after_undo_witness :
  -1 <= FaceSwap.editHistoryIndex faceswap_sample
  /\ -1 <= BackgroundRemover.editHistoryIndex remover_sample
  /\ FaceSwap.editHistory (FaceSwap.handleEditComplete "D" faceswap_sample) = ["A"; "D"]
  /\ BackgroundRemover.editHistory
       (BackgroundRemover.handleEditComplete "D" remover_sample) = ["A"; "D"]
  /\ CreativeAssistant.imageHistory
       (CreativeAssistant.handleEditComplete "D" gallery_sample)
     = ["data:image/png;base64,A"; "B"; "C"; "D"].
Proof.
  assert (Hfs : -1 <= FaceSwap.editHistoryIndex faceswap_sample) by (vm_compute; discriminate).
  assert (Hbr : -1 <= BackgroundRemover.editHistoryIndex remover_sample)
    by (vm_compute; discriminate).
  destruct (C1_append_after_undo faceswap_sample remover_sample gallery_sample "D" Hfs Hbr)
    as [[H1 _] [[H2 _] [[H3 _] _]]].
  split; [exact Hfs|]. split; [exact Hbr|].
  split; [rewrite H1; reflexivity|].
  split; [rewrite H2; reflexivity|].
  rewrite H3; reflexivity.
Defined.

(** C1 fails in the Creative Assistant: from [A, B, C] viewed at index 0, a
    completed edit [D] yields [A, B, C, D] at index 3, not [A, D] at 1. *)
Lemma C1_gallery_keeps_tail :
  CreativeAssistant.imageHistory gallery_sample = ["data:image/png;base64,A"; "B"; "C"]
  /\ CreativeAssistant.currentHistoryIndex gallery_sample = 0
  /\ CreativeAssistant.imageHistory
       (CreativeAssistant.handleEditComplete "D" gallery_sample)
     = ["data:image/png;base64,A"; "B"; "C"; "D"]
  /\ CreativeAssistant.currentHistoryIndex
       (CreativeAssistant.handleEditComplete "D" gallery_sample) = 3
  /\ CreativeAssistant.imageHistory
       (CreativeAssistant.handleEditComplete "D" gallery_sample)
     <> truncating_append (CreativeAssistant.imageHistory gallery_sample)
          (CreativeAssistant.currentHistoryIndex gallery_sample) "D".
Proof.
  repeat split; try reflexivity. vm_compute. discriminate.
Qed.

(** ** C2: the cursor stays inside the history *)

Lemma history_invariant_cases (items : list string) (cursor : Z) :
  history_invariant items cursor
  <-> (items = [] /\ cursor = -1) \/ (0 <= cursor < JS.len items).
Proof.
  unfold history_invariant. split.
  - intros (Hr & Hne & Hs). destruct items as [|x items].
    + left. split; [reflexivity|]. apply Hs. reflexivity.
    + right. apply Hne. discriminate.
  - intros [[-> ->]|H].
    + cbn. repeat split; try lia; intros; try reflexivity; try contradiction.
    + assert (items <> []) by (intro E; apply len_nil_iff in E; lia).
      repeat split; try lia; intros; try lia; try contradiction.
Qed.

Lemma appended_in_range (l : list string) (x : string) :
  0 <= JS.len (l ++ [x]) - 1 < JS.len (l ++ [x]).
Proof.
  rewrite len_app. pose proof (len_nonneg l).
  change (JS.len [x]) with 1. lia.
Qed.

Lemma singleton_in_range (x : string) : 0 <= 0 < JS.len [x].
Proof. change (JS.len [x]) with 1. lia. Qed.






Lemma BackgroundRemover_composite_inv (fallback : string) (reply : Settled string)
    (clearError : bool) (s : BackgroundRemover.state) :
  BackgroundRemover_inv s ->
  BackgroundRemover_inv (BackgroundRemover.composite_settled fallback reply clearError s).
Proof.
  unfold BackgroundRemover_inv. rewrite !history_invariant_cases. intro H.
  destruct reply as [r|message]; cbn; [right; apply (singleton_in_range r) | exact H].
Qed.

Lemma BackgroundRemover_saves_history (s : BackgroundRemover.state) (a : App.state) :
  (BackgroundRemover.editHistory (fst (BackgroundRemover.handleSave s a))
     = BackgroundRemover.editHistory s
   /\ BackgroundRemover.editHistoryIndex (fst (BackgroundRemover.handleSave s a))
     = BackgroundRemover.editHistoryIndex s)
  /\ (BackgroundRemover.editHistory (fst (BackgroundRemover.handleSaveCutout s a))
     = BackgroundRemover.editHistory s
   /\ BackgroundRemover.editHistoryIndex (fst (BackgroundRemover.handleSaveCutout s a))
     = BackgroundRemover.editHistoryIndex s).
Proof.
  unfold BackgroundRemover.handleSave, BackgroundRemover.handleSaveCutout.
  destruct (BackgroundRemover.finalResult s), (BackgroundRemover.originalImage s),
    (BackgroundRemover.foregroundImage s);
    case_branches;
    repeat split; reflexivity.
Qed.

Lemma BackgroundRemover_step_inv (c : BackgroundRemover.state * App.state)
    (act : BackgroundRemover.action) :
  BackgroundRemover_inv (fst c) -> BackgroundRemover_inv (fst (BackgroundRemover.step c act)).
Proof.
  destruct c as [s a]. cbn [fst]. intro H.
  destruct act; cbn [BackgroundRemover.step fst].
  - unfold BackgroundRemover_inv. rewrite history_invariant_cases.
    destruct reply; cbn; left; split; reflexivity.
  - exact H.
  - unfold BackgroundRemover.handleGenerateBackground.
    destruct (_ || _); [exact H | apply BackgroundRemover_composite_inv; exact H].
  - unfold BackgroundRemover.handleUploadBackground.
    destruct file; [|exact H].
    destruct (negb _); [exact H | apply BackgroundRemover_composite_inv; exact H].
  - unfold BackgroundRemover.handleGreenScreen.
    destruct (negb _); [exact H | apply BackgroundRemover_composite_inv; exact H].
  - unfold BackgroundRemover.clickSave.
    destruct (BackgroundRemover.saveEnabled s); [|exact H].
    unfold BackgroundRemover_inv in *.
    destruct (BackgroundRemover_saves_history s a) as [[-> ->] _]. exact H.
  - unfold BackgroundRemover.clickSaveCutout.
    destruct (BackgroundRemover.saveCutoutEnabled s); [|exact H].
    unfold BackgroundRemover_inv in *.
    destruct (BackgroundRemover_saves_history s a) as [_ [-> ->]]. exact H.
  - exact H.
  - unfold BackgroundRemover_inv. rewrite history_invariant_cases. right.
    cbn [BackgroundRemover.handleEditComplete BackgroundRemover.editHistory
         BackgroundRemover.editHistoryIndex].
    apply appended_in_range.
  - unfold BackgroundRemover_inv in *. rewrite history_invariant_cases in *.
    unfold BackgroundRemover.handleUndo, BackgroundRemover.canUndo.
    destruct (0 <? BackgroundRemover.editHistoryIndex s) eqn:E; [|exact H].
    apply Z.ltb_lt in E. cbn. right. destruct H as [[_ Hc]|Hc]; lia.
  - unfold BackgroundRemover_inv in *. rewrite history_invariant_cases in *.
    unfold BackgroundRemover.handleRedo, BackgroundRemover.canRedo.
    destruct (BackgroundRemover.editHistoryIndex s
              <? JS.len (BackgroundRemover.editHistory s) - 1) eqn:E; [|exact H].
    apply Z.ltb_lt in E. cbn. right. destruct H as [[Hh Hc]|Hc]; [|lia].
    rewrite Hh in E. rewrite Hc in E. cbn in E. lia.
  - unfold BackgroundRemover_inv. rewrite history_invariant_cases.
    left. split; reflexivity.
  - exact H.
Qed.

Lemma BackgroundRemover_run_inv (acts : list BackgroundRemover.action)
    (c : BackgroundRemover.state * App.state) :
  BackgroundRemover_inv (fst c) -> BackgroundRemover_inv (fst (BackgroundRemover.run acts c)).
Proof.
  revert c. induction acts as [|act acts IH]; intros c H; [exact H|].
  cbn [BackgroundRemover.run fold_left]. apply IH.
  apply BackgroundRemover_step_inv. exact H.
Qed.


(** Serving a stream never touches the image history, and the only stage it
    can move to is [iterate]. *)
Lemma deliver_history (r : CreativeAssistant.Run) (sid : CreativeAssistant.StreamId) :
  let s := CreativeAssistant.component r in
  let s' := CreativeAssistant.component (CreativeAssistant.deliver r sid) in
  CreativeAssistant.imageHistory s' = CreativeAssistant.imageHistory s
  /\ CreativeAssistant.currentHistoryIndex s' = CreativeAssistant.currentHistoryIndex s
  /\ (CreativeAssistant.stage s' = CreativeAssistant.stage s
      \/ CreativeAssistant.stage s' = CreativeAssistant.iterate).
Proof.
  cbv zeta. unfold CreativeAssistant.deliver.
  destruct (CreativeAssistant.task_of sid r) as [|[[|chunk rest] [message|]]|ok].
  - auto.
  - unfold CreativeAssistant.resume_rejected.
    destruct sid; cbn; destruct (negb (CreativeAssistant.resumed r)); cbn; auto.
  - unfold CreativeAssistant.resume_fulfilled.
    destruct sid; cbn;
      match goal with |- context [if ?b then _ else _] => destruct b end; cbn; auto.
  - destruct sid; cbn; auto.
  - destruct sid; cbn; auto.
  - auto.
Qed.

Lemma schedule_history (schedule : list CreativeAssistant.StreamId)
    (r : CreativeAssistant.Run) :
  let s := CreativeAssistant.component r in
  let s' := CreativeAssistant.component (fold_left CreativeAssistant.deliver schedule r) in
  CreativeAssistant.imageHistory s' = CreativeAssistant.imageHistory s
  /\ CreativeAssistant.currentHistoryIndex s' = CreativeAssistant.currentHistoryIndex s
  /\ (CreativeAssistant.stage s' = CreativeAssistant.stage s
      \/ CreativeAssistant.stage s' = CreativeAssistant.iterate).
Proof.
  cbv zeta. revert r. induction schedule as [|sid schedule IH]; intro r.
  - cbn. auto.
  - cbn [fold_left].
    destruct (IH (CreativeAssistant.deliver r sid)) as (H1 & H2 & H3).
    destruct (deliver_history r sid) as (D1 & D2 & D3).
    rewrite H1, H2, D1, D2. repeat split.
    destruct H3 as [H3|H3]; [rewrite H3; exact D3 | right; exact H3].
Qed.















(** ** C3: a failed download is either a rejected credential or a generic error *)

Lemma prefix_spec (p s : string) :
  String.prefix p s = true <-> exists rest, s = (p ++ rest)%string.
Proof.
  revert s. induction p as [|c p IH]; intro s.
  - destruct s; cbn; split; try reflexivity; intros _; eexists; reflexivity.
  - destruct s as [|d s]; cbn.
    + split; [discriminate | intros [rest E]; discriminate].
    + destruct (Ascii.ascii_dec c d) as [->|Hne].
      * rewrite IH. split; intros [rest E]; exists rest; [rewrite E; reflexivity|].
        inversion E. reflexivity.
      * split; [discriminate | intros [rest E]; inversion E; subst; contradiction].
Qed.

(** [JS.includes] finds exactly the substrings. *)
Lemma includes_spec (s sub : string) :
  JS.includes s sub = true <-> exists before rest, s = (before ++ sub ++ rest)%string.
Proof.
  induction s as [|c s IH].
  - cbn [JS.includes]. rewrite orb_false_r. rewrite prefix_spec. split.
    + intros [rest E]. exists EmptyString, rest. exact E.
    + intros [[|d before] [rest E]]; [exists rest; exact E | discriminate].
  - cbn [JS.includes]. rewrite orb_true_iff, prefix_spec, IH. split.
    + intros [[rest E]|[before [rest E]]].
      * exists EmptyString, rest. exact E.
      * exists (String c before), rest. rewrite E. reflexivity.
    + intros [[|d before] [rest E]].
      * left. exists rest. exact E.
      * right. exists before, rest. inversion E. reflexivity.
Qed.

(** C3.  When the authenticated download answers with a non-ok response,
    [handleAnimate] ends with the error set and nothing saved.  If the body
    contains "Requested entity was not found." anywhere, the key status goes
    back to not-selected and the error shown is "API key is invalid. Please
    select a valid key.", so that the key prompt is what the tool shows
    (after "Try Again" in the first revision of the component, at once in
    the later one); if the body does not contain it, the error is "Failed to
    download video: " followed by the status text, " - " and the body, and
    the key status is untouched. *)
Theorem C3_download_failure :
  forall (characterImage : ImageFile) (motion videoUrl : string)
         (statusText body blobUrl : string)
         (s : CharacterAnimator.state) (a : App.state),
    let signature := "Requested entity was not found." in
    let response := CharacterAnimator.mkResponse false statusText body blobUrl in
    let s' := fst (CharacterAnimator.handleAnimate characterImage motion
                     (Fulfilled videoUrl) (Fulfilled response) s a) in
    let a' := snd (CharacterAnimator.handleAnimate characterImage motion
                     (Fulfilled videoUrl) (Fulfilled response) s a) in
    a' = a
    /\ CharacterAnimator.isLoading s' = false
    /\ CharacterAnimator.resultUrl s' = None
    /\ ((exists before rest, body = (before ++ signature ++ rest)%string) ->
        CharacterAnimator.apiKeyStatus s' = CharacterAnimator.not_selected
        /\ CharacterAnimator.error s'
           = Some "API key is invalid. Please select a valid key."
        /\ CharacterAnimator.renderContent s'
           = CharacterAnimator.ErrorPanel
               "API key is invalid. Please select a valid key."
        /\ CharacterAnimator.renderContent (CharacterAnimator.handleStartOver s')
           = CharacterAnimator.ApiKeyRequired
        /\ CharacterAnimator.renderContent_keyFirst s'
           = CharacterAnimator.ApiKeyRequired)
    /\ ((forall before rest, body <> (before ++ signature ++ rest)%string) ->
        CharacterAnimator.apiKeyStatus s' = CharacterAnimator.apiKeyStatus s
        /\ CharacterAnimator.error s'
           = Some ("Failed to download video: " ++ statusText ++ " - " ++ body)%string
        /\ CharacterAnimator.renderContent s'
           = CharacterAnimator.ErrorPanel
               ("Failed to download video: " ++ statusText ++ " - " ++ body)%string).
Proof.
  intros characterImage motion videoUrl statusText body blobUrl s a. cbv zeta.
  unfold CharacterAnimator.handleAnimate, CharacterAnimator.animate_try.
  cbn [CharacterAnimator.ok negb CharacterAnimator.body CharacterAnimator.statusText].
  change Service.VEO_API_KEY_ERROR_MESSAGE with "Requested entity was not found.".
  destruct (JS.includes body "Requested entity was not found.") eqn:E.
  - split; [reflexivity|]. split; [reflexivity|]. split; [reflexivity|]. split.
    + intros _. cbn. repeat split; reflexivity.
    + intro Hnot. apply includes_spec in E. destruct E as (before & rest & E).
      exfalso. exact (Hnot before rest E).
  - split; [reflexivity|]. split; [reflexivity|]. split; [reflexivity|]. split.
    + intro Hin. apply includes_spec in Hin. rewrite Hin in E. discriminate.
    + intros _. cbn. repeat split; reflexivity.
Qed.

(** The download answers 404 with the credential-error signature inside its
    body, and 503 with a body that does not hold it. *)
Lemma C3_download_failure_witness :
  let rejected :=
    fst (CharacterAnimator.handleAnimate portrait "waving hello"
           (Fulfilled "https://video/R?alt=media")
           (Fulfilled (CharacterAnimator.mkResponse false "Not Found"
                         "{ code: 404, message: Requested entity was not found. }" ""))
           (CharacterAnimator.handleSelectKey CharacterAnimator.initial) App.initial) in
  let unavailable :=
    fst (CharacterAnimator.handleAnimate portrait "waving hello"
           (Fulfilled "https://video/R?alt=media")
           (Fulfilled (CharacterAnimator.mkResponse false "Service Unavailable"
                         "try again later" ""))
           (CharacterAnimator.handleSelectKey CharacterAnimator.initial) App.initial) in
  (CharacterAnimator.apiKeyStatus rejected = CharacterAnimator.not_selected
   /\ CharacterAnimator.error rejected
      = Some "API key is invalid. Please select a valid key.")
  /\ (CharacterAnimator.apiKeyStatus unavailable = CharacterAnimator.selected
      /\ CharacterAnimator.error unavailable
         = Some "Failed to download video: Service Unavailable - try again later").
Proof.
  cbv zeta. split.
  - destruct (C3_download_failure portrait "waving hello" "https://video/R?alt=media"
                "Not Found" "{ code: 404, message: Requested entity was not found. }" ""
                (CharacterAnimator.handleSelectKey CharacterAnimator.initial) App.initial)
      as (_ & _ & _ & Hyes & _).
    destruct Hyes as (Hk & He & _).
    + exists "{ code: 404, message: ", " }". reflexivity.
    + split; [exact Hk | exact He].
  - destruct (C3_download_failure portrait "waving hello" "https://video/R?alt=media"
                "Service Unavailable" "try again later" ""
                (CharacterAnimator.handleSelectKey CharacterAnimator.initial) App.initial)
      as (_ & _ & _ & _ & Hno).
    destruct Hno as (Hk & He & _).
    + intros before rest E.
      assert (Hin : JS.includes "try again later" "Requested entity was not found."
                    = true)
        by (apply includes_spec; exists before, rest; exact E).
      discriminate Hin.
    + split; [exact Hk | exact He].
Defined.

(** The scenario of the specification: the job is pending twice, then done
    with a reference; the download answers 404 with the credential-error
    body. *)
Lemma pending_twice_then_rejected_credential :
  let backend :=
    Service.mkVideoBackend (Fulfilled (Service.mkOperation false None))
      (fun i => match i with
                | O => Fulfilled (Service.mkOperation false None)
                | _ => Fulfilled (Service.mkOperation true (Some "https://video/R?alt=media"))
                end) in
  let download :=
    Fulfilled (CharacterAnimator.mkResponse false "Not Found"
                 "{ code: 404, message: Requested entity was not found. }" "") in
  exists s',
    CharacterAnimator.animate 2 "KEY" backend portrait "waving hello" download
      (CharacterAnimator.handleSelectKey CharacterAnimator.initial) App.initial
    = Some (s', App.initial)
    /\ CharacterAnimator.apiKeyStatus s' = CharacterAnimator.not_selected
    /\ CharacterAnimator.error s' = Some "API key is invalid. Please select a valid key.".
Proof.
  cbv zeta. eexists. split; [vm_compute; reflexivity|]. split; reflexivity.
Qed.

(** ** C4: the image first, then the streams, then the join *)

















Lemma iterate_after_join_nil : iterate_after_join [].
Proof. intros pre post sid E. destruct pre; discriminate. Qed.



(** The scenario of the specification: lyrics wanted for "Rock", and the
    lyrics stream ends first.  The stage is not set while the text stream is
    still running, and is set as soon as it has ended. *)
Lemma lyrics_finish_first :
  let s := CreativeAssistant.with_lyricsFlag true
             (CreativeAssistant.handleGeneratePrompt "a storm" None []
                (CreativeAssistant.mkControls "Photorealistic" "16:9" "Rock"
                   "Cinematic" "Neutral" "Medium Shot")
                (Fulfilled "a storm over the sea") CreativeAssistant.initial) in
  let go := CreativeAssistant.handleGenerateContent "a storm over the sea"
              (Fulfilled (png "A"))
              (CreativeAssistant.mkScript ["Storms "; "form."] None)
              (CreativeAssistant.mkScript ["Thunder"] None) in
  let T := CreativeAssistant.TextStream in
  let L := CreativeAssistant.LyricsStream in
  CreativeAssistant.stage (CreativeAssistant.component (go [L; L; T; T] s))
    = CreativeAssistant.content
  /\ CreativeAssistant.isLoading (CreativeAssistant.component (go [L; L; T; T] s)) = true
  /\ CreativeAssistant.stage (CreativeAssistant.component (go [L; L; T; T; T] s))
    = CreativeAssistant.iterate
  /\ CreativeAssistant.log (go [L; L; T; T; T] s)
    = [CreativeAssistant.Requested
         (Service.mkRequest "gemini-2.5-flash-image" [Service.text "a storm over the sea"]);
       CreativeAssistant.ImageSettled true;
       CreativeAssistant.StreamStarted T; CreativeAssistant.StreamStarted L;
       CreativeAssistant.ChunkReceived L "Thunder";
       CreativeAssistant.StreamSettled L true;
       CreativeAssistant.ChunkReceived T "Storms ";
       CreativeAssistant.ChunkReceived T "form.";
       CreativeAssistant.StreamSettled T true;
       CreativeAssistant.StageSet CreativeAssistant.iterate].
Proof. cbv zeta. repeat split; vm_compute; reflexivity. Qed.

(** ** C5: what a failure leaves behind *)

(** C5 fails for a streamed task: the image was generated, the text stream
    then broke; the tool shows the error, but the history is no longer what
    it was when the handler was called. *)
Lemma C5_stream_failure_after_image :
  CreativeAssistant.imageHistory review_sample = []
  /\ CreativeAssistant.error (CreativeAssistant.component broken_stream_run)
     = Some "stream interrupted"
  /\ CreativeAssistant.stage (CreativeAssistant.component broken_stream_run)
     = CreativeAssistant.content
  /\ CreativeAssistant.imageHistory (CreativeAssistant.component broken_stream_run)
     = ["data:image/png;base64,A"]
  /\ CreativeAssistant.imageHistory (CreativeAssistant.component broken_stream_run)
     <> CreativeAssistant.imageHistory review_sample.
Proof. repeat split; try reflexivity. vm_compute. discriminate. Qed.

(** C5 (amended).  When the call that produces the artifact fails with
    [message] (the face swap, the background removal, a compositing call, the
    image generation of the Content or Iterate stage, the video job or its
    download), the handler stops loading, records [message] (or its own
    fallback text when [message] is empty) as the error, and the session
    library is left as it was.  FaceSwap and the initial background removal
    have emptied the history before the call, so it is empty afterwards; the
    other handlers leave the history as it was.  When the Content image was
    generated, it is in the history whatever happens to the streams. *)
Theorem C5_failure_paths :
  forall (message : string) (reply : Settled Service.GenerateContentResponse),
    Service.generateImage reply = Rejected message ->
    (forall src fc s a,
       let c := FaceSwap.step (s, a) (FaceSwap.Generate src fc (Rejected message)) in
       snd c = a
       /\ FaceSwap.isLoading (fst c) = false
       /\ FaceSwap.error (fst c) = Some (JS.or_else message "An unknown error occurred.")
       /\ FaceSwap.editHistory (fst c) = [] /\ FaceSwap.editHistoryIndex (fst c) = -1)
    /\ (forall image s a,
       let c := BackgroundRemover.step (s, a)
                  (BackgroundRemover.InitialRemoval image (Rejected message)) in
       snd c = a
       /\ BackgroundRemover.isLoading (fst c) = false
       /\ BackgroundRemover.stage (fst c) = BackgroundRemover.input
       /\ BackgroundRemover.error (fst c)
          = Some (JS.or_else message "An unknown error occurred.")
       /\ BackgroundRemover.editHistory (fst c) = []
       /\ BackgroundRemover.editHistoryIndex (fst c) = -1)
    /\ (forall fallback clearError s,
       let s' := BackgroundRemover.composite_settled fallback (Rejected message)
                   clearError s in
       BackgroundRemover.isLoading s' = false
       /\ BackgroundRemover.stage s' = BackgroundRemover.editing
       /\ BackgroundRemover.error s' = Some (JS.or_else message fallback)
       /\ BackgroundRemover.editHistory s' = BackgroundRemover.editHistory s
       /\ BackgroundRemover.editHistoryIndex s' = BackgroundRemover.editHistoryIndex s)
    /\ (forall p textScript lyricsScript schedule s a,
       let c := CreativeAssistant.step (s, a)
                  (CreativeAssistant.GenerateContent p reply textScript lyricsScript
                     schedule) in
       snd c = a
       /\ CreativeAssistant.isLoading (fst c) = false
       /\ CreativeAssistant.stage (fst c) = CreativeAssistant.stage s
       /\ CreativeAssistant.error (fst c)
          = Some (JS.or_else message "An error occurred during content generation.")
       /\ CreativeAssistant.imageHistory (fst c) = CreativeAssistant.imageHistory s
       /\ CreativeAssistant.currentHistoryIndex (fst c)
          = CreativeAssistant.currentHistoryIndex s)
    /\ (forall p older latest i s0 a,
       let s := CreativeAssistant.with_history (older ++ [latest]) i s0 in
       let c := CreativeAssistant.step (s, a) (CreativeAssistant.IterateImage p reply) in
       snd c = a
       /\ CreativeAssistant.isLoading (fst c) = false
       /\ CreativeAssistant.error (fst c)
          = Some (JS.or_else message "Failed to iterate on the image.")
       /\ CreativeAssistant.imageHistory (fst c) = older ++ [latest]
       /\ CreativeAssistant.currentHistoryIndex (fst c) = i)
    /\ (forall image motion download s a,
       let c := CharacterAnimator.handleAnimate image motion (Rejected message)
                  download s a in
       snd c = a
       /\ CharacterAnimator.isLoading (fst c) = false
       /\ CharacterAnimator.error (fst c)
          = Some (JS.or_else message "An unknown error occurred during animation."))
    /\ (forall image motion videoUrl s a,
       let c := CharacterAnimator.handleAnimate image motion (Fulfilled videoUrl)
                  (Rejected message) s a in
       snd c = a
       /\ CharacterAnimator.isLoading (fst c) = false
       /\ CharacterAnimator.error (fst c)
          = Some (JS.or_else message "An unknown error occurred during animation."))
    /\ (forall p payload mimeType rest textScript lyricsScript schedule s,
       CreativeAssistant.imageHistory
         (CreativeAssistant.component
            (CreativeAssistant.handleGenerateContent p
               (Fulfilled (Service.response_with
                             (Service.inlineData payload mimeType :: rest)))
               textScript lyricsScript schedule s))
       = [("data:" ++ mimeType ++ ";base64," ++ JS.interpolate payload)%string]).
Proof.
  intros message reply Hreply.
  split; [|split; [|split; [|split; [|split; [|split; [|split]]]]]].
  - intros. cbn. repeat split; reflexivity.
  - intros. cbn. repeat split; reflexivity.
  - intros. cbn. repeat split; reflexivity.
  - intros p textScript lyricsScript schedule s a.
    cbn [CreativeAssistant.step fst snd]. unfold CreativeAssistant.handleGenerateContent.
    rewrite Hreply. cbn. repeat split; reflexivity.
  - intros p older latest i s0 a.
    cbn [CreativeAssistant.step fst snd].
    unfold CreativeAssistant.handleIterateImage, CreativeAssistant.iterate_call,
      CreativeAssistant.iterate_resume.
    cbn [CreativeAssistant.imageHistory CreativeAssistant.with_history].
    rewrite index_last. rewrite Hreply. cbn. repeat split; reflexivity.
  - intros. cbn. repeat split; reflexivity.
  - intros. cbn. repeat split; reflexivity.
  - intros p payload mimeType rest textScript lyricsScript schedule s.
    unfold CreativeAssistant.handleGenerateContent.
    change (Service.generateImage
              (Fulfilled (Service.response_with
                            (Service.inlineData payload mimeType :: rest))))
      with (Fulfilled (A := string)
              ("data:" ++ mimeType ++ ";base64," ++ JS.interpolate payload)%string).
    cbv iota beta.
    match goal with |- context [fold_left _ _ ?r0] =>
      destruct (schedule_history schedule r0) as (H1 & _); rewrite H1 end.
    destruct (CreativeAssistant.lyrics_wanted s); reflexivity.
Qed.

Lemma C5_failure_paths_witness :
  Service.generateImage (Fulfilled (Service.response_with [Service.text "I cannot draw that."]))
    = Rejected "No image was generated."
  /\ CreativeAssistant.error
       (fst (CreativeAssistant.step (gallery_sample, App.initial)
               (CreativeAssistant.IterateImage "add a hat"
                  (Fulfilled (Service.response_with [Service.text "I cannot draw that."])))))
     = Some "No image was generated."
  /\ CreativeAssistant.imageHistory
       (fst (CreativeAssistant.step (gallery_sample, App.initial)
               (CreativeAssistant.IterateImage "add a hat"
                  (Fulfilled (Service.response_with [Service.text "I cannot draw that."])))))
     = ["data:image/png;base64,A"; "B"; "C"].
Proof.
  assert (H : Service.generateImage (Fulfilled (Service.response_with [Service.text "I cannot draw that."]))
              = Rejected "No image was generated.") by reflexivity.
  split; [exact H|].
  destruct (C5_failure_paths "No image was generated."
              (Fulfilled (Service.response_with [Service.text "I cannot draw that."])) H)
    as (_ & _ & _ & _ & Hit & _).
  destruct (Hit "add a hat" ["data:image/png;base64,A"; "B"] "C" 0 gallery_sample
              App.initial) as (_ & _ & He & Hh & _).
  split; [exact He | exact Hh].
Defined.

(** ** C6: the poll loop *)

Lemma poll_reaches (backend : Service.VideoBackend) (final : Service.Operation) :
  forall (n fuel i : nat) (operation : Service.Operation) (effects : list Service.Effect),
    (n <= fuel)%nat ->
    report backend i = Fulfilled operation ->
    (forall j, (i <= j <= i + n)%nat ->
       exists op, report backend j = Fulfilled op
                  /\ Service.done op = Nat.eqb j (i + n)) ->
    report backend (i + n) = Fulfilled final ->
    Service.poll fuel backend operation i effects
    = Some (Fulfilled final, effects ++ cycles n).
Proof.
  induction n as [|n IH]; intros fuel i operation effects Hfuel Hcur Hall Hfinal.
  - rewrite Nat.add_0_r in *. rewrite Hcur in Hfinal. inversion Hfinal; subst.
    destruct (Hall i) as (op & Hop & Hdone); [lia|].
    rewrite Hcur in Hop. inversion Hop; subst. rewrite Nat.eqb_refl in Hdone.
    destruct fuel; cbn [Service.poll]; rewrite Hdone, app_nil_r; reflexivity.
  - destruct fuel as [|fuel]; [lia|].
    destruct (Hall i) as (op & Hop & Hdone); [lia|].
    rewrite Hcur in Hop. inversion Hop; subst.
    assert (E : Nat.eqb i (i + S n) = false) by (apply Nat.eqb_neq; lia).
    rewrite E in Hdone.
    destruct (Hall (S i)) as (next & Hnext & _); [lia|].
    cbn [Service.poll]. rewrite Hdone.
    change (Service.queried backend i) with (report backend (S i)). rewrite Hnext.
    rewrite (IH fuel (S i) next); try assumption; try lia.
    + cbn [cycles]. rewrite <- app_assoc. reflexivity.
    + intros j Hj. replace (S i + n)%nat with (i + S n)%nat by lia. apply Hall. lia.
    + replace (S i + n)%nat with (i + S n)%nat by lia. exact Hfinal.
Qed.

Lemma poll_still_pending (backend : Service.VideoBackend) :
  forall (fuel i : nat) (operation : Service.Operation) (effects : list Service.Effect),
    report backend i = Fulfilled operation ->
    (forall j, (i <= j <= i + fuel)%nat ->
       exists op, report backend j = Fulfilled op /\ Service.done op = false) ->
    Service.poll fuel backend operation i effects = None.
Proof.
  induction fuel as [|fuel IH]; intros i operation effects Hcur Hall.
  - destruct (Hall i) as (op & Hop & Hdone); [lia|].
    rewrite Hcur in Hop. inversion Hop; subst. cbn. rewrite Hdone. reflexivity.
  - destruct (Hall i) as (op & Hop & Hdone); [lia|].
    rewrite Hcur in Hop. inversion Hop; subst.
    destruct (Hall (S i)) as (next & Hnext & _); [lia|].
    cbn [Service.poll]. rewrite Hdone.
    change (Service.queried backend i) with (report backend (S i)). rewrite Hnext.
    apply IH; [exact Hnext|]. intros j Hj. apply Hall. lia.
Qed.

(** C6 (amended).  After submitting, the poller looks at the operation it
    got back: while it is not done it waits 10 seconds and asks for the job
    status, and it leaves the loop at the first operation marked done.  If
    the [k]-th operation it sees (the submission's answer being number 0, the
    answer to the [i]-th status query number [i]) is the first one done, it
    performs exactly [k] wait-then-query cycles - none at all when the
    submission's answer is already done - and then throws exactly when the
    final operation carries no download link; with fewer than [k] iterations
    allowed it is still polling. *)
Theorem C6_poll_until_done :
  forall (fuel k : nat) (apiKey : string) (backend : Service.VideoBackend)
         (final : Service.Operation) (characterImage : ImageFile) (motion : string),
    JS.truthy apiKey = true ->
    first_done_at backend k ->
    report backend k = Fulfilled final ->
    Service.animateCharacter fuel apiKey backend characterImage motion
    = if (k <=? fuel)%nat
      then Some (resolution final,
                 Service.generateVideos motion characterImage :: cycles k)
      else None.
Proof.
  intros fuel k apiKey backend final characterImage motion Hkey Hfirst Hfinal.
  unfold Service.animateCharacter. rewrite Hkey. cbn [negb].
  destruct (Hfirst O) as (first & Hsub & Hd0); [lia|].
  cbn [report] in Hsub. rewrite Hsub.
  destruct (k <=? fuel)%nat eqn:E.
  - apply Nat.leb_le in E.
    rewrite (poll_reaches backend final k fuel 0 first); try assumption.
    + unfold resolution. destruct (JS.truthy_opt (Service.uri final)); reflexivity.
    + intros j Hj. apply Hfirst. lia.
  - apply Nat.leb_gt in E.
    rewrite (poll_still_pending backend fuel 0 first); [reflexivity | exact Hsub |].
    intros j Hj. destruct (Hfirst j) as (op & Hop & Hdone); [lia|].
    exists op. split; [exact Hop|]. rewrite Hdone. apply Nat.eqb_neq. lia.
Qed.

Lemma C6_poll_until_done_witness :
  JS.truthy "KEY" = true
  /\ first_done_at slow_backend 2
  /\ Service.animateCharacter 5 "KEY" slow_backend portrait "waving hello"
     = Some (Fulfilled "https://video/R?alt=media",
             [Service.generateVideos "waving hello" portrait;
              Service.setTimeout 10000; Service.getVideosOperation;
              Service.setTimeout 10000; Service.getVideosOperation]).
Proof.
  assert (H : first_done_at slow_backend 2).
  { intros j Hj. destruct j as [|[|[|j]]]; [eexists; split; reflexivity ..|lia]. }
  split; [reflexivity|]. split; [exact H|].
  exact (C6_poll_until_done 5 2 "KEY" slow_backend
           (Service.mkOperation true (Some "https://video/R?alt=media")) portrait
           "waving hello" eq_refl H eq_refl).
Defined.

(** C6 fails when the submission's answer is already marked done: the
    promise resolves with the link without a single wait or status query. *)
Lemma C6_done_at_submission :
  Service.animateCharacter 0 "KEY" eager_backend portrait "waving hello"
  = Some (Fulfilled "https://video/R?alt=media",
          [Service.generateVideos "waving hello" portrait])
  /\ Service.animateCharacter 3 "KEY" eager_backend portrait "waving hello"
  = Some (Fulfilled "https://video/R?alt=media",
          [Service.generateVideos "waving hello" portrait]).
Proof. split; reflexivity. Qed.

(** ** C7: what the before/after slider compares *)

(** C7 fails in FaceSwap, where the second history entry is compared with
    the upload and not with the first entry, and in the Creative Assistant,
    where the first entry is shown alone, without any baseline. *)
Lemma C7_baseline_is_not_previous_entry :
  FaceSwap.editHistory faceswap_edited = ["A"; "B"]
  /\ FaceSwap.editHistoryIndex faceswap_edited = 1
  /\ FaceSwap.renderContent faceswap_edited
     = FaceSwap.ResultView "data:image/png;base64,SRC" "B" false
  /\ FaceSwap.renderContent faceswap_edited <> FaceSwap.ResultView "A" "B" false
  /\ CreativeAssistant.currentHistoryIndex gallery_first = 0
  /\ CreativeAssistant.render gallery_first
     = CreativeAssistant.Main CreativeAssistant.IterationForm
         (Some (CreativeAssistant.SingleImage (Some "data:image/png;base64,A"))) false.
Proof. repeat split; try reflexivity. vm_compute. discriminate. Qed.

(** C7 (amended).  Whenever FaceSwap or BackgroundRemover show their slider,
    it pairs the original upload with the history entry under the cursor,
    whatever the cursor.  The Creative Assistant pairs the entry just before
    the cursor with the entry under the cursor when there is such a previous
    entry; at cursor 0 it shows the current image alone. *)
Theorem C7_slider_pairs :
  forall (fs : FaceSwap.state) (br : BackgroundRemover.state)
         (ca : CreativeAssistant.state) (previous current : string),
    JS.index (CreativeAssistant.imageHistory ca)
             (CreativeAssistant.currentHistoryIndex ca - 1) = Some previous ->
    JS.truthy previous = true ->
    JS.index (CreativeAssistant.imageHistory ca)
             (CreativeAssistant.currentHistoryIndex ca) = Some current ->
    match FaceSwap.renderContent fs with
    | FaceSwap.ResultView beforeImage afterImage _ =>
        FaceSwap.originalImage fs = Some beforeImage
        /\ JS.index (FaceSwap.editHistory fs) (FaceSwap.editHistoryIndex fs)
           = Some afterImage
    | _ => True
    end
    /\ match BackgroundRemover.renderContent br with
       | BackgroundRemover.ResultView beforeImage afterImage _ =>
           BackgroundRemover.originalImage br = Some beforeImage
           /\ JS.index (BackgroundRemover.editHistory br)
                       (BackgroundRemover.editHistoryIndex br) = Some afterImage
       | _ => True
       end
    /\ CreativeAssistant.renderResults ca
       = CreativeAssistant.BeforeAfterSlider previous (Some current)
    /\ (forall items,
          CreativeAssistant.renderResults (CreativeAssistant.with_history items 0 ca)
          = CreativeAssistant.SingleImage (JS.index items 0)).
Proof.
  intros fs br ca previous current.
  assert (Hfs : match FaceSwap.renderContent fs with
                | FaceSwap.ResultView beforeImage afterImage _ =>
                    FaceSwap.originalImage fs = Some beforeImage
                    /\ JS.index (FaceSwap.editHistory fs) (FaceSwap.editHistoryIndex fs)
                       = Some afterImage
                | _ => True
                end);
    [|assert (Hbr : match BackgroundRemover.renderContent br with
                    | BackgroundRemover.ResultView beforeImage afterImage _ =>
                        BackgroundRemover.originalImage br = Some beforeImage
                        /\ JS.index (BackgroundRemover.editHistory br)
                                    (BackgroundRemover.editHistoryIndex br)
                           = Some afterImage
                    | _ => True
                    end);
      [|intros Hprev Htruthy Hcur; split; [exact Hfs|]; split; [exact Hbr|]; split]].
  - unfold FaceSwap.renderContent, FaceSwap.result.
    destruct (FaceSwap.isLoading fs); [exact I|].
    destruct (JS.truthy_opt (FaceSwap.error fs)); [exact I|].
    destruct (0 <? JS.len (FaceSwap.editHistory fs)); [|exact I].
    destruct (JS.index _ _) as [r|]; [|exact I].
    destruct (FaceSwap.originalImage fs) as [o|]; [|exact I].
    destruct (JS.truthy r && JS.truthy o); [split; reflexivity | exact I].
  - unfold BackgroundRemover.renderContent, BackgroundRemover.finalResult.
    destruct (BackgroundRemover.isLoading br); [exact I|].
    destruct (JS.truthy_opt (BackgroundRemover.error br)); [exact I|].
    destruct (BackgroundRemover.stage br).
    + exact I.
    + destruct (0 <? JS.len (BackgroundRemover.editHistory br));
        [destruct (JS.index (BackgroundRemover.editHistory br)
                            (BackgroundRemover.editHistoryIndex br))|];
        destruct (BackgroundRemover.originalImage br);
        destruct (BackgroundRemover.foregroundImage br) as [f|];
        try destruct (JS.truthy f); exact I.
    + destruct (0 <? JS.len (BackgroundRemover.editHistory br)); [|exact I].
      destruct (JS.index (BackgroundRemover.editHistory br)
                         (BackgroundRemover.editHistoryIndex br)) as [r|]; [|exact I].
      destruct (BackgroundRemover.originalImage br) as [o|]; [|exact I].
      destruct (JS.truthy r && JS.truthy o); [split; reflexivity | exact I].
  - unfold CreativeAssistant.renderResults. rewrite Hprev, Htruthy, Hcur. reflexivity.
  - intro items. unfold CreativeAssistant.renderResults. reflexivity.
Qed.

Lemma C7_slider_pairs_witness :
  JS.index (CreativeAssistant.imageHistory gallery_latest)
           (CreativeAssistant.currentHistoryIndex gallery_latest - 1) = Some "B"
  /\ JS.truthy "B" = true
  /\ JS.index (CreativeAssistant.imageHistory gallery_latest)
              (CreativeAssistant.currentHistoryIndex gallery_latest) = Some "C"
  /\ CreativeAssistant.renderResults gallery_latest
     = CreativeAssistant.BeforeAfterSlider "B" (Some "C").
Proof.
  split; [reflexivity|]. split; [reflexivity|]. split; [reflexivity|].
  exact (proj1 (proj2 (proj2
           (C7_slider_pairs faceswap_edited remover_sample gallery_latest "B" "C"
              eq_refl eq_refl eq_refl)))).
Defined.

(** ** C8: the request of an iteration *)

Lemma split_before (c : ascii) (s rest : string) :
  has_char c s = false ->
  JS.split c (s ++ String c rest)%string = s :: JS.split c rest.
Proof.
  induction s as [|d s IH]; intro H.
  - cbn. rewrite Ascii.eqb_refl. reflexivity.
  - cbn in H. apply orb_false_elim in H. destruct H as [Hd Hs].
    cbn. rewrite Hd. rewrite (IH Hs). reflexivity.
Qed.

Lemma split_whole (c : ascii) (s : string) :
  has_char c s = false -> JS.split c s = [s].
Proof.
  induction s as [|d s IH]; intro H; [reflexivity|].
  cbn in H. apply orb_false_elim in H. destruct H as [Hd Hs].
  cbn. rewrite Hd. rewrite (IH Hs). reflexivity.
Qed.

Lemma has_char_app (c : ascii) (s t : string) :
  has_char c (s ++ t)%string = has_char c s || has_char c t.
Proof.
  induction s as [|d s IH]; [reflexivity|].
  cbn. rewrite IH. apply orb_assoc.
Qed.

Lemma append_assoc (s t u : string) : ((s ++ t) ++ u = s ++ (t ++ u))%string.
Proof. induction s as [|d s IH]; [reflexivity|]. cbn. rewrite IH. reflexivity. Qed.

Lemma append_nil_r (s : string) : (s ++ EmptyString)%string = s.
Proof. induction s as [|d s IH]; [reflexivity|]. cbn. rewrite IH. reflexivity. Qed.

Lemma until_semicolon_before (s rest : string) :
  has_char ";"%char s = false ->
  CreativeAssistant.until_semicolon (s ++ String ";"%char rest)%string = Some s.
Proof.
  induction s as [|d s IH]; intro H; [reflexivity|].
  cbn in H. apply orb_false_elim in H. destruct H as [Hd Hs].
  cbn [append CreativeAssistant.until_semicolon]. rewrite Hd, (IH Hs). reflexivity.
Qed.

Lemma strip_prefix_app (p s : string) :
  CreativeAssistant.strip_prefix p (p ++ s)%string = Some s.
Proof.
  induction p as [|c p IH]; [destruct s; reflexivity|].
  cbn. rewrite Ascii.eqb_refl. exact IH.
Qed.

Lemma match_mime_here (s m : string) :
  CreativeAssistant.mime_at s = Some m -> CreativeAssistant.match_mime s = Some m.
Proof. intro H. destruct s; cbn [CreativeAssistant.match_mime]; rewrite H; reflexivity. Qed.

(** Taking a generated image apart again gives back its payload and its
    mime type. *)
Lemma lastImageFile_of_dataUrl (subtype payload : string) :
  plain_image subtype payload ->
  CreativeAssistant.lastImageFile
    (dataUrl (mkImageFile (Some payload) ("image/" ++ subtype)%string))
  = mkImageFile (Some payload) ("image/" ++ subtype)%string.
Proof.
  intros (Hne & Hsemi & Hcomma & Hpay).
  unfold CreativeAssistant.lastImageFile, dataUrl.
  cbn [type data JS.interpolate]. f_equal.
  - replace ("data:" ++ ("image/" ++ subtype) ++ ";base64," ++ payload)%string
      with (("data:image/" ++ subtype ++ ";base64") ++ String ","%char payload)%string.
    + rewrite split_before.
      * rewrite (split_whole _ payload Hpay). reflexivity.
      * rewrite has_char_app, has_char_app, Hcomma. reflexivity.
    + cbn. rewrite append_assoc. reflexivity.
  - rewrite (match_mime_here _ ("image/" ++ subtype)%string); [reflexivity|].
    unfold CreativeAssistant.mime_at.
    replace ("data:" ++ ("image/" ++ subtype) ++ ";base64," ++ payload)%string
      with ("data:image/" ++ (subtype ++ String ";"%char ("base64," ++ payload)))%string
      by reflexivity.
    rewrite strip_prefix_app, until_semicolon_before by exact Hsemi.
    destruct subtype; [contradiction | reflexivity].
Qed.

(** C8.  An iteration in the Creative Assistant sends exactly one request:
    the instruction as its one text part, followed by one image part rebuilt
    from the latest history entry; it is the request [generateImage] builds
    from that image as source and an empty asset list, whatever the asset
    library holds.  For an entry that is the data URL of a plain image, the
    image part carries that image's payload and mime type. *)
Theorem C8_iterate_request :
  forall (iterationPrompt : string) (reply : Settled Service.GenerateContentResponse)
         (s : CreativeAssistant.state) (latest : string) (assets : list ImageFile),
    JS.index (CreativeAssistant.imageHistory s)
             (JS.len (CreativeAssistant.imageHistory s) - 1) = Some latest ->
    let events :=
      snd (CreativeAssistant.handleIterateImage iterationPrompt reply
             (with_assetLibrary assets s)) in
    let request :=
      Service.mkRequest "gemini-2.5-flash-image"
        [Service.text iterationPrompt;
         Service.imageToPart (CreativeAssistant.lastImageFile latest)] in
    (exists outcome,
        events = CreativeAssistant.Requested request :: outcome
        /\ forall r, ~ In (CreativeAssistant.Requested r) outcome)
    /\ request
       = Service.generateImage_request iterationPrompt
           (Some (CreativeAssistant.lastImageFile latest)) []
           (CreativeAssistant.aspectRatio (CreativeAssistant.controls s))
    /\ (forall subtype payload,
          plain_image subtype payload ->
          latest = dataUrl (mkImageFile (Some payload) ("image/" ++ subtype)%string) ->
          Service.parts request
          = [Service.text iterationPrompt;
             Service.inlineData (Some payload) ("image/" ++ subtype)%string]).
Proof.
  intros iterationPrompt reply s latest assets Hlast. cbv zeta.
  split; [|split].
  - unfold CreativeAssistant.handleIterateImage, CreativeAssistant.iterate_call,
      CreativeAssistant.iterate_resume.
    change (CreativeAssistant.imageHistory (with_assetLibrary assets s))
      with (CreativeAssistant.imageHistory s).
    rewrite Hlast.
    destruct (Service.generateImage reply) as [url|message];
      cbn [snd CreativeAssistant.iteration_request];
      eexists; (split; [reflexivity|]); intros r Hin; cbn in Hin;
      intuition discriminate.
  - reflexivity.
  - intros subtype payload Hplain ->.
    rewrite (lastImageFile_of_dataUrl subtype payload Hplain). reflexivity.
Qed.

Lemma C8_iterate_request_witness :
  JS.index (CreativeAssistant.imageHistory gallery_first)
           (JS.len (CreativeAssistant.imageHistory gallery_first) - 1)
    = Some "data:image/png;base64,A"
  /\ exists outcome,
       snd (CreativeAssistant.handleIterateImage "add a hat" (Fulfilled (png "A2"))
              (with_assetLibrary [face; portrait] gallery_first))
       = CreativeAssistant.Requested
           (Service.mkRequest "gemini-2.5-flash-image"
              [Service.text "add a hat"; Service.inlineData (Some "A") "image/png"])
         :: outcome.
Proof.
  split; [reflexivity|].
  destruct (C8_iterate_request "add a hat" (Fulfilled (png "A2")) gallery_first
              "data:image/png;base64,A" [face; portrait] eq_refl)
    as ((outcome & Hevents & _) & _ & _).
  exists outcome. exact Hevents.
Defined.

(** ** C10: an iteration always starts from the newest image *)


(** ** C9: saving twice *)

Lemma arr_includes_last (urls : list string) (x : string) :
  JS.arr_includes (urls ++ [x]) x = true.
Proof.
  unfold JS.arr_includes. rewrite existsb_app. cbn.
  rewrite String.eqb_refl. rewrite orb_true_r. reflexivity.
Qed.

Section SaveTwice.

Variable a : App.state.

Lemma FaceSwap_save_twice (s : FaceSwap.state) (artifact original : string) :
  FaceSwap_unsaved s artifact original ->
  let c1 := FaceSwap.handleSave s a in
  let c2 := FaceSwap.handleSave (fst c1) (snd c1) in
  App.libraryCreations (snd c1)
    = App.mkItem "Face Swap" artifact (Some original) None :: App.libraryCreations a
  /\ FaceSwap.isSaved (fst c1) = true
  /\ App.libraryCreations (snd c2) = App.libraryCreations (snd c1)
  /\ App.toasts (snd c2) = App.toasts (snd c1) ++ ["Already saved!"]
  /\ fst c2 = fst c1
  /\ FaceSwap.error (fst c2) = FaceSwap.error s.
Proof.
  intros (Hr & Ho & Htr & Hto & Hs). cbv zeta.
  assert (E1 : FaceSwap.handleSave s a
               = (FaceSwap.mk (FaceSwap.isLoading s) (FaceSwap.error s)
                    (FaceSwap.editHistory s) (FaceSwap.editHistoryIndex s)
                    (FaceSwap.originalImage s) true (FaceSwap.isEditing s),
                  App.handleCreationComplete
                    (App.mkItem "Face Swap" artifact (Some original) None) a)).
  { unfold FaceSwap.handleSave. rewrite Hr, Ho, Htr, Hto, Hs. reflexivity. }
  rewrite E1. cbn [fst snd].
  unfold FaceSwap.handleSave, FaceSwap.result in *.
  cbn [FaceSwap.editHistory FaceSwap.editHistoryIndex FaceSwap.originalImage
       FaceSwap.isSaved FaceSwap.error].
  rewrite Hr, Ho, Htr, Hto. cbn. repeat split; reflexivity.
Qed.

Lemma BackgroundRemover_save_twice (s : BackgroundRemover.state)
    (artifact original : string) :
  BackgroundRemover_unsaved s artifact original ->
  let c1 := BackgroundRemover.handleSave s a in
  let c2 := BackgroundRemover.handleSave (fst c1) (snd c1) in
  App.libraryCreations (snd c1)
    = App.mkItem "Background Edit" artifact (Some original) None :: App.libraryCreations a
  /\ BackgroundRemover.isSaved (fst c1) = true
  /\ App.libraryCreations (snd c2) = App.libraryCreations (snd c1)
  /\ App.toasts (snd c2) = App.toasts (snd c1) ++ ["Already saved!"]
  /\ fst c2 = fst c1
  /\ BackgroundRemover.error (fst c2) = BackgroundRemover.error s.
Proof.
  intros (Hr & Ho & Htr & Hto & Hs). cbv zeta.
  assert (E1 : BackgroundRemover.handleSave s a
               = (BackgroundRemover.mk (BackgroundRemover.stage s)
                    (BackgroundRemover.isLoading s) (BackgroundRemover.error s)
                    (BackgroundRemover.originalImage s)
                    (BackgroundRemover.foregroundImage s)
                    (BackgroundRemover.editHistory s)
                    (BackgroundRemover.editHistoryIndex s) true
                    (BackgroundRemover.isCutoutSaved s) (BackgroundRemover.isEditing s)
                    (BackgroundRemover.backgroundPrompt s),
                  App.handleCreationComplete
                    (App.mkItem "Background Edit" artifact (Some original) None) a)).
  { unfold BackgroundRemover.handleSave. rewrite Hr, Ho, Htr, Hto, Hs. reflexivity. }
  rewrite E1. cbn [fst snd].
  unfold BackgroundRemover.handleSave, BackgroundRemover.finalResult in *.
  cbn [BackgroundRemover.editHistory BackgroundRemover.editHistoryIndex
       BackgroundRemover.originalImage BackgroundRemover.isSaved BackgroundRemover.error].
  rewrite Hr, Ho, Htr, Hto. cbn. repeat split; reflexivity.
Qed.

Lemma CreativeAssistant_save_twice (s : CreativeAssistant.state) (artifact : string) :
  CreativeAssistant_unsaved s artifact ->
  let c1 := CreativeAssistant.handleSaveToLibrary s a in
  let c2 := CreativeAssistant.handleSaveToLibrary (fst c1) (snd c1) in
  App.libraryCreations (snd c1)
    = App.mkItem "Jackson's Creative AI" artifact None None :: App.libraryCreations a
  /\ JS.arr_includes (CreativeAssistant.savedImageUrls (fst c1)) artifact = true
  /\ App.libraryCreations (snd c2) = App.libraryCreations (snd c1)
  /\ App.toasts (snd c2) = App.toasts (snd c1) ++ ["Already saved!"]
  /\ fst c2 = fst c1
  /\ CreativeAssistant.error (fst c2) = CreativeAssistant.error s.
Proof.
  intros (Hc & Ht & Hn). cbv zeta.
  assert (E1 : CreativeAssistant.handleSaveToLibrary s a
               = (CreativeAssistant.with_saved
                    (CreativeAssistant.savedImageUrls s ++ [artifact]) s,
                  App.handleCreationComplete
                    (App.mkItem "Jackson's Creative AI" artifact None None) a)).
  { unfold CreativeAssistant.handleSaveToLibrary. rewrite Hc, Ht, Hn. reflexivity. }
  rewrite E1. cbn [fst snd].
  unfold CreativeAssistant.handleSaveToLibrary.
  cbn [CreativeAssistant.with_saved CreativeAssistant.imageHistory
       CreativeAssistant.currentHistoryIndex CreativeAssistant.savedImageUrls
       CreativeAssistant.error].
  rewrite Hc, Ht, arr_includes_last. cbn. repeat split; reflexivity.
Qed.

End SaveTwice.

(** Two calls of the save handler in a row.  In FaceSwap, BackgroundRemover
    and the Creative Assistant, the handler called on an artifact that is
    shown and not flagged as saved adds exactly one entry for it to the
    library and flags it; called again at once it leaves the library and the
    tool as they are and only raises the "Already saved!" toast.  (On screen
    the Save button is disabled by then, see [clickSave].) *)
Theorem save_twice_in_a_row :
  forall (a : App.state) (fs : FaceSwap.state) (br : BackgroundRemover.state)
         (ca : CreativeAssistant.state) (x1 o1 x2 o2 x3 : string),
    FaceSwap_unsaved fs x1 o1 ->
    BackgroundRemover_unsaved br x2 o2 ->
    CreativeAssistant_unsaved ca x3 ->
    (let c1 := FaceSwap.handleSave fs a in
     let c2 := FaceSwap.handleSave (fst c1) (snd c1) in
     App.libraryCreations (snd c1)
       = App.mkItem "Face Swap" x1 (Some o1) None :: App.libraryCreations a
     /\ FaceSwap.isSaved (fst c1) = true
     /\ App.libraryCreations (snd c2) = App.libraryCreations (snd c1)
     /\ App.toasts (snd c2) = App.toasts (snd c1) ++ ["Already saved!"]
     /\ fst c2 = fst c1
     /\ FaceSwap.error (fst c2) = FaceSwap.error fs)
    /\ (let c1 := BackgroundRemover.handleSave br a in
        let c2 := BackgroundRemover.handleSave (fst c1) (snd c1) in
        App.libraryCreations (snd c1)
          = App.mkItem "Background Edit" x2 (Some o2) None :: App.libraryCreations a
        /\ BackgroundRemover.isSaved (fst c1) = true
        /\ App.libraryCreations (snd c2) = App.libraryCreations (snd c1)
        /\ App.toasts (snd c2) = App.toasts (snd c1) ++ ["Already saved!"]
        /\ fst c2 = fst c1
        /\ BackgroundRemover.error (fst c2) = BackgroundRemover.error br)
    /\ (let c1 := CreativeAssistant.handleSaveToLibrary ca a in
        let c2 := CreativeAssistant.handleSaveToLibrary (fst c1) (snd c1) in
        App.libraryCreations (snd c1)
          = App.mkItem "Jackson's Creative AI" x3 None None :: App.libraryCreations a
        /\ JS.arr_includes (CreativeAssistant.savedImageUrls (fst c1)) x3 = true
        /\ App.libraryCreations (snd c2) = App.libraryCreations (snd c1)
        /\ App.toasts (snd c2) = App.toasts (snd c1) ++ ["Already saved!"]
        /\ fst c2 = fst c1
        /\ CreativeAssistant.error (fst c2) = CreativeAssistant.error ca).
Proof.
  intros a fs br ca x1 o1 x2 o2 x3 H1 H2 H3.
  split; [apply FaceSwap_save_twice; exact H1|].
  split; [apply BackgroundRemover_save_twice; exact H2|].
  apply CreativeAssistant_save_twice; exact H3.
Qed.

Lemma save_twice_in_a_row_sample :
  FaceSwap_unsaved faceswap_edited "B" "data:image/png;base64,SRC"
  /\ BackgroundRemover_unsaved remover_sample "A" "data:image/png;base64,SRC"
  /\ CreativeAssistant_unsaved gallery_first "data:image/png;base64,A"
  /\ App.libraryCreations
       (snd (FaceSwap.handleSave
               (fst (FaceSwap.handleSave faceswap_edited App.initial))
               (snd (FaceSwap.handleSave faceswap_edited App.initial))))
     = [App.mkItem "Face Swap" "B" (Some "data:image/png;base64,SRC") None]
  /\ App.toasts
       (snd (FaceSwap.handleSave
               (fst (FaceSwap.handleSave faceswap_edited App.initial))
               (snd (FaceSwap.handleSave faceswap_edited App.initial))))
     = ["Saved to Library!"; "Already saved!"].
Proof.
  assert (H1 : FaceSwap_unsaved faceswap_edited "B" "data:image/png;base64,SRC")
    by (repeat split; reflexivity).
  assert (H2 : BackgroundRemover_unsaved remover_sample "A" "data:image/png;base64,SRC")
    by (repeat split; reflexivity).
  assert (H3 : CreativeAssistant_unsaved gallery_first "data:image/png;base64,A")
    by (repeat split; reflexivity).
  split; [exact H1|]. split; [exact H2|]. split; [exact H3|].
  destruct (save_twice_in_a_row App.initial faceswap_edited remover_sample gallery_first
              "B" "data:image/png;base64,SRC" "A" "data:image/png;base64,SRC"
              "data:image/png;base64,A" H1 H2 H3)
    as ((Hl1 & _ & Hl2 & Ht & _) & _).
  split.
  - rewrite Hl2, Hl1. reflexivity.
  - rewrite Ht. reflexivity.
Defined.

(** C9 on a session with an undo.  In FaceSwap and in BackgroundRemover the
    saved flag is cleared by a completed edit and not restored by undo:
    artifact [A] is saved, edited into [B], the edit is undone, and [A] is
    saved a second time, so that the library holds two entries for [A].
    The Creative Assistant, which looks the URL up in [savedImageUrls],
    shows its Save button disabled for [A] again and keeps one entry. *)
Theorem C9_saved_again_after_undo :
  let fs := FaceSwap.run faceswap_resave (FaceSwap.initial, App.initial) in
  let br := BackgroundRemover.run remover_resave (BackgroundRemover.initial, App.initial) in
  let ca := CreativeAssistant.run gallery_resave (CreativeAssistant.initial, App.initial) in
  (FaceSwap.result (fst fs) = Some "A"
   /\ App.libraryCreations (snd fs)
      = [App.mkItem "Face Swap" "A" (Some "data:image/png;base64,SRC") None;
         App.mkItem "Face Swap" "A" (Some "data:image/png;base64,SRC") None]
   /\ App.toasts (snd fs) = ["Saved to Library!"; "Saved to Library!"])
  /\ (BackgroundRemover.finalResult (fst br) = Some "A"
      /\ App.libraryCreations (snd br)
         = [App.mkItem "Background Edit" "A" (Some "data:image/png;base64,SRC") None;
            App.mkItem "Background Edit" "A" (Some "data:image/png;base64,SRC") None]
      /\ App.toasts (snd br) = ["Saved to Library!"; "Saved to Library!"])
  /\ (JS.index (CreativeAssistant.imageHistory (fst ca))
               (CreativeAssistant.currentHistoryIndex (fst ca))
      = Some "data:image/png;base64,A"
      /\ App.libraryCreations (snd ca)
         = [App.mkItem "Jackson's Creative AI" "data:image/png;base64,A" None None]
      /\ CreativeAssistant.saveEnabled (fst ca) = false
      /\ App.toasts (snd ca) = ["Saved to Library!"]).
Proof. cbv zeta. repeat split; vm_compute; reflexivity. Qed.

(** * Further properties *)

(** ** ImageEditor: the filter history *)

Lemma editor_step_invariant (s : ImageEditor.state) (act : ImageEditor.action) :
  editor_invariant s -> editor_invariant (ImageEditor.step s act).
Proof.
  intros [Hr H0]. destruct act; cbn [ImageEditor.step].
  - split; [exact (singleton_in_range "none") | reflexivity].
  - unfold ImageEditor.applyFilter, editor_invariant.
    cbn [ImageEditor.history ImageEditor.historyIndex].
    split; [apply appended_in_range|].
    rewrite slice0_firstn by lia.
    destruct (ImageEditor.history s) as [|f0 rest]; [discriminate H0|].
    replace (Z.to_nat (ImageEditor.historyIndex s + 1))
      with (S (Z.to_nat (ImageEditor.historyIndex s))) by lia.
    exact H0.
  - unfold ImageEditor.handleUndo, ImageEditor.canUndo.
    destruct (0 <? ImageEditor.historyIndex s) eqn:E; [|split; assumption].
    apply Z.ltb_lt in E. split; cbn; [lia | exact H0].
  - unfold ImageEditor.handleRedo, ImageEditor.canRedo.
    destruct (ImageEditor.historyIndex s <? JS.len (ImageEditor.history s) - 1) eqn:E;
      [|split; assumption].
    apply Z.ltb_lt in E. split; cbn; [lia | exact H0].
Qed.

(** The editor's history is never empty, its first entry is always the
    unfiltered image, and the index always points at an entry: whatever is
    applied, undone, redone or reopened. *)
Theorem editor_history_well_formed :
  forall (acts : list ImageEditor.action),
    let s := ImageEditor.run acts ImageEditor.initial in
    editor_invariant s
    /\ exists f, JS.index (ImageEditor.history s) (ImageEditor.historyIndex s) = Some f
                 /\ ImageEditor.currentFilter s = JS.or_else f "none".
Proof.
  intro acts. cbv zeta.
  assert (H : editor_invariant (ImageEditor.run acts ImageEditor.initial)).
  { unfold ImageEditor.run.
    assert (G : forall s, editor_invariant s ->
                          editor_invariant (fold_left ImageEditor.step acts s)).
    { induction acts as [|act acts IH]; intros s Hs; [exact Hs|].
      cbn [fold_left]. apply IH. apply editor_step_invariant. exact Hs. }
    apply G. split; [exact (singleton_in_range "none") | reflexivity]. }
  split; [exact H|]. destruct H as [Hr _].
  destruct (index_in_range _ _ Hr) as [f Hf].
  exists f. split; [exact Hf|]. unfold ImageEditor.currentFilter. rewrite Hf. reflexivity.
Qed.

Lemma slice0_all {A : Type} (l : list A) : JS.slice0 l (JS.len l) = l.
Proof.
  rewrite slice0_firstn by apply len_nonneg.
  unfold JS.len. rewrite Nat2Z.id. apply firstn_all.
Qed.

Lemma apply_all_from (filters h : list string) :
  apply_all filters (ImageEditor.mk h (JS.len h - 1))
  = ImageEditor.mk (h ++ filters) (JS.len (h ++ filters) - 1).
Proof.
  revert h. induction filters as [|f filters IH]; intro h.
  - cbn. rewrite app_nil_r. reflexivity.
  - cbn [apply_all fold_left]. fold (apply_all filters).
    unfold ImageEditor.applyFilter. cbn [ImageEditor.history ImageEditor.historyIndex].
    replace (JS.len h - 1 + 1) with (JS.len h) by lia. rewrite slice0_all.
    rewrite IH. rewrite <- app_assoc. reflexivity.
Qed.

Lemma undo_iter (k : nat) (h : list string) (i : Z) :
  Z.of_nat k <= i ->
  Nat.iter k ImageEditor.handleUndo (ImageEditor.mk h i) = ImageEditor.mk h (i - Z.of_nat k).
Proof.
  induction k as [|k IH]; intro H.
  - cbn. f_equal. lia.
  - rewrite Nat.iter_succ. rewrite IH by lia.
    unfold ImageEditor.handleUndo, ImageEditor.canUndo. cbn [ImageEditor.historyIndex].
    destruct (0 <? i - Z.of_nat k) eqn:E; [|apply Z.ltb_ge in E; lia].
    cbn. f_equal. lia.
Qed.

Lemma redo_iter (k : nat) (h : list string) (i : Z) :
  i + Z.of_nat k <= JS.len h - 1 ->
  Nat.iter k ImageEditor.handleRedo (ImageEditor.mk h i) = ImageEditor.mk h (i + Z.of_nat k).
Proof.
  induction k as [|k IH]; intro H.
  - cbn. f_equal. lia.
  - rewrite Nat.iter_succ. rewrite IH by lia.
    unfold ImageEditor.handleRedo, ImageEditor.canRedo.
    cbn [ImageEditor.historyIndex ImageEditor.history].
    destruct (i + Z.of_nat k <? JS.len h - 1) eqn:E; [|apply Z.ltb_ge in E; lia].
    cbn. f_equal. lia.
Qed.

(** After [n] filters have been applied in a freshly opened editor, the
    history is the unfiltered image followed by the filters, [n] undos show
    the unfiltered image again, and [n] redos from there bring back the last
    filter. *)
Theorem editor_undo_all_redo_all :
  forall (filters : list string),
    let n := List.length filters in
    let s := apply_all filters ImageEditor.initial in
    s = ImageEditor.mk ("none" :: filters) (Z.of_nat n)
    /\ Nat.iter n ImageEditor.handleUndo s = ImageEditor.mk ("none" :: filters) 0
    /\ ImageEditor.currentFilter (Nat.iter n ImageEditor.handleUndo s) = "none"
    /\ Nat.iter n ImageEditor.handleRedo (Nat.iter n ImageEditor.handleUndo s) = s.
Proof.
  intro filters. cbv zeta.
  assert (E : apply_all filters ImageEditor.initial
              = ImageEditor.mk ("none" :: filters) (Z.of_nat (List.length filters))).
  { change ImageEditor.initial with (ImageEditor.mk ["none"] (JS.len ["none"] - 1)).
    rewrite apply_all_from. cbn [app]. f_equal.
    unfold JS.len. cbn [List.length]. lia. }
  rewrite E. split; [reflexivity|].
  rewrite undo_iter by lia. rewrite Z.sub_diag.
  split; [reflexivity|]. split; [reflexivity|].
  rewrite redo_iter; [reflexivity|].
  unfold JS.len. cbn [List.length]. lia.
Qed.

(** ** Undo and redo on the artifact histories *)

(** In FaceSwap and in BackgroundRemover, on a well-formed history: an undo
    that is possible is reverted by redo, a redo that is possible is
    reverted by undo, and an undo or redo that is not possible changes
    nothing. *)
Theorem undo_redo_round_trip :
  forall (fs : FaceSwap.state) (br : BackgroundRemover.state),
    FaceSwap_inv fs ->
    BackgroundRemover_inv br ->
    (if FaceSwap.canUndo fs
     then FaceSwap.handleRedo (FaceSwap.handleUndo fs) = fs
     else FaceSwap.handleUndo fs = fs)
    /\ (if FaceSwap.canRedo fs
        then FaceSwap.handleUndo (FaceSwap.handleRedo fs) = fs
        else FaceSwap.handleRedo fs = fs)
    /\ (if BackgroundRemover.canUndo br
        then BackgroundRemover.handleRedo (BackgroundRemover.handleUndo br) = br
        else BackgroundRemover.handleUndo br = br)
    /\ (if BackgroundRemover.canRedo br
        then BackgroundRemover.handleUndo (BackgroundRemover.handleRedo br) = br
        else BackgroundRemover.handleRedo br = br).
Proof.
  intros fs br Hfs Hbr.
  unfold FaceSwap_inv in Hfs. unfold BackgroundRemover_inv in Hbr.
  apply history_invariant_cases in Hfs. apply history_invariant_cases in Hbr.
  destruct fs as [l e h i o sv ed]. destruct br as [st bl be bo bf bh bi bsv bcs bed bp].
  cbn [FaceSwap.editHistory FaceSwap.editHistoryIndex
       BackgroundRemover.editHistory BackgroundRemover.editHistoryIndex] in *.
  assert (Hf : (i = -1 /\ JS.len h = 0) \/ 0 <= i < JS.len h)
    by (destruct Hfs as [[-> ->]|Hfs]; [left; split; reflexivity | right; exact Hfs]).
  assert (Hb : (bi = -1 /\ JS.len bh = 0) \/ 0 <= bi < JS.len bh)
    by (destruct Hbr as [[-> ->]|Hbr]; [left; split; reflexivity | right; exact Hbr]).
  clear Hfs Hbr.
  repeat split.
  - unfold FaceSwap.handleUndo, FaceSwap.handleRedo, FaceSwap.canUndo, FaceSwap.canRedo.
    cbn [FaceSwap.editHistory FaceSwap.editHistoryIndex].
    destruct (0 <? i) eqn:E; [|reflexivity]. cbn.
    destruct (i - 1 <? JS.len h - 1) eqn:E2; [|apply Z.ltb_ge in E2; lia].
    cbn. f_equal. lia.
  - unfold FaceSwap.handleUndo, FaceSwap.handleRedo, FaceSwap.canUndo, FaceSwap.canRedo.
    cbn [FaceSwap.editHistory FaceSwap.editHistoryIndex].
    destruct (i <? JS.len h - 1) eqn:E; [|reflexivity]. apply Z.ltb_lt in E. cbn.
    destruct (0 <? i + 1) eqn:E2; [|apply Z.ltb_ge in E2; lia].
    cbn. f_equal. lia.
  - unfold BackgroundRemover.handleUndo, BackgroundRemover.handleRedo,
      BackgroundRemover.canUndo, BackgroundRemover.canRedo.
    cbn [BackgroundRemover.editHistory BackgroundRemover.editHistoryIndex].
    destruct (0 <? bi) eqn:E; [|reflexivity]. cbn.
    destruct (bi - 1 <? JS.len bh - 1) eqn:E2; [|apply Z.ltb_ge in E2; lia].
    cbn. f_equal. lia.
  - unfold BackgroundRemover.handleUndo, BackgroundRemover.handleRedo,
      BackgroundRemover.canUndo, BackgroundRemover.canRedo.
    cbn [BackgroundRemover.editHistory BackgroundRemover.editHistoryIndex].
    destruct (bi <? JS.len bh - 1) eqn:E; [|reflexivity]. apply Z.ltb_lt in E. cbn.
    destruct (0 <? bi + 1) eqn:E2; [|apply Z.ltb_ge in E2; lia].
    cbn. f_equal. lia.
Qed.

Lemma undo_redo_round_trip_witness :
  FaceSwap_inv faceswap_edited
  /\ BackgroundRemover_inv remover_sample
  /\ FaceSwap.canUndo faceswap_edited = true
  /\ FaceSwap.handleRedo (FaceSwap.handleUndo faceswap_edited) = faceswap_edited
  /\ BackgroundRemover.canRedo remover_sample = true
  /\ BackgroundRemover.handleUndo (BackgroundRemover.handleRedo remover_sample)
     = remover_sample.
Proof.
  assert (H1 : FaceSwap_inv faceswap_edited).
  { apply history_invariant_cases. right. vm_compute. split; [discriminate | reflexivity]. }
  assert (H2 : BackgroundRemover_inv remover_sample).
  { apply history_invariant_cases. right. vm_compute. split; [discriminate | reflexivity]. }
  destruct (undo_redo_round_trip faceswap_edited remover_sample H1 H2)
    as (R1 & _ & _ & R4).
  split; [exact H1|]. split; [exact H2|]. split; [reflexivity|].
  split; [exact R1|]. split; [reflexivity | exact R4].
Defined.

(** ** Saving what is shown *)

Lemma FaceSwap_result_view (fs : FaceSwap.state) (before after : string)
    (editorOpen : bool) :
  FaceSwap.renderContent fs = FaceSwap.ResultView before after editorOpen ->
  FaceSwap.result fs = Some after
  /\ FaceSwap.originalImage fs = Some before
  /\ JS.truthy after && JS.truthy before = true.
Proof.
  unfold FaceSwap.renderContent.
  destruct (FaceSwap.isLoading fs); [discriminate|].
  destruct (JS.truthy_opt (FaceSwap.error fs)); [discriminate|].
  destruct (FaceSwap.result fs) as [r|]; [|discriminate].
  destruct (FaceSwap.originalImage fs) as [o|]; [|discriminate].
  destruct (JS.truthy r && JS.truthy o) eqn:E; [|discriminate].
  intro H. inversion H; subst. auto.
Qed.

Lemma BackgroundRemover_result_view (br : BackgroundRemover.state)
    (before after : string) (editorOpen : bool) :
  BackgroundRemover.renderContent br
    = BackgroundRemover.ResultView before after editorOpen ->
  BackgroundRemover.finalResult br = Some after
  /\ BackgroundRemover.originalImage br = Some before
  /\ JS.truthy after && JS.truthy before = true.
Proof.
  unfold BackgroundRemover.renderContent.
  destruct (BackgroundRemover.isLoading br); [discriminate|].
  destruct (JS.truthy_opt (BackgroundRemover.error br)); [discriminate|].
  destruct (BackgroundRemover.stage br).
  - destruct (BackgroundRemover.finalResult br), (BackgroundRemover.originalImage br);
      discriminate.
  - destruct (BackgroundRemover.finalResult br), (BackgroundRemover.originalImage br),
      (BackgroundRemover.foregroundImage br) as [f|];
      try destruct (JS.truthy f); discriminate.
  - destruct (BackgroundRemover.finalResult br) as [r|];
      [|destruct (BackgroundRemover.originalImage br); discriminate].
    destruct (BackgroundRemover.originalImage br) as [o|]; [|discriminate].
    destruct (JS.truthy r && JS.truthy o) eqn:E; [|discriminate].
    intro H. inversion H; subst. auto.
Qed.

(** Whenever FaceSwap or BackgroundRemover show their result view, a click
    on Save does one of two things.  If the saved flag is off, the button
    is enabled and the click puts exactly the pair on screen into the
    library (the slider's before image as original, its after image as
    result), raises "Saved to Library!", turns the flag on and leaves the
    same pair on screen, now with the button disabled.  If the flag is on,
    the button is disabled: the click changes nothing, saves nothing and
    raises no toast. *)
Theorem save_stores_the_pair_on_screen :
  forall (fs : FaceSwap.state) (br : BackgroundRemover.state) (a : App.state)
         (before1 after1 before2 after2 : string) (open1 open2 : bool),
    FaceSwap.renderContent fs = FaceSwap.ResultView before1 after1 open1 ->
    BackgroundRemover.renderContent br
      = BackgroundRemover.ResultView before2 after2 open2 ->
    (let c := FaceSwap.step (fs, a) FaceSwap.Save in
     if FaceSwap.isSaved fs
     then FaceSwap.saveEnabled fs = false /\ c = (fs, a)
     else FaceSwap.saveEnabled fs = true
          /\ snd c
             = App.mk (App.mkItem "Face Swap" after1 (Some before1) None
                       :: App.libraryCreations a)
                      (App.toasts a ++ ["Saved to Library!"])
          /\ FaceSwap.isSaved (fst c) = true
          /\ FaceSwap.renderContent (fst c) = FaceSwap.ResultView before1 after1 open1
          /\ FaceSwap.saveEnabled (fst c) = false)
    /\ (let c := BackgroundRemover.step (br, a) BackgroundRemover.Save in
        if BackgroundRemover.isSaved br
        then BackgroundRemover.saveEnabled br = false /\ c = (br, a)
        else BackgroundRemover.saveEnabled br = true
             /\ snd c
                = App.mk (App.mkItem "Background Edit" after2 (Some before2) None
                          :: App.libraryCreations a)
                         (App.toasts a ++ ["Saved to Library!"])
             /\ BackgroundRemover.isSaved (fst c) = true
             /\ BackgroundRemover.renderContent (fst c)
                = BackgroundRemover.ResultView before2 after2 open2
             /\ BackgroundRemover.saveEnabled (fst c) = false).
Proof.
  intros fs br a before1 after1 before2 after2 open1 open2 Hfs Hbr. cbv zeta. split.
  - destruct (FaceSwap_result_view fs _ _ _ Hfs) as (Hr & Ho & Ht).
    cbn [FaceSwap.step]. unfold FaceSwap.clickSave, FaceSwap.saveEnabled.
    rewrite Hfs. destruct (FaceSwap.isSaved fs) eqn:Hs; cbn [negb].
    + split; reflexivity.
    + unfold FaceSwap.handleSave.
      set (saved := FaceSwap.mk _ _ _ _ _ true _).
      assert (Hv : FaceSwap.renderContent saved
                   = FaceSwap.ResultView before1 after1 open1) by exact Hfs.
      assert (Hf : FaceSwap.isSaved saved = true) by reflexivity.
      clearbody saved. rewrite Hr, Ho, Ht, Hs. cbn [negb andb fst snd].
      split; [reflexivity|]. split; [reflexivity|]. split; [exact Hf|].
      rewrite Hv, Hf. split; reflexivity.
  - destruct (BackgroundRemover_result_view br _ _ _ Hbr) as (Hr & Ho & Ht).
    cbn [BackgroundRemover.step].
    unfold BackgroundRemover.clickSave, BackgroundRemover.saveEnabled.
    rewrite Hbr. destruct (BackgroundRemover.isSaved br) eqn:Hs; cbn [negb].
    + split; reflexivity.
    + unfold BackgroundRemover.handleSave.
      set (saved := BackgroundRemover.mk _ _ _ _ _ _ _ true _ _ _).
      assert (Hv : BackgroundRemover.renderContent saved
                   = BackgroundRemover.ResultView before2 after2 open2) by exact Hbr.
      assert (Hf : BackgroundRemover.isSaved saved = true) by reflexivity.
      clearbody saved. rewrite Hr, Ho, Ht, Hs. cbn [negb andb fst snd].
      split; [reflexivity|]. split; [reflexivity|]. split; [exact Hf|].
      rewrite Hv, Hf. split; reflexivity.
Qed.

(** FaceSwap showing an edited result that is not saved yet, and
    BackgroundRemover showing a result that was saved a moment ago. *)
Lemma save_stores_the_pair_on_screen_witness :
  let saved :=
    fst (BackgroundRemover.step (remover_sample, App.initial) BackgroundRemover.Save) in
  FaceSwap.renderContent faceswap_edited
    = FaceSwap.ResultView "data:image/png;base64,SRC" "B" false
  /\ BackgroundRemover.renderContent saved
    = BackgroundRemover.ResultView "data:image/png;base64,SRC" "A" false
  /\ FaceSwap.step (faceswap_edited, App.initial) FaceSwap.Save
    = (fst (FaceSwap.step (faceswap_edited, App.initial) FaceSwap.Save),
       App.mk [App.mkItem "Face Swap" "B" (Some "data:image/png;base64,SRC") None]
              ["Saved to Library!"])
  /\ BackgroundRemover.step (saved, App.initial) BackgroundRemover.Save
    = (saved, App.initial).
Proof.
  cbv zeta. split; [reflexivity|]. split; [reflexivity|].
  pose proof (save_stores_the_pair_on_screen faceswap_edited
                (fst (BackgroundRemover.step (remover_sample, App.initial)
                        BackgroundRemover.Save))
                App.initial _ _ _ _ _ _ eq_refl eq_refl) as [Hfs Hbr].
  cbv zeta in Hfs, Hbr. split.
  - change (FaceSwap.isSaved faceswap_edited) with false in Hfs.
    destruct Hfs as (_ & Hl & _).
    rewrite (surjective_pairing (FaceSwap.step (faceswap_edited, App.initial)
                                   FaceSwap.Save)) at 1.
    rewrite Hl. reflexivity.
  - change (BackgroundRemover.isSaved
              (fst (BackgroundRemover.step (remover_sample, App.initial)
                      BackgroundRemover.Save)))
      with true in Hbr.
    exact (proj2 Hbr).
Defined.

(** ** The library *)

(** The library lists the saved items most recent first: saving a list of
    items one after the other puts them, reversed, in front of what was
    there, and raises one "Saved to Library!" toast per item. *)
Theorem library_is_most_recent_first :
  forall (items : list App.LibraryItem) (a : App.state),
    App.libraryCreations (save_all items a) = rev items ++ App.libraryCreations a
    /\ App.toasts (save_all items a)
       = App.toasts a ++ repeat "Saved to Library!" (List.length items).
Proof.
  induction items as [|item items IH]; intro a.
  - cbn. rewrite app_nil_r. split; reflexivity.
  - change (save_all (item :: items) a)
      with (save_all items (App.handleCreationComplete item a)).
    destruct (IH (App.handleCreationComplete item a)) as [H1 H2].
    rewrite H1, H2. cbn. rewrite <- !app_assoc. split; reflexivity.
Qed.

(** ** The Creative Assistant never saves a URL twice *)

Lemma arr_includes_false (urls : list string) (x : string) :
  JS.arr_includes urls x = false -> ~ In x urls.
Proof.
  unfold JS.arr_includes. intros H Hin.
  assert (E : existsb (String.eqb x) urls = true).
  { apply existsb_exists. exists x. split; [exact Hin | apply String.eqb_refl]. }
  rewrite E in H. discriminate.
Qed.

Lemma deliver_saved (r : CreativeAssistant.Run) (sid : CreativeAssistant.StreamId) :
  CreativeAssistant.savedImageUrls (CreativeAssistant.component (CreativeAssistant.deliver r sid))
  = CreativeAssistant.savedImageUrls (CreativeAssistant.component r).
Proof.
  unfold CreativeAssistant.deliver, CreativeAssistant.resume_fulfilled,
    CreativeAssistant.resume_rejected.
  destruct (CreativeAssistant.task_of sid r) as [|[[|chunk rest] [message|]]|ok];
    try reflexivity; destruct sid; cbn; case_branches; reflexivity.
Qed.

Lemma schedule_saved (schedule : list CreativeAssistant.StreamId)
    (r : CreativeAssistant.Run) :
  CreativeAssistant.savedImageUrls
    (CreativeAssistant.component (fold_left CreativeAssistant.deliver schedule r))
  = CreativeAssistant.savedImageUrls (CreativeAssistant.component r).
Proof.
  revert r. induction schedule as [|sid schedule IH]; intro r; [reflexivity|].
  cbn [fold_left]. rewrite IH. apply deliver_saved.
Qed.

Lemma handleSaveToLibrary_nodup (s : CreativeAssistant.state) (a : App.state) :
  NoDup (CreativeAssistant.savedImageUrls s) ->
  NoDup (CreativeAssistant.savedImageUrls
           (fst (CreativeAssistant.handleSaveToLibrary s a))).
Proof.
  intro H. unfold CreativeAssistant.handleSaveToLibrary.
  destruct (JS.index (CreativeAssistant.imageHistory s)
              (CreativeAssistant.currentHistoryIndex s)) as [currentImage|]; [|exact H].
  destruct (JS.truthy currentImage); cbn [andb]; [|exact H].
  destruct (JS.arr_includes (CreativeAssistant.savedImageUrls s) currentImage) eqn:E;
    cbn [negb fst]; [exact H|].
  cbn [CreativeAssistant.with_saved CreativeAssistant.savedImageUrls].
  apply NoDup_app; [exact H | constructor; [intros []|constructor] |].
  intros x Hin [<-|[]]. exact (arr_includes_false _ _ E Hin).
Qed.

Lemma on_click_saved_nodup (c : CreativeAssistant.state * App.state)
    (k : CreativeAssistant.click) :
  NoDup (CreativeAssistant.savedImageUrls (fst c)) ->
  NoDup (CreativeAssistant.savedImageUrls (fst (CreativeAssistant.on_click c k))).
Proof.
  destruct c as [s a]. cbn [fst]. intro H.
  destruct k; cbn [CreativeAssistant.on_click fst]; try exact H.
  - unfold CreativeAssistant.selectHistory.
    destruct (CreativeAssistant.render s) as [| |form [pane|] [|]]; try exact H.
    destruct (_ && _); exact H.
  - unfold CreativeAssistant.goToLatest.
    destruct (CreativeAssistant.render s) as [| |form results thumbs]; try exact H.
    destruct form; exact H.
  - unfold CreativeAssistant.clickSave.
    destruct (CreativeAssistant.saveEnabled s); [|exact H].
    apply handleSaveToLibrary_nodup. exact H.
  - constructor.
Qed.

Lemma iterate_call_saved (iterationPrompt : string) (s : CreativeAssistant.state) :
  CreativeAssistant.savedImageUrls (fst (CreativeAssistant.iterate_call iterationPrompt s))
  = CreativeAssistant.savedImageUrls s.
Proof.
  unfold CreativeAssistant.iterate_call.
  destruct (JS.index (CreativeAssistant.imageHistory s)
              (JS.len (CreativeAssistant.imageHistory s) - 1)); reflexivity.
Qed.

Lemma iterate_resume_saved (pending : CreativeAssistant.Iteration)
    (reply : Settled Service.GenerateContentResponse) (s : CreativeAssistant.state) :
  CreativeAssistant.savedImageUrls
    (fst (CreativeAssistant.iterate_resume pending reply s))
  = CreativeAssistant.savedImageUrls s.
Proof.
  unfold CreativeAssistant.iterate_resume.
  destruct (Service.generateImage reply); reflexivity.
Qed.

Lemma step_saved_nodup (c : CreativeAssistant.state * App.state)
    (act : CreativeAssistant.action) :
  NoDup (CreativeAssistant.savedImageUrls (fst c)) ->
  NoDup (CreativeAssistant.savedImageUrls (fst (CreativeAssistant.step c act))).
Proof.
  destruct c as [s a]. cbn [fst]. intro H.
  destruct act; cbn [CreativeAssistant.step fst]; try exact H.
  - unfold CreativeAssistant.handleGeneratePrompt. destruct reply; exact H.
  - unfold CreativeAssistant.handleGenerateContent.
    destruct (Service.generateImage imageReply); [|exact H].
    rewrite schedule_saved. destruct (CreativeAssistant.lyrics_wanted s); exact H.
  - unfold CreativeAssistant.handleIterateImage.
    pose proof (iterate_call_saved iterationPrompt s) as Hc.
    destruct (CreativeAssistant.iterate_call iterationPrompt s) as [s1 [pending|]];
      cbn [fst] in *; [rewrite iterate_resume_saved|]; rewrite Hc; exact H.
  - unfold CreativeAssistant.handleIterateImage_while. cbn [fst snd].
    pose proof (iterate_call_saved iterationPrompt s) as Hc.
    destruct (CreativeAssistant.iterate_call iterationPrompt s) as [s1 [pending|]];
      cbn [fst] in *; [|rewrite Hc; exact H].
    rewrite iterate_resume_saved.
    assert (G : forall c, NoDup (CreativeAssistant.savedImageUrls (fst c)) ->
                NoDup (CreativeAssistant.savedImageUrls
                         (fst (fold_left CreativeAssistant.on_click meanwhile c)))).
    { clear. induction meanwhile as [|k meanwhile IH]; intros c Hc; [exact Hc|].
      cbn [fold_left]. apply IH, on_click_saved_nodup, Hc. }
    apply G. cbn [fst]. rewrite Hc. exact H.
  - apply (on_click_saved_nodup (s, a) (CreativeAssistant.ClickThumbnail index) H).
  - apply (on_click_saved_nodup (s, a) CreativeAssistant.ClickGoToLatest H).
  - apply (on_click_saved_nodup (s, a) CreativeAssistant.ClickSave H).
  - constructor.
Qed.

(** In every session of the Creative Assistant the saved URLs are pairwise
    distinct: no sequence of generations, iterations, edits, history clicks
    and saves gets the same image URL saved twice. *)
Theorem gallery_saves_each_url_once :
  forall (acts : list CreativeAssistant.action) (a : App.state),
    NoDup (CreativeAssistant.savedImageUrls
             (fst (CreativeAssistant.run acts (CreativeAssistant.initial, a)))).
Proof.
  intros acts a. unfold CreativeAssistant.run.
  assert (G : forall c, NoDup (CreativeAssistant.savedImageUrls (fst c)) ->
                        NoDup (CreativeAssistant.savedImageUrls
                                 (fst (fold_left CreativeAssistant.step acts c)))).
  { induction acts as [|act acts IH]; intros c Hc; [exact Hc|].
    cbn [fold_left]. apply IH. apply step_saved_nodup. exact Hc. }
  apply G. constructor.
Qed.

(** ** services/geminiService: responses, the client, the poller *)

Lemma first_image_spec (ps : list Service.Part) :
  match Service.first_image ps with
  | Rejected message =>
      message = "No image was generated." /\ Forall is_text ps
  | Fulfilled url =>
      exists texts payload mimeType rest,
        ps = texts ++ Service.inlineData payload mimeType :: rest
        /\ Forall is_text texts
        /\ url = ("data:" ++ mimeType ++ ";base64," ++ JS.interpolate payload)%string
  end.
Proof.
  induction ps as [|part ps IH].
  - cbn. split; [reflexivity | constructor].
  - destruct part as [t|payload mimeType]; cbn [Service.first_image].
    + destruct (Service.first_image ps) as [url|message].
      * destruct IH as (texts & payload & mimeType & rest & E & Ht & Hu).
        exists (Service.text t :: texts), payload, mimeType, rest.
        split; [rewrite E; reflexivity|]. split; [constructor; [exact I | exact Ht] | exact Hu].
      * destruct IH as [Hm Ht]. split; [exact Hm | constructor; [exact I | exact Ht]].
    + exists [], payload, mimeType, ps.
      split; [reflexivity|]. split; [constructor | reflexivity].
Qed.

(** What [generateImage] makes of an answer of the backend.  It returns a
    data URL exactly when the parts of the first candidate can be read and
    hold an image part, and the URL is that of the first image part, whatever
    text comes before it and whatever follows.  It fails with "No image was
    generated." exactly when those parts can be read and hold no image part.
    When the candidates, the first candidate, its content or its parts are
    missing, it fails with the [TypeError] of the unguarded read instead. *)
Theorem first_image_is_first_inline_part :
  forall (response : Service.GenerateContentResponse),
    let readable ps :=
      exists others,
        Service.candidates response
        = Some (Service.mkCandidate (Some (Service.mkContent (Some ps))) :: others) in
    match Service.generateImage (Fulfilled response) with
    | Fulfilled url =>
        exists ps texts payload mimeType rest,
          readable ps
          /\ ps = texts ++ Service.inlineData payload mimeType :: rest
          /\ Forall is_text texts
          /\ url = ("data:" ++ mimeType ++ ";base64," ++ JS.interpolate payload)%string
    | Rejected message =>
        (message = "No image was generated."
         <-> exists ps, readable ps /\ Forall is_text ps)
        /\ (Service.candidates response = None ->
            message = "Cannot read properties of undefined (reading '0')")
        /\ (Service.candidates response = Some [] ->
            message = "Cannot read properties of undefined (reading 'content')")
        /\ (forall others,
              Service.candidates response = Some (Service.mkCandidate None :: others) ->
              message = "Cannot read properties of undefined (reading 'parts')")
        /\ (forall others,
              Service.candidates response
              = Some (Service.mkCandidate (Some (Service.mkContent None)) :: others) ->
              message = "response.candidates[0].content.parts is not iterable")
    end.
Proof.
  intros [[[|[[[[ps|]]|]] others]|]]; cbv zeta;
    cbn [Service.generateImage Service.response_parts Service.candidates
         Service.content Service.content_parts].
  2: { pose proof (first_image_spec ps) as H.
       destruct (Service.first_image ps) as [url|message].
       - destruct H as (texts & payload & mimeType & rest & E & Ht & Hu).
         exists ps, texts, payload, mimeType, rest.
         split; [exists others; reflexivity|]. repeat split; assumption.
       - destruct H as [Hm Ht].
         split; [|repeat split; intros; discriminate].
         split; [|intros _; exact Hm].
         intros _. exists ps. split; [exists others; reflexivity | exact Ht]. }
  all: split;
    [split; [discriminate | intros (ps' & (others' & E) & _); discriminate]|];
    repeat split; intros; first [discriminate | reflexivity].
Qed.

Lemma calls_cached (envKeys : list string) (client : Client.GoogleGenAI) :
  Client.calls envKeys (Some client) = repeat (Fulfilled client) (List.length envKeys).
Proof.
  induction envKeys as [|k envKeys IH]; [reflexivity|].
  cbn [Client.calls Client.getAi List.length repeat]. rewrite IH. reflexivity.
Qed.

(** [getAi] creates the client once.  While no key is configured every call
    fails and nothing is cached; the first call that finds a key creates the
    client, and every later call returns that same client, with that first
    key, even if the environment key has changed or disappeared since. *)
Theorem client_is_created_once :
  forall (n : nat) (key : string) (later : list string),
    JS.truthy key = true ->
    Client.calls (repeat EmptyString n ++ key :: later) None
    = repeat
        (Rejected
           "Configuration Error: API_KEY is not available. Please set the API_KEY environment variable.")
        n
      ++ repeat (Fulfilled (Client.mkClient key)) (S (List.length later)).
Proof.
  intros n key later Hkey. induction n as [|n IH].
  - cbn [repeat app Client.calls Client.getAi]. rewrite Hkey. cbn [negb].
    rewrite calls_cached. reflexivity.
  - cbn [repeat app Client.calls Client.getAi JS.truthy negb]. rewrite IH. reflexivity.
Qed.

Lemma client_is_created_once_witness :
  JS.truthy "KEY-1" = true
  /\ Client.calls [""; "KEY-1"; "KEY-2"; ""] None
     = [Rejected
          "Configuration Error: API_KEY is not available. Please set the API_KEY environment variable.";
        Fulfilled (Client.mkClient "KEY-1"); Fulfilled (Client.mkClient "KEY-1");
        Fulfilled (Client.mkClient "KEY-1")].
Proof.
  split; [reflexivity|].
  exact (client_is_created_once 1 "KEY-1" ["KEY-2"; ""] eq_refl).
Defined.

(** Without an API key [animateCharacter] fails before it has asked the
    backend for anything, whatever the backend would have answered; the
    animator then shows that failure and saves nothing. *)
Theorem no_key_no_request :
  forall (fuel : nat) (backend : Service.VideoBackend) (characterImage : ImageFile)
         (motion : string) (download : Settled CharacterAnimator.Response)
         (s : CharacterAnimator.state) (a : App.state),
    Service.animateCharacter fuel "" backend characterImage motion
    = Some (Rejected "API_KEY environment variable is not configured.", [])
    /\ exists s',
         CharacterAnimator.animate fuel "" backend characterImage motion download s a
         = Some (s', a)
         /\ CharacterAnimator.error s'
            = Some "API_KEY environment variable is not configured."
         /\ CharacterAnimator.resultUrl s' = None
         /\ CharacterAnimator.isLoading s' = false
         /\ CharacterAnimator.apiKeyStatus s' = CharacterAnimator.apiKeyStatus s.
Proof.
  intros. split; [reflexivity|].
  eexists. split; [reflexivity|]. repeat split; reflexivity.
Qed.

Lemma poll_rejected (backend : Service.VideoBackend) (message : string) :
  forall (n fuel i : nat) (operation : Service.Operation) (effects : list Service.Effect),
    (S n <= fuel)%nat ->
    report backend i = Fulfilled operation ->
    (forall j, (i <= j <= i + n)%nat ->
       exists op, report backend j = Fulfilled op /\ Service.done op = false) ->
    report backend (i + S n) = Rejected message ->
    Service.poll fuel backend operation i effects
    = Some (Rejected message, effects ++ cycles (S n)).
Proof.
  induction n as [|n IH]; intros fuel i operation effects Hfuel Hcur Hall Hrej.
  - destruct fuel as [|fuel]; [lia|].
    destruct (Hall i) as (op & Hop & Hdone); [lia|].
    rewrite Hcur in Hop. inversion Hop; subst.
    cbn [Service.poll]. rewrite Hdone.
    change (Service.queried backend i) with (report backend (S i)).
    replace (S i) with (i + 1)%nat by lia. rewrite Hrej. reflexivity.
  - destruct fuel as [|fuel]; [lia|].
    destruct (Hall i) as (op & Hop & Hdone); [lia|].
    rewrite Hcur in Hop. inversion Hop; subst.
    destruct (Hall (S i)) as (next & Hnext & _); [lia|].
    cbn [Service.poll]. rewrite Hdone.
    change (Service.queried backend i) with (report backend (S i)). rewrite Hnext.
    rewrite (IH fuel (S i) next); try assumption; try lia.
    + cbn [cycles]. rewrite <- app_assoc. reflexivity.
    + intros j Hj. apply Hall. lia.
    + replace (S i + S n)%nat with (i + S (S n))%nat by lia. exact Hrej.
Qed.

(** If the job is pending for [k] reports and the backend then fails - the
    submission itself for [k = 0], the [k]-th status query otherwise -
    [animateCharacter] stops polling there: it fails with the backend's
    message after exactly [k] wait-then-query cycles. *)
Theorem poll_stops_at_backend_failure :
  forall (fuel k : nat) (apiKey : string) (backend : Service.VideoBackend)
         (message : string) (characterImage : ImageFile) (motion : string),
    JS.truthy apiKey = true ->
    rejected_at backend k message ->
    (k <= fuel)%nat ->
    Service.animateCharacter fuel apiKey backend characterImage motion
    = Some (Rejected message, Service.generateVideos motion characterImage :: cycles k).
Proof.
  intros fuel k apiKey backend message characterImage motion Hkey [Hrej Hpend] Hfuel.
  unfold Service.animateCharacter. rewrite Hkey. cbn [negb].
  destruct k as [|k].
  - cbn [report] in Hrej. rewrite Hrej. reflexivity.
  - destruct (Hpend O) as (first & Hsub & _); [lia|].
    cbn [report] in Hsub. rewrite Hsub.
    rewrite (poll_rejected backend message k fuel 0 first); try assumption.
    + reflexivity.
    + intros j Hj. apply Hpend. lia.
Qed.

Lemma poll_stops_at_backend_failure_witness :
  JS.truthy "KEY" = true
  /\ rejected_at failing_backend 2 "quota exceeded"
  /\ Service.animateCharacter 9 "KEY" failing_backend portrait "waving hello"
     = Some (Rejected "quota exceeded",
             [Service.generateVideos "waving hello" portrait;
              Service.setTimeout 10000; Service.getVideosOperation;
              Service.setTimeout 10000; Service.getVideosOperation]).
Proof.
  assert (H : rejected_at failing_backend 2 "quota exceeded").
  { split; [reflexivity|]. intros j Hj.
    destruct j as [|[|j]]; [eexists; split; reflexivity ..|lia]. }
  split; [reflexivity|]. split; [exact H|].
  apply (poll_stops_at_backend_failure 9 2 "KEY" failing_backend "quota exceeded"
           portrait "waving hello" eq_refl H).
  lia.
Defined.

(** ** CharacterAnimator: a finished animation *)

(** When the job is done at its [k]-th report with a download link and the
    download succeeds, the animator - given enough iterations to get there -
    shows the blob URL of the download and saves, by itself, exactly one
    library entry that pairs the character's own data URL with that blob
    URL; the key status is left as it was. *)
Theorem animation_is_saved_once :
  forall (fuel k : nat) (apiKey : string) (backend : Service.VideoBackend)
         (final : Service.Operation) (characterImage : ImageFile)
         (motion statusText body blobUrl : string)
         (s : CharacterAnimator.state) (a : App.state),
    JS.truthy apiKey = true ->
    first_done_at backend k ->
    report backend k = Fulfilled final ->
    JS.truthy_opt (Service.uri final) = true ->
    (k <= fuel)%nat ->
    exists s',
      CharacterAnimator.animate fuel apiKey backend characterImage motion
        (Fulfilled (CharacterAnimator.mkResponse true statusText body blobUrl)) s a
      = Some (s', App.handleCreationComplete
                    (App.mkItem "Character Animation" (dataUrl characterImage) None
                       (Some blobUrl)) a)
      /\ CharacterAnimator.resultUrl s' = Some blobUrl
      /\ CharacterAnimator.originalCharacterUrl s' = Some (dataUrl characterImage)
      /\ CharacterAnimator.error s' = None
      /\ CharacterAnimator.isLoading s' = false
      /\ CharacterAnimator.apiKeyStatus s' = CharacterAnimator.apiKeyStatus s.
Proof.
  intros fuel k apiKey backend final characterImage motion statusText body blobUrl s a
         Hkey Hfirst Hfinal Hlink Hfuel.
  unfold CharacterAnimator.animate, Service.animateCharacter. rewrite Hkey. cbn [negb].
  destruct (Hfirst O) as (first & Hsub & _); [lia|].
  cbn [report] in Hsub. rewrite Hsub.
  rewrite (poll_reaches backend final k fuel 0 first); try assumption.
  - rewrite Hlink. eexists. split; [reflexivity|]. repeat split; reflexivity.
  - intros j Hj. apply Hfirst. lia.
Qed.

Lemma animation_is_saved_once_witness :
  JS.truthy "KEY" = true
  /\ first_done_at slow_backend 2
  /\ (2 <= 5)%nat
  /\ exists s',
       CharacterAnimator.animate 5 "KEY" slow_backend portrait "waving hello"
         (Fulfilled (CharacterAnimator.mkResponse true "OK" "" "blob:video-1"))
         CharacterAnimator.initial App.initial
       = Some (s', App.mk [App.mkItem "Character Animation" "data:image/png;base64,SRC"
                             None (Some "blob:video-1")]
                          ["Saved to Library!"]).
Proof.
  assert (H : first_done_at slow_backend 2).
  { intros j Hj. destruct j as [|[|[|j]]]; [eexists; split; reflexivity ..|lia]. }
  assert (L : (2 <= 5)%nat) by lia.
  split; [reflexivity|]. split; [exact H|]. split; [exact L|].
  destruct (animation_is_saved_once 5 2 "KEY" slow_backend
              (Service.mkOperation true (Some "https://video/R?alt=media")) portrait
              "waving hello" "OK" "" "blob:video-1" CharacterAnimator.initial App.initial
              eq_refl H eq_refl eq_refl L) as (s' & Hs & _).
  exists s'. exact Hs.
Defined.

(** ** TopicInput: the selection stays inside the library *)

Lemma same_data_spec (a b : ImageFile) :
  TopicInput.same_data a b = true <-> data a = data b.
Proof.
  unfold TopicInput.same_data. destruct (data a) as [x|], (data b) as [y|].
  - rewrite String.eqb_eq. split; intro H; [rewrite H; reflexivity | inversion H; reflexivity].
  - split; discriminate.
  - split; discriminate.
  - split; reflexivity.
Qed.

Lemma same_data_false (a b : ImageFile) :
  TopicInput.same_data a b = false <-> data a <> data b.
Proof.
  rewrite <- same_data_spec. destruct (TopicInput.same_data a b); split;
    intro H; try reflexivity; try discriminate; exfalso; apply H; reflexivity.
Qed.

Lemma has_same_data (assets : list ImageFile) (a : ImageFile) :
  existsb (fun b => TopicInput.same_data b a) assets = true
  <-> exists b, In b assets /\ data b = data a.
Proof.
  rewrite existsb_exists. split; intros (b & Hin & H); exists b;
    (split; [exact Hin|]); apply same_data_spec; exact H.
Qed.

Lemma lacks_same_data (assets : list ImageFile) (a : ImageFile) :
  existsb (fun b => TopicInput.same_data b a) assets = false
  <-> forall b, In b assets -> data b <> data a.
Proof.
  split.
  - intros H b Hin E.
    assert (T : existsb (fun b => TopicInput.same_data b a) assets = true)
      by (apply has_same_data; exists b; split; assumption).
    rewrite T in H. discriminate.
  - intro H. destruct (existsb _ assets) eqn:E; [|reflexivity].
    apply has_same_data in E. destruct E as (b & Hin & Hb).
    exfalso. exact (H b Hin Hb).
Qed.

Lemma distinct_data_filter (p : ImageFile -> bool) (assets : list ImageFile) :
  distinct_data assets -> distinct_data (filter p assets).
Proof.
  induction assets as [|a assets IH]; intro H; [exact I|].
  destruct H as [Ha Hrest]. cbn [filter]. destruct (p a).
  - split; [|apply IH; exact Hrest].
    apply lacks_same_data. intros b Hin. apply filter_In in Hin. destruct Hin as [Hin _].
    revert b Hin. apply lacks_same_data. exact Ha.
  - apply IH. exact Hrest.
Qed.

Lemma distinct_data_snoc (assets : list ImageFile) (a : ImageFile) :
  distinct_data assets ->
  existsb (fun b => TopicInput.same_data b a) assets = false ->
  distinct_data (assets ++ [a]).
Proof.
  induction assets as [|x assets IH]; intros H Ha.
  - cbn. auto.
  - destruct H as [Hx Hrest]. cbn [app distinct_data].
    cbn [existsb] in Ha. apply orb_false_elim in Ha. destruct Ha as [Hxa Ha].
    split; [|apply IH; assumption].
    rewrite existsb_app. rewrite Hx. cbn.
    rewrite orb_false_r. apply same_data_false. apply same_data_false in Hxa.
    intro E. apply Hxa. symmetry. exact E.
Qed.

Lemma selection_step (s : TopicInput.state) (act : TopicInput.action) :
  selection_invariant s -> selection_invariant (TopicInput.step s act).
Proof.
  intros [Hin Hd]. destruct act; cbn [TopicInput.step].
  - split; [|exact Hd]. intros a Ha. cbn. rewrite existsb_app.
    rewrite (Hin a Ha). reflexivity.
  - destruct (nth_error (TopicInput.assetLibrary s) i) as [asset|] eqn:N;
      [|split; assumption].
    unfold TopicInput.toggleAssetSelection.
    destruct (existsb (fun a => TopicInput.same_data a asset) (TopicInput.selectedAssets s))
      eqn:E; split; cbn.
    + intros a Ha. apply filter_In in Ha. destruct Ha as [Ha _]. exact (Hin a Ha).
    + apply distinct_data_filter. exact Hd.
    + intros a Ha. apply in_app_or in Ha. destruct Ha as [Ha|[<-|[]]]; [exact (Hin a Ha)|].
      apply has_same_data. exists asset. split; [|reflexivity].
      apply nth_error_In with (n := i). exact N.
    + apply distinct_data_snoc; assumption.
  - destruct (nth_error (TopicInput.assetLibrary s) i) as [asset|]; [|split; assumption].
    unfold TopicInput.removeAsset. split; cbn.
    + intros a Ha. apply filter_In in Ha. destruct Ha as [Ha Hne].
      apply has_same_data. apply (Hin a) in Ha. apply has_same_data in Ha.
      destruct Ha as (b & Hb & Hba). exists b. split; [|exact Hba].
      apply filter_In. split; [exact Hb|].
      apply negb_true_iff. apply negb_true_iff in Hne.
      apply same_data_false. apply same_data_false in Hne. rewrite Hba. exact Hne.
    + apply distinct_data_filter. exact Hd.
  - split; cbn; [intros a [] | exact I].
Qed.

(** Whatever assets are added, toggled, removed or reset, the assets handed
    to the prompt generation are assets of the library, no two of them with
    the same data; in particular an asset removed from the library is never
    submitted. *)
Theorem selection_stays_in_library :
  forall (acts : list TopicInput.action),
    let s := TopicInput.run acts TopicInput.initial in
    (forall a, In a (TopicInput.submittedAssets s) ->
       exists b, In b (TopicInput.assetLibrary s) /\ data b = data a)
    /\ distinct_data (TopicInput.submittedAssets s).
Proof.
  intro acts. cbv zeta.
  assert (H : selection_invariant (TopicInput.run acts TopicInput.initial)).
  { unfold TopicInput.run.
    assert (G : forall s, selection_invariant s ->
                          selection_invariant (fold_left TopicInput.step acts s)).
    { induction acts as [|act acts IH]; intros s Hs; [exact Hs|].
      cbn [fold_left]. apply IH. apply selection_step. exact Hs. }
    apply G. split; [intros a [] | exact I]. }
  destruct H as [Hin Hd]. split; [|exact Hd].
  intros a Ha. apply has_same_data. exact (Hin a Ha).
Qed.

(** ** Data URLs: uploads and cutouts *)

Lemma payload_after_comma (head payload : string) :
  has_char ","%char head = false ->
  has_char ","%char payload = false ->
  JS.index (JS.split ","%char (head ++ String ","%char payload)%string) 1 = Some payload.
Proof.
  intros Hh Hp. rewrite split_before by exact Hh.
  rewrite (split_whole _ payload Hp). reflexivity.
Qed.

Lemma data_url_shape (mime payload : string) :
  ("data:" ++ mime ++ ";base64," ++ payload)%string
  = (("data:" ++ mime ++ ";base64") ++ String ","%char payload)%string.
Proof. cbn. rewrite append_assoc. reflexivity. Qed.

Lemma data_url_head (mime : string) :
  has_char ","%char mime = false ->
  has_char ","%char ("data:" ++ mime ++ ";base64")%string = false.
Proof. intro H. cbn. rewrite has_char_app, H. reflexivity. Qed.

(** Reading an upload and writing it back as a data URL is the identity:
    for a file whose reader result is the data URL of its type and payload,
    [fileToImageFile] returns that payload with the file's type, and the data
    URL the tools build from it is the reader's string again.  A reader
    result without a comma yields an image without data, and a result that is
    not a string is refused. *)
Theorem upload_round_trip :
  forall (fileType payload commaFree : string),
    has_char ","%char fileType = false ->
    has_char ","%char payload = false ->
    has_char ","%char commaFree = false ->
    let result := ("data:" ++ fileType ++ ";base64," ++ payload)%string in
    ImageDropzone.fileToImageFile fileType (ImageDropzone.text result)
    = Fulfilled (mkImageFile (Some payload) fileType)
    /\ dataUrl (mkImageFile (Some payload) fileType) = result
    /\ ImageDropzone.fileToImageFile fileType (ImageDropzone.text commaFree)
       = Fulfilled (mkImageFile None fileType)
    /\ ImageDropzone.fileToImageFile fileType ImageDropzone.notText
       = Rejected "Failed to read file.".
Proof.
  intros fileType payload commaFree Ht Hp Hc. cbv zeta.
  split; [|split; [reflexivity|split; [|reflexivity]]].
  - unfold ImageDropzone.fileToImageFile. rewrite data_url_shape.
    rewrite payload_after_comma; [reflexivity | apply data_url_head; exact Ht | exact Hp].
  - unfold ImageDropzone.fileToImageFile. rewrite (split_whole _ commaFree Hc). reflexivity.
Qed.

Lemma upload_round_trip_witness :
  has_char ","%char "image/jpeg" = false
  /\ has_char ","%char "FACE" = false
  /\ has_char ","%char "garbage" = false
  /\ ImageDropzone.fileToImageFile "image/jpeg"
       (ImageDropzone.text "data:image/jpeg;base64,FACE") = Fulfilled face.
Proof.
  split; [reflexivity|]. split; [reflexivity|]. split; [reflexivity|].
  exact (proj1 (upload_round_trip "image/jpeg" "FACE" "garbage" eq_refl eq_refl eq_refl)).
Defined.

Lemma white_space_skipped (w rest : string) :
  In w white_space ->
  BackgroundRemover.has_non_blank (w ++ rest) = BackgroundRemover.has_non_blank rest.
Proof.
  intro H. unfold white_space in H. cbn in H.
  repeat (destruct H as [<-|H]; [reflexivity|]). contradiction.
Qed.

Lemma blank_skipped (ws : list string) (rest : string) :
  Forall (fun w => In w white_space) ws ->
  BackgroundRemover.has_non_blank (joined ws ++ rest)
  = BackgroundRemover.has_non_blank rest.
Proof.
  induction 1 as [|w ws Hw _ IH]; [reflexivity|].
  change (joined (w :: ws)) with (w ++ joined ws)%string.
  rewrite append_assoc, white_space_skipped by exact Hw. exact IH.
Qed.

Lemma visible_is_not_blank (c : ascii) (rest : string) :
  visible c -> BackgroundRemover.has_non_blank (String c rest) = true.
Proof.
  unfold visible. intro H.
  destruct c as [[] [] [] [] [] [] [] []]; vm_compute in H;
    try (exfalso; destruct H as [H1 H2]; discriminate);
    destruct rest as [|c2 [|c3 r3]]; reflexivity.
Qed.

(** The request for a generated background.  When the prompt is empty or
    holds nothing but white space - ASCII or not, such as a no-break space -
    no request is made.  When a visible character follows the leading white
    space, the request carries the cutout's payload, always declared as
    [image/png] whatever mime type the cutout came back with, followed by
    one text part that quotes the prompt as it was typed. *)
Theorem cutout_is_sent_as_png :
  forall (s : BackgroundRemover.state) (mime payload : string),
    has_char ","%char mime = false ->
    has_char ","%char payload = false ->
    BackgroundRemover.foregroundImage s
      = Some ("data:" ++ mime ++ ";base64," ++ payload)%string ->
    (blank (BackgroundRemover.backgroundPrompt s) ->
     Compositing.handleGenerateBackground_request s = None)
    /\ (forall (ws : list string) (c : ascii) (rest : string),
          Forall (fun w => In w white_space) ws ->
          visible c ->
          BackgroundRemover.backgroundPrompt s = (joined ws ++ String c rest)%string ->
          Compositing.handleGenerateBackground_request s
          = Some (Service.mkRequest "gemini-2.5-flash-image"
                    [Service.inlineData (Some payload) "image/png";
                     Service.text
                       ("First, generate a new background image based on this prompt: "
                        ++ Compositing.quote ++ joined ws ++ String c rest
                        ++ Compositing.quote
                        ++ ". Then, composite the main subject from the provided image onto this new background. The provided image has a transparent background.")%string])).
Proof.
  intros s mime payload Hm Hp Hf.
  unfold Compositing.handleGenerateBackground_request. rewrite Hf.
  change (JS.truthy ("data:" ++ mime ++ ";base64," ++ payload)%string) with true.
  cbn [negb orb]. split.
  - intros (ws & Hws & E). rewrite E.
    rewrite <- (append_nil_r (joined ws)), blank_skipped by exact Hws. reflexivity.
  - intros ws c rest Hws Hc E. rewrite E.
    rewrite blank_skipped, visible_is_not_blank by assumption.
    cbn [negb]. unfold Compositing.generated_request, Compositing.foregroundFile.
    rewrite data_url_shape.
    rewrite payload_after_comma; [|apply data_url_head; exact Hm | exact Hp].
    rewrite append_assoc. reflexivity.
Qed.

(** A cutout that came back as WebP, with a prompt that is one no-break
    space, and with a prompt that starts with a space. *)
Lemma cutout_is_sent_as_png_witness :
  let nbsp := utf8_2 "194" "160" in
  has_char ","%char "image/webp" = false
  /\ has_char ","%char "CUT" = false
  /\ BackgroundRemover.foregroundImage (cutout_sample nbsp)
     = Some "data:image/webp;base64,CUT"
  /\ Compositing.handleGenerateBackground_request (cutout_sample nbsp) = None
  /\ exists instruction,
       Compositing.handleGenerateBackground_request (cutout_sample " a beach")
       = Some (Service.mkRequest "gemini-2.5-flash-image"
                 [Service.inlineData (Some "CUT") "image/png"; Service.text instruction]).
Proof.
  cbv zeta. split; [reflexivity|]. split; [reflexivity|]. split; [reflexivity|].
  split.
  - apply (proj1 (cutout_is_sent_as_png (cutout_sample (utf8_2 "194" "160"))
                    "image/webp" "CUT" eq_refl eq_refl eq_refl)).
    exists [utf8_2 "194" "160"]. split; [|reflexivity].
    constructor; [|constructor]. unfold white_space. cbn. tauto.
  - eexists.
    apply (proj2 (cutout_is_sent_as_png (cutout_sample " a beach")
                    "image/webp" "CUT" eq_refl eq_refl eq_refl)
             [" "] "a"%char " beach").
    + constructor; [|constructor]. unfold white_space. cbn. tauto.
    + unfold visible. vm_compute. split; reflexivity.
    + reflexivity.
Defined.

(** ** BackgroundRemover: the result stage has a result *)

Lemma remover_result_step (c : BackgroundRemover.state * App.state)
    (act : BackgroundRemover.action) :
  (BackgroundRemover.stage (fst c) = BackgroundRemover.result ->
   BackgroundRemover.editHistory (fst c) <> []) ->
  BackgroundRemover.stage (fst (BackgroundRemover.step c act)) = BackgroundRemover.result ->
  BackgroundRemover.editHistory (fst (BackgroundRemover.step c act)) <> [].
Proof.
  destruct c as [s a]. cbn [fst]. intro H.
  assert (C : forall fallback reply clearError,
            BackgroundRemover.stage
              (BackgroundRemover.composite_settled fallback reply clearError s)
            = BackgroundRemover.result ->
            BackgroundRemover.editHistory
              (BackgroundRemover.composite_settled fallback reply clearError s) <> []).
  { intros fallback reply clearError. destruct reply; cbn; discriminate. }
  destruct act; cbn [BackgroundRemover.step fst]; try exact H.
  - destruct reply; cbn; discriminate.
  - unfold BackgroundRemover.handleGenerateBackground. destruct (_ || _); [exact H | apply C].
  - unfold BackgroundRemover.handleUploadBackground. destruct file; [|exact H].
    destruct (negb _); [exact H | apply C].
  - unfold BackgroundRemover.handleGreenScreen. destruct (negb _); [exact H | apply C].
  - unfold BackgroundRemover.clickSave.
    destruct (BackgroundRemover.saveEnabled s); [|exact H].
    destruct (BackgroundRemover_saves_history s a) as [[-> _] _].
    unfold BackgroundRemover.handleSave.
    destruct (BackgroundRemover.finalResult s), (BackgroundRemover.originalImage s);
      case_branches; exact H.
  - unfold BackgroundRemover.clickSaveCutout.
    destruct (BackgroundRemover.saveCutoutEnabled s); [|exact H].
    destruct (BackgroundRemover_saves_history s a) as [_ [-> _]].
    unfold BackgroundRemover.handleSaveCutout.
    destruct (BackgroundRemover.foregroundImage s); case_branches; exact H.
  - cbn. intros _ E. apply app_eq_nil in E. destruct E as [_ E]. discriminate.
  - unfold BackgroundRemover.handleUndo. destruct (BackgroundRemover.canUndo s); exact H.
  - unfold BackgroundRemover.handleRedo. destruct (BackgroundRemover.canRedo s); exact H.
  - cbn. discriminate.
  - cbn. discriminate.
Qed.

(** In every session of BackgroundRemover, whenever the tool is at its
    result stage there is a result under the cursor to show, save or edit. *)
Theorem remover_result_stage_has_result :
  forall (acts : list BackgroundRemover.action) (a : App.state),
    let s := fst (BackgroundRemover.run acts (BackgroundRemover.initial, a)) in
    match BackgroundRemover.stage s with
    | BackgroundRemover.result =>
        exists r, BackgroundRemover.finalResult s = Some r
    | _ => True
    end.
Proof.
  intros acts a. cbv zeta.
  assert (G : forall c,
            (BackgroundRemover.stage (fst c) = BackgroundRemover.result ->
             BackgroundRemover.editHistory (fst c) <> []) ->
            BackgroundRemover.stage (fst (BackgroundRemover.run acts c))
            = BackgroundRemover.result ->
            BackgroundRemover.editHistory (fst (BackgroundRemover.run acts c)) <> []).
  { unfold BackgroundRemover.run.
    induction acts as [|act acts IH]; intros c Hc; [exact Hc|].
    cbn [fold_left]. apply IH. apply remover_result_step. exact Hc. }
  specialize (G (BackgroundRemover.initial, a)).
  pose proof (BackgroundRemover_run_inv acts (BackgroundRemover.initial, a)) as Hinv.
  destruct (BackgroundRemover.stage
              (fst (BackgroundRemover.run acts (BackgroundRemover.initial, a)))) eqn:St;
    try exact I.
  assert (Hne : BackgroundRemover.editHistory
                  (fst (BackgroundRemover.run acts (BackgroundRemover.initial, a))) <> [])
    by (apply G; [discriminate | reflexivity]).
  assert (Hi : BackgroundRemover_inv
                 (fst (BackgroundRemover.run acts (BackgroundRemover.initial, a)))).
  { apply Hinv. apply history_invariant_cases. left. split; reflexivity. }
  unfold BackgroundRemover_inv in Hi. destruct Hi as (_ & Hrange & _).
  specialize (Hrange Hne).
  unfold BackgroundRemover.finalResult.
  destruct (0 <? JS.len _) eqn:E; [|apply Z.ltb_ge in E; lia].
  apply index_in_range. exact Hrange.
Qed.

(** ** CreativeAssistant: what the streams leave on screen *)

Lemma skipn_step {A : Type} (n : nat) (l : list A) (x : A) (rest : list A) :
  skipn n l = x :: rest ->
  (S n <= List.length l)%nat
  /\ skipn (S n) l = rest
  /\ firstn (S n) l = firstn n l ++ [x].
Proof.
  revert l. induction n as [|n IH]; intros l H.
  - cbn in H. subst l. cbn. repeat split. lia.
  - destruct l as [|a l]; [discriminate|]. cbn [skipn] in H.
    destruct (IH l H) as (A1 & A2 & A3). repeat split.
    + cbn [List.length]. lia.
    + exact A2.
    + change (firstn (S (S n)) (a :: l)) with (a :: firstn (S n) l).
      rewrite A3. reflexivity.
Qed.

Lemma skipn_end {A : Type} (n : nat) (l : list A) :
  (List.length l <= n)%nat -> firstn (S n) l = firstn n l.
Proof.
  intro H. rewrite (firstn_all2 (n := S n)) by lia.
  rewrite (firstn_all2 (n := n)) by lia. reflexivity.
Qed.

Lemma joined_snoc (l : list string) (x : string) :
  joined (l ++ [x]) = (joined l ++ x)%string.
Proof.
  induction l as [|a l IH].
  - cbn. apply append_nil_r.
  - change (joined ((a :: l) ++ [x])) with (a ++ joined (l ++ [x]))%string.
    rewrite IH. change (joined (a :: l)) with (a ++ joined l)%string.
    symmetry. apply append_assoc.
Qed.

Lemma stream_eqb_true (a b : CreativeAssistant.StreamId) :
  stream_eqb a b = true -> b = a.
Proof. destruct a, b; cbn; congruence. Qed.

Lemma resume_fulfilled_stream (sid : CreativeAssistant.StreamId)
    (r : CreativeAssistant.Run) :
  CreativeAssistant.task_of sid (CreativeAssistant.resume_fulfilled r)
  = CreativeAssistant.task_of sid r
  /\ output_of sid (CreativeAssistant.component (CreativeAssistant.resume_fulfilled r))
     = output_of sid (CreativeAssistant.component r).
Proof.
  unfold CreativeAssistant.resume_fulfilled.
  destruct (negb (CreativeAssistant.resumed r) && CreativeAssistant.all_fulfilled r);
    destruct sid; split; reflexivity.
Qed.

Lemma resume_rejected_stream (sid : CreativeAssistant.StreamId) (message : string)
    (r : CreativeAssistant.Run) :
  CreativeAssistant.task_of sid (CreativeAssistant.resume_rejected message r)
  = CreativeAssistant.task_of sid r
  /\ output_of sid
       (CreativeAssistant.component (CreativeAssistant.resume_rejected message r))
     = output_of sid (CreativeAssistant.component r).
Proof.
  unfold CreativeAssistant.resume_rejected.
  destruct (negb (CreativeAssistant.resumed r)); destruct sid; split; reflexivity.
Qed.

(** Serving a stream moves it one step along its script. *)
Lemma deliver_served (sid : CreativeAssistant.StreamId) (sc : CreativeAssistant.Script)
    (n : nat) (r : CreativeAssistant.Run) :
  CreativeAssistant.task_of sid r = task_after n sc ->
  output_of sid (CreativeAssistant.component r)
  = joined (firstn n (CreativeAssistant.chunks sc)) ->
  CreativeAssistant.task_of sid (CreativeAssistant.deliver r sid) = task_after (S n) sc
  /\ output_of sid (CreativeAssistant.component (CreativeAssistant.deliver r sid))
     = joined (firstn (S n) (CreativeAssistant.chunks sc)).
Proof.
  intros Ht Ho. unfold CreativeAssistant.deliver. rewrite Ht.
  unfold task_after.
  destruct (n <=? List.length (CreativeAssistant.chunks sc))%nat eqn:E.
  - apply Nat.leb_le in E.
    destruct (skipn n (CreativeAssistant.chunks sc)) as [|chunk rest] eqn:Sk.
    + assert (L : (List.length (CreativeAssistant.chunks sc) <= n)%nat).
      { pose proof (length_skipn n (CreativeAssistant.chunks sc)) as Hl.
        rewrite Sk in Hl. cbn in Hl. lia. }
      assert (F : (S n <=? List.length (CreativeAssistant.chunks sc))%nat = false)
        by (apply Nat.leb_gt; lia).
      rewrite F, (skipn_end n _ L), <- Ho.
      destruct (CreativeAssistant.failure sc) as [message|].
      * match goal with
        | |- context [CreativeAssistant.resume_rejected ?m ?R] =>
            destruct (resume_rejected_stream sid m R) as [-> ->]
        end.
        destruct sid; split; reflexivity.
      * match goal with
        | |- context [CreativeAssistant.resume_fulfilled ?R] =>
            destruct (resume_fulfilled_stream sid R) as [-> ->]
        end.
        destruct sid; split; reflexivity.
    + destruct (skipn_step n _ chunk rest Sk) as (A1 & A2 & A3).
      assert (F : (S n <=? List.length (CreativeAssistant.chunks sc))%nat = true)
        by (apply Nat.leb_le; lia).
      rewrite F, A2, A3, joined_snoc, <- Ho.
      destruct sid; split; reflexivity.
  - apply Nat.leb_gt in E.
    assert (F : (S n <=? List.length (CreativeAssistant.chunks sc))%nat = false)
      by (apply Nat.leb_gt; lia).
    assert (L : (List.length (CreativeAssistant.chunks sc) <= n)%nat) by lia.
    rewrite F, (skipn_end n _ L), <- Ho.
    split; [|reflexivity]. rewrite Ht. unfold task_after.
    replace (n <=? List.length (CreativeAssistant.chunks sc))%nat with false
      by (symmetry; apply Nat.leb_gt; lia).
    reflexivity.
Qed.

(** Serving one stream leaves the other as it is. *)
Lemma deliver_other (sid sid' : CreativeAssistant.StreamId) (r : CreativeAssistant.Run) :
  stream_eqb sid sid' = false ->
  CreativeAssistant.task_of sid (CreativeAssistant.deliver r sid')
  = CreativeAssistant.task_of sid r
  /\ output_of sid (CreativeAssistant.component (CreativeAssistant.deliver r sid'))
     = output_of sid (CreativeAssistant.component r).
Proof.
  intro Hne. unfold CreativeAssistant.deliver.
  destruct (CreativeAssistant.task_of sid' r) as [|[[|chunk rest] [message|]]|ok];
    try (split; reflexivity).
  - match goal with
    | |- context [CreativeAssistant.resume_rejected ?m ?R] =>
        destruct (resume_rejected_stream sid m R) as [-> ->]
    end.
    destruct sid, sid'; try discriminate; split; reflexivity.
  - match goal with
    | |- context [CreativeAssistant.resume_fulfilled ?R] =>
        destruct (resume_fulfilled_stream sid R) as [-> ->]
    end.
    destruct sid, sid'; try discriminate; split; reflexivity.
  - destruct sid, sid'; try discriminate; split; reflexivity.
  - destruct sid, sid'; try discriminate; split; reflexivity.
Qed.

Lemma schedule_served (sid : CreativeAssistant.StreamId) (sc : CreativeAssistant.Script)
    (schedule : list CreativeAssistant.StreamId) :
  forall (n : nat) (r : CreativeAssistant.Run),
    CreativeAssistant.task_of sid r = task_after n sc ->
    output_of sid (CreativeAssistant.component r)
    = joined (firstn n (CreativeAssistant.chunks sc)) ->
    let r' := fold_left CreativeAssistant.deliver schedule r in
    CreativeAssistant.task_of sid r' = task_after (n + served sid schedule) sc
    /\ output_of sid (CreativeAssistant.component r')
       = joined (firstn (n + served sid schedule) (CreativeAssistant.chunks sc)).
Proof.
  induction schedule as [|x schedule IH]; intros n r Ht Ho; cbv zeta.
  - unfold served. cbn. rewrite Nat.add_0_r. split; assumption.
  - cbn [fold_left]. unfold served. cbn [filter].
    destruct (stream_eqb sid x) eqn:E.
    + apply stream_eqb_true in E. subst x.
      destruct (deliver_served sid sc n r Ht Ho) as [Ht' Ho'].
      cbn [List.length]. rewrite Nat.add_succ_r.
      apply (IH (S n) _ Ht' Ho').
    + destruct (deliver_other sid x r E) as [Ht' Ho'].
      apply (IH n); [rewrite Ht'; exact Ht | rewrite Ho'; exact Ho].
Qed.

Lemma schedule_idle (sid : CreativeAssistant.StreamId)
    (schedule : list CreativeAssistant.StreamId) :
  forall r : CreativeAssistant.Run,
    CreativeAssistant.task_of sid r = CreativeAssistant.NotStarted ->
    let r' := fold_left CreativeAssistant.deliver schedule r in
    CreativeAssistant.task_of sid r' = CreativeAssistant.NotStarted
    /\ output_of sid (CreativeAssistant.component r')
       = output_of sid (CreativeAssistant.component r).
Proof.
  induction schedule as [|x schedule IH]; intros r Ht; cbv zeta.
  - split; [exact Ht | reflexivity].
  - cbn [fold_left].
    assert (H : CreativeAssistant.task_of sid (CreativeAssistant.deliver r x)
                = CreativeAssistant.task_of sid r
                /\ output_of sid (CreativeAssistant.component
                                    (CreativeAssistant.deliver r x))
                   = output_of sid (CreativeAssistant.component r)).
    { destruct (stream_eqb sid x) eqn:E; [|apply deliver_other; exact E].
      apply stream_eqb_true in E. subst x.
      unfold CreativeAssistant.deliver. rewrite Ht. split; [exact Ht | reflexivity]. }
    destruct H as [Ht' Ho'].
    destruct (IH (CreativeAssistant.deliver r x)) as [A B]; [rewrite Ht'; exact Ht|].
    split; [exact A | rewrite B; exact Ho'].
Qed.

Lemma task_after_start (sc : CreativeAssistant.Script) :
  CreativeAssistant.Running sc = task_after 0 sc.
Proof. destruct sc. reflexivity. Qed.

(** Once the image is there, each output on screen is exactly the chunks its
    own stream has delivered so far, in order, however the two streams are
    interleaved and whether or not the other stream has failed: after a
    schedule that serves the text stream [n] times, [textResult] is the first
    [n] chunks of the text stream put together, and likewise for the lyrics
    when they were requested; without lyrics, [lyricsResult] stays empty. *)
Theorem streams_show_their_own_chunks :
  forall (finalPrompt url : string) (imageReply : Settled Service.GenerateContentResponse)
         (textScript lyricsScript : CreativeAssistant.Script)
         (schedule : list CreativeAssistant.StreamId) (s : CreativeAssistant.state),
    Service.generateImage imageReply = Fulfilled url ->
    let r := CreativeAssistant.handleGenerateContent finalPrompt imageReply
               textScript lyricsScript schedule s in
    let n := served CreativeAssistant.TextStream schedule in
    let m := served CreativeAssistant.LyricsStream schedule in
    CreativeAssistant.textResult (CreativeAssistant.component r)
    = joined (firstn n (CreativeAssistant.chunks textScript))
    /\ CreativeAssistant.textTask r = task_after n textScript
    /\ CreativeAssistant.lyricsResult (CreativeAssistant.component r)
       = (if CreativeAssistant.lyrics_wanted s
          then joined (firstn m (CreativeAssistant.chunks lyricsScript))
          else EmptyString)
    /\ CreativeAssistant.lyricsTask r
       = (if CreativeAssistant.lyrics_wanted s
          then task_after m lyricsScript
          else CreativeAssistant.NotStarted).
Proof.
  intros finalPrompt url imageReply textScript lyricsScript schedule s Himg. cbv zeta.
  unfold CreativeAssistant.handleGenerateContent. rewrite Himg.
  destruct (CreativeAssistant.lyrics_wanted s).
  - match goal with |- context [fold_left _ _ ?r0] => set (start := r0) end.
    destruct (schedule_served CreativeAssistant.TextStream textScript schedule 0 start
                (task_after_start textScript) eq_refl) as [T1 T2].
    destruct (schedule_served CreativeAssistant.LyricsStream lyricsScript schedule 0 start
                (task_after_start lyricsScript) eq_refl) as [L1 L2].
    cbn [Nat.add] in T1, T2, L1, L2. repeat split; assumption.
  - match goal with |- context [fold_left _ _ ?r0] => set (start := r0) end.
    destruct (schedule_served CreativeAssistant.TextStream textScript schedule 0 start
                (task_after_start textScript) eq_refl) as [T1 T2].
    destruct (schedule_idle CreativeAssistant.LyricsStream schedule start eq_refl)
      as [L1 L2].
    cbn [Nat.add] in T1, T2. repeat split; assumption.
Qed.

Lemma streams_show_their_own_chunks_witness :
  Service.generateImage (Fulfilled (png "A")) = Fulfilled "data:image/png;base64,A"
  /\ CreativeAssistant.textResult (CreativeAssistant.component broken_stream_run)
     = "Cats ".
Proof.
  split; [reflexivity|].
  exact (proj1 (streams_show_their_own_chunks "a cat, photorealistic"
                  "data:image/png;base64,A" (Fulfilled (png "A"))
                  (CreativeAssistant.mkScript ["Cats "] (Some "stream interrupted"))
                  (CreativeAssistant.mkScript [] None)
                  [CreativeAssistant.TextStream; CreativeAssistant.TextStream]
                  review_sample eq_refl)).
Defined.

(** ** CreativeAssistant: when the spinner stops *)

Lemma deliver_join (st0 : CreativeAssistant.Stage) (r : CreativeAssistant.Run)
    (sid : CreativeAssistant.StreamId) :
  join_invariant st0 r -> join_invariant st0 (CreativeAssistant.deliver r sid).
Proof.
  destruct r as [c t l res lg].
  unfold join_invariant, any_failed, CreativeAssistant.deliver,
    CreativeAssistant.resume_fulfilled, CreativeAssistant.resume_rejected,
    CreativeAssistant.all_fulfilled.
  destruct sid; cbn [CreativeAssistant.task_of CreativeAssistant.textTask
                      CreativeAssistant.lyricsTask].
  - destruct t as [|[[|chunk rest] [message|]]|[|]]; try (intro H; exact H);
      destruct l as [|sl|[|]]; destruct res; cbn;
      intuition (try discriminate; try congruence).
  - destruct l as [|[[|chunk rest] [message|]]|[|]]; try (intro H; exact H);
      destruct t as [|st|[|]]; destruct res; cbn;
      intuition (try discriminate; try congruence).
Qed.

Lemma schedule_join (st0 : CreativeAssistant.Stage)
    (schedule : list CreativeAssistant.StreamId) :
  forall r : CreativeAssistant.Run,
    join_invariant st0 r ->
    join_invariant st0 (fold_left CreativeAssistant.deliver schedule r).
Proof.
  induction schedule as [|sid schedule IH]; intros r H; [exact H|].
  cbn [fold_left]. apply IH, deliver_join, H.
Qed.

Lemma started_join (finalPrompt url : string) (imageReply : Settled Service.GenerateContentResponse)
    (textScript lyricsScript : CreativeAssistant.Script)
    (schedule : list CreativeAssistant.StreamId) (s : CreativeAssistant.state) :
  Service.generateImage imageReply = Fulfilled url ->
  join_invariant (CreativeAssistant.stage s)
    (CreativeAssistant.handleGenerateContent finalPrompt imageReply textScript
       lyricsScript schedule s).
Proof.
  intro Himg. unfold CreativeAssistant.handleGenerateContent. rewrite Himg.
  apply schedule_join.
  destruct (CreativeAssistant.lyrics_wanted s); unfold join_invariant, any_failed; cbn;
    intuition discriminate.
Qed.

Lemma all_fulfilled_not_failed (r : CreativeAssistant.Run) :
  CreativeAssistant.all_fulfilled r = true -> ~ any_failed r.
Proof.
  unfold CreativeAssistant.all_fulfilled, any_failed.
  destruct (CreativeAssistant.textTask r) as [|st|[|]];
    destruct (CreativeAssistant.lyricsTask r) as [|sl|[|]];
    intuition discriminate.
Qed.

(** After the image, the handler waits for the streams: while a started
    stream is still running and none has failed, the tool is loading, shows
    no error and stays at its stage; as soon as one stream has failed the
    loading stops with an error and the stage is left as it was, even if the
    other stream goes on delivering; and when every started stream has
    finished well the loading has stopped without an error and the stage is
    [iterate]. *)
Theorem content_generation_outcome :
  forall (finalPrompt url : string) (imageReply : Settled Service.GenerateContentResponse)
         (textScript lyricsScript : CreativeAssistant.Script)
         (schedule : list CreativeAssistant.StreamId) (s : CreativeAssistant.state),
    Service.generateImage imageReply = Fulfilled url ->
    let r := CreativeAssistant.handleGenerateContent finalPrompt imageReply
               textScript lyricsScript schedule s in
    let c := CreativeAssistant.component r in
    (CreativeAssistant.all_fulfilled r = true ->
       CreativeAssistant.isLoading c = false
       /\ CreativeAssistant.error c = None
       /\ CreativeAssistant.stage c = CreativeAssistant.iterate)
    /\ (any_failed r ->
       CreativeAssistant.isLoading c = false
       /\ CreativeAssistant.error c <> None
       /\ CreativeAssistant.stage c = CreativeAssistant.stage s)
    /\ (CreativeAssistant.all_fulfilled r = false -> ~ any_failed r ->
       CreativeAssistant.isLoading c = true
       /\ CreativeAssistant.error c = None
       /\ CreativeAssistant.stage c = CreativeAssistant.stage s).
Proof.
  intros finalPrompt url imageReply textScript lyricsScript schedule s Himg. cbv zeta.
  pose proof (started_join finalPrompt url imageReply textScript lyricsScript schedule s
                Himg) as J.
  set (r := CreativeAssistant.handleGenerateContent finalPrompt imageReply textScript
              lyricsScript schedule s) in *.
  pose proof (all_fulfilled_not_failed r) as N.
  unfold join_invariant in J.
  destruct (CreativeAssistant.resumed r).
  - destruct J as [L [(A & St & E)|(F & St & E)]].
    + split; [|split].
      * intros _. split; [exact L | split; [exact E | exact St]].
      * intro F. exfalso. exact (N A F).
      * intros A'. rewrite A in A'. discriminate.
    + split; [|split].
      * intro A. exfalso. exact (N A F).
      * intros _. split; [exact L | split; [exact E | exact St]].
      * intros _ NF. exfalso. exact (NF F).
  - destruct J as (L & St & E & A & NF). split; [|split].
    + intro A'. rewrite A in A'. discriminate.
    + intro F. exfalso. exact (NF F).
    + intros _ _. split; [exact L | split; [exact E | exact St]].
Qed.

Lemma content_generation_outcome_witness :
  Service.generateImage (Fulfilled (png "A")) = Fulfilled "data:image/png;base64,A"
  /\ any_failed broken_stream_run
  /\ CreativeAssistant.isLoading (CreativeAssistant.component broken_stream_run) = false
  /\ CreativeAssistant.error (CreativeAssistant.component broken_stream_run) <> None
  /\ CreativeAssistant.stage (CreativeAssistant.component broken_stream_run)
     = CreativeAssistant.content.
Proof.
  split; [reflexivity|].
  split; [left; reflexivity|].
  exact (proj1 (proj2 (content_generation_outcome "a cat, photorealistic"
                         "data:image/png;base64,A" (Fulfilled (png "A"))
                         (CreativeAssistant.mkScript ["Cats "] (Some "stream interrupted"))
                         (CreativeAssistant.mkScript [] None)
                         [CreativeAssistant.TextStream; CreativeAssistant.TextStream]
                         review_sample eq_refl))
               (or_introl eq_refl)).
Defined.

Lemma task_after_done (n : nat) (sc : CreativeAssistant.Script) :
  CreativeAssistant.failure sc = None ->
  (List.length (CreativeAssistant.chunks sc) < n)%nat ->
  task_after n sc = CreativeAssistant.Finished true
  /\ joined (firstn n (CreativeAssistant.chunks sc)) = joined (CreativeAssistant.chunks sc).
Proof.
  intros F L. unfold task_after.
  replace (n <=? List.length (CreativeAssistant.chunks sc))%nat with false
    by (symmetry; apply Nat.leb_gt; lia).
  rewrite F, firstn_all2 by lia. split; reflexivity.
Qed.

(** A content generation completes: when the image is generated, no started
    stream fails, and the event loop serves every started stream until its
    end, the tool has stopped loading, shows no error, is at the [iterate]
    stage with the new image as its only history entry, and shows the whole
    text (and the whole lyrics when they were requested). *)
Theorem finished_streams_reach_iterate :
  forall (finalPrompt url : string) (imageReply : Settled Service.GenerateContentResponse)
         (textScript lyricsScript : CreativeAssistant.Script)
         (schedule : list CreativeAssistant.StreamId) (s : CreativeAssistant.state),
    Service.generateImage imageReply = Fulfilled url ->
    CreativeAssistant.failure textScript = None ->
    (List.length (CreativeAssistant.chunks textScript)
     < served CreativeAssistant.TextStream schedule)%nat ->
    (CreativeAssistant.lyrics_wanted s = true ->
     CreativeAssistant.failure lyricsScript = None
     /\ (List.length (CreativeAssistant.chunks lyricsScript)
         < served CreativeAssistant.LyricsStream schedule)%nat) ->
    let c := CreativeAssistant.component
               (CreativeAssistant.handleGenerateContent finalPrompt imageReply
                  textScript lyricsScript schedule s) in
    CreativeAssistant.isLoading c = false
    /\ CreativeAssistant.error c = None
    /\ CreativeAssistant.stage c = CreativeAssistant.iterate
    /\ CreativeAssistant.imageHistory c = [url]
    /\ CreativeAssistant.currentHistoryIndex c = 0
    /\ CreativeAssistant.detailedPrompt c = finalPrompt
    /\ CreativeAssistant.textResult c = joined (CreativeAssistant.chunks textScript)
    /\ CreativeAssistant.lyricsResult c
       = (if CreativeAssistant.lyrics_wanted s
          then joined (CreativeAssistant.chunks lyricsScript)
          else EmptyString).
Proof.
  intros finalPrompt url imageReply textScript lyricsScript schedule s Himg Ft Lt Hl.
  cbv zeta.
  pose proof (started_join finalPrompt url imageReply textScript lyricsScript schedule s
                Himg) as J.
  assert (H : let r := CreativeAssistant.handleGenerateContent finalPrompt imageReply
                         textScript lyricsScript schedule s in
              CreativeAssistant.textTask r = CreativeAssistant.Finished true
              /\ (CreativeAssistant.lyricsTask r = CreativeAssistant.Finished true
                  \/ CreativeAssistant.lyricsTask r = CreativeAssistant.NotStarted)
              /\ CreativeAssistant.textResult (CreativeAssistant.component r)
                 = joined (CreativeAssistant.chunks textScript)
              /\ CreativeAssistant.lyricsResult (CreativeAssistant.component r)
                 = (if CreativeAssistant.lyrics_wanted s
                    then joined (CreativeAssistant.chunks lyricsScript)
                    else EmptyString)
              /\ CreativeAssistant.imageHistory (CreativeAssistant.component r) = [url]
              /\ CreativeAssistant.currentHistoryIndex (CreativeAssistant.component r) = 0
              /\ CreativeAssistant.detailedPrompt (CreativeAssistant.component r)
                 = finalPrompt).
  { cbv zeta. unfold CreativeAssistant.handleGenerateContent. rewrite Himg.
    destruct (task_after_done _ textScript Ft Lt) as [Td To].
    match goal with |- context [fold_left _ _ ?r0] => set (start := r0) end.
    destruct (schedule_served CreativeAssistant.TextStream textScript schedule 0 start)
      as [T1 T2];
      [destruct (CreativeAssistant.lyrics_wanted s); apply task_after_start
      |destruct (CreativeAssistant.lyrics_wanted s); reflexivity|].
    cbn [Nat.add] in T1, T2. cbn [CreativeAssistant.task_of output_of] in T1, T2.
    destruct (schedule_history schedule start) as (Hh & Hi & _).
    assert (Hp : CreativeAssistant.detailedPrompt
                   (CreativeAssistant.component
                      (fold_left CreativeAssistant.deliver schedule start))
                 = CreativeAssistant.detailedPrompt (CreativeAssistant.component start)).
    { clear. generalize start. induction schedule as [|x schedule IH]; intro r;
        [reflexivity|].
      cbn [fold_left]. rewrite IH.
      unfold CreativeAssistant.deliver, CreativeAssistant.resume_fulfilled,
        CreativeAssistant.resume_rejected.
      destruct (CreativeAssistant.task_of x r) as [|[[|chunk rest] [message|]]|ok];
        try reflexivity; case_branches; destruct x; reflexivity. }
    rewrite T1, T2, Td, To, Hh, Hi, Hp.
    subst start. destruct (CreativeAssistant.lyrics_wanted s) eqn:W.
    - destruct (Hl eq_refl) as [Fl Ll].
      destruct (task_after_done _ lyricsScript Fl Ll) as [Ld Lo].
      match goal with |- context [fold_left _ _ ?r0] => set (start := r0) end.
      destruct (schedule_served CreativeAssistant.LyricsStream lyricsScript schedule 0
                  start (task_after_start lyricsScript) eq_refl) as [L1 L2].
      cbn [Nat.add] in L1, L2. cbn [CreativeAssistant.task_of output_of] in L1, L2.
      rewrite L1, L2, Ld, Lo. repeat split; try reflexivity. left; reflexivity.
    - match goal with |- context [fold_left _ _ ?r0] => set (start := r0) end.
      destruct (schedule_idle CreativeAssistant.LyricsStream schedule start eq_refl)
        as [L1 L2].
      cbn [CreativeAssistant.task_of output_of] in L1, L2.
      rewrite L1, L2. repeat split; try reflexivity. right; reflexivity. }
  cbv zeta in H.
  set (r := CreativeAssistant.handleGenerateContent finalPrompt imageReply textScript
              lyricsScript schedule s) in *.
  destruct H as (Tt & Tl & Ht & Hly & Hh & Hi & Hp).
  assert (A : CreativeAssistant.all_fulfilled r = true).
  { unfold CreativeAssistant.all_fulfilled. rewrite Tt.
    destruct Tl as [-> | ->]; reflexivity. }
  assert (NF : ~ any_failed r) by (apply all_fulfilled_not_failed; exact A).
  unfold join_invariant in J.
  destruct (CreativeAssistant.resumed r).
  - destruct J as [L [(_ & St & E)|(F & _)]]; [|exfalso; exact (NF F)].
    repeat split; assumption.
  - destruct J as (_ & _ & _ & A' & _). rewrite A in A'. discriminate.
Qed.

Lemma finished_streams_reach_iterate_witness :
  CreativeAssistant.stage (CreativeAssistant.component complete_run)
  = CreativeAssistant.iterate
  /\ CreativeAssistant.textResult (CreativeAssistant.component complete_run)
     = "Cats purr."
  /\ CreativeAssistant.lyricsResult (CreativeAssistant.component complete_run) = "la la".
Proof.
  pose proof (finished_streams_reach_iterate "a cat, photorealistic"
                "data:image/png;base64,A" (Fulfilled (png "A"))
                (CreativeAssistant.mkScript ["Cats "; "purr."] None)
                (CreativeAssistant.mkScript ["la "; "la"] None)
                [CreativeAssistant.LyricsStream; CreativeAssistant.TextStream;
                 CreativeAssistant.TextStream; CreativeAssistant.LyricsStream;
                 CreativeAssistant.LyricsStream; CreativeAssistant.TextStream]
                (CreativeAssistant.with_lyricsFlag true
                   (CreativeAssistant.handleGeneratePrompt "a cat" None []
                      (CreativeAssistant.mkControls "Photorealistic" "16:9" "Pop"
                         "Cinematic" "Neutral" "Medium Shot")
                      (Fulfilled "a cat, photorealistic") CreativeAssistant.initial))
                eq_refl eq_refl (le_n 3) (fun _ => conj eq_refl (le_n 3))) as H.
  cbv zeta in H. destruct H as (_ & _ & St & _ & _ & _ & Ht & Hl).
  split; [exact St|]. split; [exact Ht | exact Hl].
Defined.

(** ** CreativeAssistant: what an iteration reads and what it writes back *)

(** An iteration reads the history once, when it is asked for, and never the
    selected index.  For a history whose newest entry is the data URL of a
    plain image, whichever entry is selected, the request holds the
    instruction followed by that newest image, with its payload and mime
    type; and when the answer is an image, whatever was clicked while it was
    awaited - thumbnails, Save, edits, Start Over - the history becomes the
    history of the call followed by the new image, with the cursor on it and
    the loading flag off. *)
Theorem iteration_writes_back_the_history_of_its_call :
  forall (iterationPrompt : string) (meanwhile : list CreativeAssistant.click)
         (reply : Settled Service.GenerateContentResponse)
         (s : CreativeAssistant.state) (a : App.state) (i : Z)
         (subtype payload url : string),
    plain_image subtype payload ->
    JS.index (CreativeAssistant.imageHistory s)
             (JS.len (CreativeAssistant.imageHistory s) - 1)
    = Some (dataUrl (mkImageFile (Some payload) ("image/" ++ subtype)%string)) ->
    Service.generateImage reply = Fulfilled url ->
    let called :=
      CreativeAssistant.iterate_call iterationPrompt (CreativeAssistant.with_index i s) in
    let c :=
      CreativeAssistant.step (CreativeAssistant.with_index i s, a)
        (CreativeAssistant.IterateImageWhile iterationPrompt meanwhile reply) in
    option_map CreativeAssistant.iteration_request (snd called)
    = Some (Service.mkRequest "gemini-2.5-flash-image"
              [Service.text iterationPrompt;
               Service.inlineData (Some payload) ("image/" ++ subtype)%string])
    /\ CreativeAssistant.imageHistory (fst c) = CreativeAssistant.imageHistory s ++ [url]
    /\ CreativeAssistant.currentHistoryIndex (fst c)
       = JS.len (CreativeAssistant.imageHistory s)
    /\ JS.index (CreativeAssistant.imageHistory (fst c))
                (CreativeAssistant.currentHistoryIndex (fst c)) = Some url
    /\ CreativeAssistant.isLoading (fst c) = false.
Proof.
  intros iterationPrompt meanwhile reply s a i subtype payload url Hplain Hlast Hreply.
  cbv zeta. cbn [CreativeAssistant.step].
  unfold CreativeAssistant.handleIterateImage_while, CreativeAssistant.iterate_call.
  cbn [fst snd].
  change (CreativeAssistant.imageHistory (CreativeAssistant.with_index i s))
    with (CreativeAssistant.imageHistory s).
  rewrite Hlast. cbn [fst snd option_map CreativeAssistant.iteration_request].
  unfold CreativeAssistant.iterate_resume. rewrite Hreply.
  cbn [fst CreativeAssistant.calledWith CreativeAssistant.imageHistory
       CreativeAssistant.currentHistoryIndex CreativeAssistant.isLoading
       CreativeAssistant.with_status CreativeAssistant.with_history].
  split.
  - unfold Service.generateImage_request. cbn [map app].
    unfold Service.imageToPart.
    rewrite (lastImageFile_of_dataUrl subtype payload Hplain). reflexivity.
  - split; [reflexivity|]. split.
    + rewrite len_app. change (JS.len [url]) with 1. lia.
    + split; [apply index_last | reflexivity].
Qed.

(** Two images, the first one selected; while the third is awaited the user
    edits the first one. *)
Lemma iteration_writes_back_the_history_of_its_call_witness :
  let c :=
    CreativeAssistant.step (CreativeAssistant.with_index 0 gallery_iterated, App.initial)
      (CreativeAssistant.IterateImageWhile "make it night"
         [CreativeAssistant.ClickEdit;
          CreativeAssistant.EditorSave "data:image/png;base64,E"]
         (Fulfilled (png "C"))) in
  plain_image "png" "B"
  /\ CreativeAssistant.imageHistory gallery_iterated
     = ["data:image/png;base64,A"; "data:image/png;base64,B"]
  /\ CreativeAssistant.currentHistoryIndex gallery_iterated = 0
  /\ option_map CreativeAssistant.iteration_request
       (snd (CreativeAssistant.iterate_call "make it night"
               (CreativeAssistant.with_index 0 gallery_iterated)))
     = Some (Service.mkRequest "gemini-2.5-flash-image"
               [Service.text "make it night"; Service.inlineData (Some "B") "image/png"])
  /\ CreativeAssistant.imageHistory (fst c)
     = ["data:image/png;base64,A"; "data:image/png;base64,B";
        "data:image/png;base64,C"]
  /\ CreativeAssistant.currentHistoryIndex (fst c) = 2.
Proof.
  cbv zeta.
  assert (Hplain : plain_image "png" "B").
  { repeat split; try reflexivity. discriminate. }
  split; [exact Hplain|]. split; [reflexivity|]. split; [reflexivity|].
  destruct (iteration_writes_back_the_history_of_its_call "make it night"
              [CreativeAssistant.ClickEdit;
               CreativeAssistant.EditorSave "data:image/png;base64,E"]
              (Fulfilled (png "C")) gallery_iterated App.initial 0 "png" "B"
              "data:image/png;base64,C" Hplain eq_refl eq_refl)
    as (Hreq & Hh & Hi & _).
  split; [exact Hreq|]. split; [exact Hh | exact Hi].
Defined.
